(** * Sana transformer: a shallow embedding of [helpers/models/sana/transformer.py]

    The module defines three classes, [GLUMBConv], [SanaTransformerBlock] and
    [SanaTransformer2DModel].  Their [__init__] and [forward] methods are
    written here once, against an interface of tensor operations
    ([TensorOps]) and of framework layers ([Layers]); the introspection
    methods ([attn_processors], [set_attn_processor]) are written over the
    module tree that [named_children] exposes and a store of processors.

    Python exceptions are values of [exn]; a computation that may raise is a
    [Res].  Integers are [Z]; a Python float is the rational it denotes, and
    an operation on floats is the exact operation followed by the rounding of
    IEEE 754 ([float_round]). *)

From stdpp Require Import functions.
From stdpp Require Import base option list strings gmap pretty.
From Stdlib Require Import ZArith QArith Qround Qabs Qpower Lia Lqa.

Local Open Scope string_scope.
Local Open Scope list_scope.
Local Open Scope Z_scope.

(** ** Exceptions and fallible computations *)

Inductive exn :=
| AttributeError (attr : string)
| ValueError (msg : string)
| KeyError (key : string)
| RuntimeError (msg : string)
| TypeError (msg : string)
| ZeroDivisionError.

Inductive Res (A : Type) :=
| Ok (a : A)
| Raise (e : exn).
Arguments Ok {A} a.
Arguments Raise {A} e.

#[global] Instance Res_ret : MRet Res := fun _ a => Ok a.
#[global] Instance Res_bind : MBind Res := fun _ _ f m =>
  match m with Ok a => f a | Raise e => Raise e end.
#[global] Instance Res_fmap : FMap Res := fun _ _ f m =>
  match m with Ok a => Ok (f a) | Raise e => Raise e end.

Definition is_Ok {A} (r : Res A) : bool :=
  match r with Ok _ => true | Raise _ => false end.

(** [getattr] on an attribute that [__init__] may or may not have bound:
    [None] is an attribute that was never assigned (not the Python value
    [None]), and reading it raises [AttributeError] as
    [torch.nn.Module.__getattr__] does. *)
Definition getattr {A} (name : string) (slot : option A) : Res A :=
  match slot with
  | Some a => Ok a
  | None => Raise (AttributeError name)
  end.

(** [a, b = xs] and the six-fold unpacking of [forward]. *)
Definition unpack2 {A} (xs : list A) : Res (A * A) :=
  match xs with
  | [a; b] => Ok (a, b)
  | _ => Raise (ValueError "unpack")
  end.

Definition unpack6 {A} (xs : list A) : Res (A * A * A * A * A * A) :=
  match xs with
  | [a; b; c; d; e; f] => Ok (a, b, c, d, e, f)
  | _ => Raise (ValueError "unpack")
  end.

(** [int(x)] on a float: truncation toward zero. *)
Definition py_int (x : Q) : Z := Z.quot (Qnum x) (Zpos (Qden x)).

(** ** Floating-point numbers

    A finite floating-point number is the rational it denotes.  A format is
    given by the number [p] of bits of its significand; the result of an
    operation is the exact result rounded to the nearest number of the
    format, ties to the even significand.  The range of the exponent is not
    modelled: there is no overflow to infinity and there are no subnormal
    numbers. *)

(** [2^e] for an integer [e] of either sign. *)
Definition Qpow2 (e : Z) : Q := Qpower 2 e.

(** The binary exponent of a rational that is not zero: the [e] with
    [2^e <= |x| < 2^(e+1)]. *)
Definition binary_exponent (x : Q) : Z :=
  let a := Qabs x in
  if Qle_bool 1 a then Z.log2 (Qfloor a) else - Z.log2_up (Qceiling (/ a)).

(** Rounding to the nearest integer, ties to the even one. *)
Definition round_half_even (x : Q) : Z :=
  let f := Qfloor x in
  match (x - inject_Z f ?= 1 # 2)%Q with
  | Lt => f
  | Gt => f + 1
  | Eq => if Z.even f then f else f + 1
  end.

Definition round_to_precision (p : Z) (x : Q) : Q :=
  if Qeq_bool x 0 then 0%Q
  else
    let q := Qpow2 (binary_exponent x - p + 1) in
    Qred (inject_Z (round_half_even (x / q)) * q).

(** A Python float is a binary64 number: 53 bits of significand. *)
Definition float_round (x : Q) : Q := round_to_precision 53 x.

(** [x * y] on two floats. *)
Definition float_mul (x y : Q) : Q := float_round (x * y).

(** [x or y] on an optional integer: [None] and [0] are falsy. *)
Definition py_or (x : option Z) (y : Z) : Z :=
  match x with
  | Some v => if v =? 0 then y else v
  | None => y
  end.

(** [a // b] on integers. *)
Definition floordiv (a b : Z) : Res Z :=
  if b =? 0 then Raise ZeroDivisionError else Ok (a / b).

(** ** Framework layers

    The classes below are imported from [torch.nn] and [diffusers]; a record
    keeps the constructor arguments that the module passes.  [weights] names
    the parameters of the instance (its key in the state dict): two layers
    built with the same arguments are still different functions. *)

Record Conv2d := {
  conv_weights : string;
  conv_in_channels : Z;
  conv_out_channels : Z;
  conv_kernel_size : Z;
  conv_stride : Z;
  conv_padding : Z;
  conv_groups : Z;
  conv_bias : bool
}.

Record RMSNorm := {
  rms_weights : string;
  rms_dim : Z;
  rms_eps : Q;
  rms_elementwise_affine : bool;
  rms_bias : bool
}.

Record LayerNorm := {
  ln_weights : string;
  ln_dim : Z;
  ln_elementwise_affine : bool;
  ln_eps : Q
}.

Record Linear := {
  lin_weights : string;
  lin_in_features : Z;
  lin_out_features : Z
}.

Inductive AttentionProcessor :=
| SanaLinearAttnProcessor2_0
| AttnProcessor2_0
| OtherProcessor (tag : nat).

#[global] Instance AttentionProcessor_eq_dec : EqDecision AttentionProcessor.
Proof. solve_decision. Defined.

Record Attention := {
  attn_weights : string;
  attn_query_dim : Z;
  attn_cross_attention_dim : option Z;
  attn_heads : option Z;
  attn_dim_head : option Z;
  attn_dropout : Q;
  attn_bias : bool;
  attn_out_bias : bool;
  attn_processor : AttentionProcessor
}.

Record PatchEmbed := {
  pe_weights : string;
  pe_height : Z;
  pe_width : Z;
  pe_patch_size : Z;
  pe_in_channels : Z;
  pe_embed_dim : Z
}.

Record AdaLayerNormSingle := {
  ada_weights : string;
  ada_embedding_dim : Z
}.

Record PixArtAlphaTextProjection := {
  tp_weights : string;
  tp_in_features : Z;
  tp_hidden_size : Z
}.

(** [nn.Parameter(torch.randn(rows, cols) / cols**0.5)] *)
Record NNParameter := {
  par_weights : string;
  par_rows : Z;
  par_cols : Z
}.

(** ** The tensor interface

    [TensorOps] has the methods of [torch.Tensor] that the module calls,
    [Layers] the calls of framework modules.  An operation that can raise
    returns a [Res]. *)

Class TensorOps (T : Type) := {
  shape : T → list Z;
  (** [x.to(like.dtype)] *)
  to_dtype_of : T → T → T;
  (** [c - x], [x * c], [c + x], [x % c], [x == c] with a Python scalar *)
  rsub_scalar : Z → T → T;
  mul_scalar : T → Z → T;
  radd_scalar : Z → T → T;
  rem_scalar : T → Z → T;
  eq_scalar : T → Z → T;
  (** [x + y], [x * y] with broadcasting *)
  add : T → T → Res T;
  mul : T → T → Res T;
  (** [x.unsqueeze(dim)]; [x[None]] is [unsqueeze 0], [x[:, None]] is
      [unsqueeze 1] *)
  unsqueeze : T → Z → Res T;
  reshape : T → list Z → Res T;
  chunk : T → Z → Z → Res (list T);
  permute : T → list Z → Res T;
  unflatten : T → Z → list Z → Res T;
  flatten : T → Z → Z → Res T;
  movedim : T → Z → Z → Res T
}.

Class Layers (T : Type) := {
  (** [nn.SiLU()] *)
  silu : T → T;
  conv2d : Conv2d → T → Res T;
  rms_norm : RMSNorm → T → Res T;
  layer_norm : LayerNorm → T → Res T;
  linear : Linear → T → Res T;
  (** [attn(hidden_states, encoder_hidden_states=..., attention_mask=...)] *)
  attention : Attention → T → option T → option T → Res T;
  patch_embed : PatchEmbed → T → Res T;
  (** [time_embed(timestep, batch_size=..., hidden_dtype=...)] *)
  ada_layer_norm_single : AdaLayerNormSingle → T → Z → T → Res (T * T);
  text_projection : PixArtAlphaTextProjection → T → Res T;
  parameter : NNParameter → T
}.

Definition ndim `{TensorOps T} (x : T) : Z := Z.of_nat (length (shape x)).

(** [x.shape[i]] for a non-negative [i], [x.shape[-1]]. *)
Definition shape_at `{TensorOps T} (x : T) (i : nat) : Res Z :=
  match shape x !! i with
  | Some d => Ok d
  | None => Raise (RuntimeError "index out of range")
  end.

Definition shape_last `{TensorOps T} (x : T) : Res Z :=
  match last (shape x) with
  | Some d => Ok d
  | None => Raise (RuntimeError "index out of range")
  end.

(** ** [class GLUMBConv] *)

Record GLUMBConv := {
  glu_norm_type : option string;
  glu_residual_connection : bool;
  glu_conv_inverted : Conv2d;
  glu_conv_depth : Conv2d;
  glu_conv_point : Conv2d;
  (** [self.norm]: the Python value [None] or an [RMSNorm] *)
  glu_norm : option RMSNorm
}.

(** [int(expand_ratio * in_channels)].  [expand_ratio] is a float and
    [in_channels] an integer: Python converts the integer to a float (which
    is exact below [2^53], and a number of channels is) and multiplies the
    two floats, so the product is rounded before [int] truncates it. *)
Definition GLUMBConv_hidden_channels (expand_ratio : Q) (in_channels : Z) : Z :=
  py_int (float_mul expand_ratio (inject_Z in_channels)).

(** [GLUMBConv.__init__].  [w] is the path under which the block is
    registered; it only names the parameters of the layers created here. *)
Definition GLUMBConv_init (w : string) (in_channels out_channels : Z)
    (expand_ratio : Q) (norm_type : option string)
    (residual_connection : bool) : GLUMBConv :=
  let hidden_channels := GLUMBConv_hidden_channels expand_ratio in_channels in
  {| glu_norm_type := norm_type;
     glu_residual_connection := residual_connection;
     glu_conv_inverted :=
       {| conv_weights := w +:+ ".conv_inverted";
          conv_in_channels := in_channels;
          conv_out_channels := hidden_channels * 2;
          conv_kernel_size := 1; conv_stride := 1; conv_padding := 0;
          conv_groups := 1; conv_bias := true |};
     glu_conv_depth :=
       {| conv_weights := w +:+ ".conv_depth";
          conv_in_channels := hidden_channels * 2;
          conv_out_channels := hidden_channels * 2;
          conv_kernel_size := 3; conv_stride := 1; conv_padding := 1;
          conv_groups := hidden_channels * 2; conv_bias := true |};
     glu_conv_point :=
       {| conv_weights := w +:+ ".conv_point";
          conv_in_channels := hidden_channels;
          conv_out_channels := out_channels;
          conv_kernel_size := 1; conv_stride := 1; conv_padding := 0;
          conv_groups := 1; conv_bias := false |};
     glu_norm :=
       if decide (norm_type = Some "rms_norm") then
         Some {| rms_weights := w +:+ ".norm"; rms_dim := out_channels;
                 rms_eps := 1 # 100000; rms_elementwise_affine := true;
                 rms_bias := true |}
       else None |}.

(** Calling [self.norm] when it is [None] is a [TypeError]. *)
Definition call_norm `{Layers T} (norm : option RMSNorm) (x : T) : Res T :=
  match norm with
  | Some n => rms_norm n x
  | None => Raise (TypeError "'NoneType' object is not callable")
  end.

(** [GLUMBConv.forward] *)
Definition GLUMBConv_forward `{TensorOps T, Layers T}
    (self : GLUMBConv) (hidden_states : T) : Res T :=
  let residual := hidden_states in
  hidden_states ← conv2d (glu_conv_inverted self) hidden_states;
  let hidden_states := silu hidden_states in
  hidden_states ← conv2d (glu_conv_depth self) hidden_states;
  '(hidden_states, gate) ← chunk hidden_states 2 1 ≫= unpack2;
  hidden_states ← mul hidden_states (silu gate);
  hidden_states ← conv2d (glu_conv_point self) hidden_states;
  hidden_states ←
    (if decide (glu_norm_type self = Some "rms_norm") then
       moved ← movedim hidden_states 1 (-1);
       normed ← call_norm (glu_norm self) moved;
       movedim normed (-1) 1
     else Ok hidden_states);
  hidden_states ←
    (if glu_residual_connection self then add hidden_states residual
     else Ok hidden_states);
  Ok hidden_states.

(** ** [class SanaTransformerBlock] *)

(** [norm2], [attn2] and [gradient_checkpointing] are attributes that
    [__init__] binds conditionally or not at all: the outer [option] is
    [None] when the attribute does not exist on the object.  The inner
    [option] of [blk_attn2] is the Python value the attribute holds. *)
Record SanaTransformerBlock (T : Type) := {
  blk_norm1 : LayerNorm;
  blk_attn1 : Attention;
  blk_norm2 : option LayerNorm;
  blk_attn2 : option (option Attention);
  blk_ff : GLUMBConv;
  blk_scale_shift_table : NNParameter;
  blk_gradient_checkpointing : option T
}.
Arguments blk_norm1 {T} _.
Arguments blk_attn1 {T} _.
Arguments blk_norm2 {T} _.
Arguments blk_attn2 {T} _.
Arguments blk_ff {T} _.
Arguments blk_scale_shift_table {T} _.
Arguments blk_gradient_checkpointing {T} _.

(** [SanaTransformerBlock.__init__] *)
Definition SanaTransformerBlock_init {T} (w : string)
    (dim : Z) (num_attention_heads attention_head_dim : Z) (dropout : Q)
    (num_cross_attention_heads cross_attention_head_dim
       cross_attention_dim : option Z)
    (attention_bias norm_elementwise_affine : bool) (norm_eps : Q)
    (attention_out_bias : bool) (mlp_ratio : Q) : SanaTransformerBlock T :=
  {| (* 1. Self Attention *)
     blk_norm1 :=
       {| ln_weights := w +:+ ".norm1"; ln_dim := dim;
          ln_elementwise_affine := false; ln_eps := norm_eps |};
     blk_attn1 :=
       {| attn_weights := w +:+ ".attn1"; attn_query_dim := dim;
          attn_cross_attention_dim := None;
          attn_heads := Some num_attention_heads;
          attn_dim_head := Some attention_head_dim;
          attn_dropout := dropout; attn_bias := attention_bias;
          attn_out_bias := true;
          attn_processor := SanaLinearAttnProcessor2_0 |};
     (* 2. Cross Attention *)
     blk_norm2 :=
       match cross_attention_dim with
       | Some _ =>
           Some {| ln_weights := w +:+ ".norm2"; ln_dim := dim;
                   ln_elementwise_affine := norm_elementwise_affine;
                   ln_eps := norm_eps |}
       | None => None
       end;
     blk_attn2 :=
       match cross_attention_dim with
       | Some c =>
           Some (Some {| attn_weights := w +:+ ".attn2";
                         attn_query_dim := dim;
                         attn_cross_attention_dim := Some c;
                         attn_heads := num_cross_attention_heads;
                         attn_dim_head := cross_attention_head_dim;
                         attn_dropout := dropout; attn_bias := true;
                         attn_out_bias := attention_out_bias;
                         attn_processor := AttnProcessor2_0 |})
       | None => None
       end;
     (* 3. Feed-forward *)
     blk_ff := GLUMBConv_init (w +:+ ".ff") dim dim mlp_ratio None false;
     blk_scale_shift_table :=
       {| par_weights := w +:+ ".scale_shift_table";
          par_rows := 6; par_cols := dim |};
     blk_gradient_checkpointing := None |}.

(** Lines 163-165: the six modulation tensors.  [pre_chunk] is the tensor
    that is split. *)
Definition modulation_pre_chunk `{TensorOps T}
    (scale_shift_table timestep : T) (batch_size : Z) : Res T :=
  table ← unsqueeze scale_shift_table 0;
  reshaped ← reshape timestep [batch_size; 6; -1];
  add table reshaped.

Definition modulation `{TensorOps T}
    (scale_shift_table timestep : T) (batch_size : Z)
    : Res (T * T * T * T * T * T) :=
  pre ← modulation_pre_chunk scale_shift_table timestep batch_size;
  chunk pre 6 1 ≫= unpack6.

(** [SanaTransformerBlock.forward].  [forward] of the model always passes a
    tensor for [timestep]. *)
Definition SanaTransformerBlock_forward `{TensorOps T, Layers T}
    (self : SanaTransformerBlock T) (hidden_states : T)
    (attention_mask encoder_hidden_states encoder_attention_mask : option T)
    (timestep : T) (height width : Z) : Res T :=
  batch_size ← shape_at hidden_states 0;
  (* 1. Modulation *)
  '(shift_msa, scale_msa, gate_msa, shift_mlp, scale_mlp, gate_mlp) ←
    modulation (parameter (blk_scale_shift_table self)) timestep batch_size;
  (* 2. Self Attention *)
  norm_hidden_states ← layer_norm (blk_norm1 self) hidden_states;
  scaled ← mul norm_hidden_states (radd_scalar 1 scale_msa);
  norm_hidden_states ← add scaled shift_msa;
  let norm_hidden_states := to_dtype_of norm_hidden_states hidden_states in
  attn_output ← attention (blk_attn1 self) norm_hidden_states None None;
  gated ← mul gate_msa attn_output;
  hidden_states ← add hidden_states gated;
  (* 3. Cross Attention *)
  attn2 ← getattr "attn2" (blk_attn2 self);
  hidden_states ←
    match attn2 with
    | Some attn2 =>
        attn_output ← attention attn2 hidden_states
                        encoder_hidden_states encoder_attention_mask;
        add attn_output hidden_states
    | None => Ok hidden_states
    end;
  (* 4. Feed-forward *)
  norm2 ← getattr "norm2" (blk_norm2 self);
  norm_hidden_states ← layer_norm norm2 hidden_states;
  scaled ← mul norm_hidden_states (radd_scalar 1 scale_mlp);
  norm_hidden_states ← add scaled shift_mlp;
  unflat ← unflatten norm_hidden_states 1 [height; width];
  norm_hidden_states ← permute unflat [0; 3; 1; 2];
  ff_output ← GLUMBConv_forward (blk_ff self) norm_hidden_states;
  flat ← flatten ff_output 2 3;
  ff_output ← permute flat [0; 2; 1];
  gated ← mul gate_mlp ff_output;
  hidden_states ← add hidden_states gated;
  Ok hidden_states.

(** Lines 188-189 and 192: the sequence of tokens laid out as a grid with
    the channels first, and the grid flattened to a sequence again. *)
Definition tokens_to_grid `{TensorOps T} (x : T) (height width : Z) : Res T :=
  unflat ← unflatten x 1 [height; width];
  permute unflat [0; 3; 1; 2].

Definition grid_to_tokens `{TensorOps T} (y : T) : Res T :=
  flat ← flatten y 2 3;
  permute flat [0; 2; 1].

(** ** [class SanaTransformer2DModel] *)

(** The arguments of [__init__], which [register_to_config] keeps as
    [self.config]. *)
Record Config := {
  in_channels : Z;
  out_channels : option Z;
  num_attention_heads : Z;
  attention_head_dim : Z;
  num_layers : Z;
  num_cross_attention_heads : option Z;
  cross_attention_head_dim : option Z;
  cross_attention_dim : option Z;
  caption_channels : Z;
  mlp_ratio : Q;
  dropout : Q;
  attention_bias : bool;
  sample_size : Z;
  patch_size : Z;
  norm_elementwise_affine : bool;
  norm_eps : Q
}.

Record SanaTransformer2DModel (T : Type) := {
  config : Config;
  sana_patch_embed : PatchEmbed;
  sana_time_embed : AdaLayerNormSingle;
  sana_caption_projection : PixArtAlphaTextProjection;
  sana_caption_norm : RMSNorm;
  transformer_blocks : list (SanaTransformerBlock T);
  sana_scale_shift_table : NNParameter;
  sana_norm_out : LayerNorm;
  sana_proj_out : Linear;
  gradient_checkpointing : bool;
  gradient_checkpointing_interval : option Z
}.
Arguments config {T} _.
Arguments sana_patch_embed {T} _.
Arguments sana_time_embed {T} _.
Arguments sana_caption_projection {T} _.
Arguments sana_caption_norm {T} _.
Arguments transformer_blocks {T} _.
Arguments sana_scale_shift_table {T} _.
Arguments sana_norm_out {T} _.
Arguments sana_proj_out {T} _.
Arguments gradient_checkpointing {T} _.
Arguments gradient_checkpointing_interval {T} _.

(** [range(n)] *)
Definition py_range (n : Z) : list nat := seq 0 (Z.to_nat n).

(** [SanaTransformer2DModel.__init__] *)
Definition SanaTransformer2DModel_init {T} (c : Config)
    : SanaTransformer2DModel T :=
  let out_channels := py_or (out_channels c) (in_channels c) in
  let inner_dim := num_attention_heads c * attention_head_dim c in
  {| config := c;
     (* 1. Patch Embedding *)
     sana_patch_embed :=
       {| pe_weights := "patch_embed";
          pe_height := sample_size c; pe_width := sample_size c;
          pe_patch_size := patch_size c; pe_in_channels := in_channels c;
          pe_embed_dim := inner_dim |};
     (* 2. Additional condition embeddings *)
     sana_time_embed :=
       {| ada_weights := "time_embed"; ada_embedding_dim := inner_dim |};
     sana_caption_projection :=
       {| tp_weights := "caption_projection";
          tp_in_features := caption_channels c;
          tp_hidden_size := inner_dim |};
     sana_caption_norm :=
       {| rms_weights := "caption_norm"; rms_dim := inner_dim;
          rms_eps := 1 # 100000; rms_elementwise_affine := true;
          rms_bias := false |};
     (* 3. Transformer blocks *)
     transformer_blocks :=
       (λ i : nat,
          SanaTransformerBlock_init ("transformer_blocks." +:+ pretty i)
            inner_dim (num_attention_heads c) (attention_head_dim c)
            (dropout c) (num_cross_attention_heads c)
            (cross_attention_head_dim c) (cross_attention_dim c)
            (attention_bias c) (norm_elementwise_affine c) (norm_eps c)
            true (mlp_ratio c))
       <$> py_range (num_layers c);
     (* 4. Output blocks *)
     sana_scale_shift_table :=
       {| par_weights := "scale_shift_table";
          par_rows := 2; par_cols := inner_dim |};
     sana_norm_out :=
       {| ln_weights := "norm_out"; ln_dim := inner_dim;
          ln_elementwise_affine := false; ln_eps := 1 # 1000000 |};
     sana_proj_out :=
       {| lin_weights := "proj_out"; lin_in_features := inner_dim;
          lin_out_features := patch_size c * patch_size c * out_channels |};
     gradient_checkpointing := false;
     gradient_checkpointing_interval := None |}.

(** Assignment to the two attributes that steer checkpointing. *)
Definition with_checkpointing {T} (self : SanaTransformer2DModel T)
    (value : bool) (interval : option Z) : SanaTransformer2DModel T :=
  {| config := config self;
     sana_patch_embed := sana_patch_embed self;
     sana_time_embed := sana_time_embed self;
     sana_caption_projection := sana_caption_projection self;
     sana_caption_norm := sana_caption_norm self;
     transformer_blocks := transformer_blocks self;
     sana_scale_shift_table := sana_scale_shift_table self;
     sana_norm_out := sana_norm_out self;
     sana_proj_out := sana_proj_out self;
     gradient_checkpointing := value;
     gradient_checkpointing_interval := interval |}.

(** [set_gradient_checkpointing_interval] *)
Definition set_gradient_checkpointing_interval {T}
    (self : SanaTransformer2DModel T) (interval : Z)
    : SanaTransformer2DModel T :=
  with_checkpointing self (gradient_checkpointing self) (Some interval).

(** [self.gradient_checkpointing = value], what
    [enable_gradient_checkpointing] of the framework does to the model. *)
Definition set_gradient_checkpointing {T}
    (self : SanaTransformer2DModel T) (value : bool)
    : SanaTransformer2DModel T :=
  with_checkpointing self value (gradient_checkpointing_interval self).

(** [hasattr(module, "gradient_checkpointing")] on a transformer block *)
Definition hasattr_gradient_checkpointing {T}
    (module : SanaTransformerBlock T) : bool :=
  bool_decide (is_Some (blk_gradient_checkpointing module)).

(** [_set_gradient_checkpointing] *)
Definition _set_gradient_checkpointing {T}
    (module : SanaTransformerBlock T) (value : T) : SanaTransformerBlock T :=
  if hasattr_gradient_checkpointing module then
    {| blk_norm1 := blk_norm1 module;
       blk_attn1 := blk_attn1 module;
       blk_norm2 := blk_norm2 module;
       blk_attn2 := blk_attn2 module;
       blk_ff := blk_ff module;
       blk_scale_shift_table := blk_scale_shift_table module;
       blk_gradient_checkpointing := Some value |}
  else module.

(** What the process provides: [torch.is_grad_enabled()] and
    [is_torch_version("<=", "1.11.0")]. *)
Record TorchEnv := {
  is_grad_enabled : bool;
  is_torch_version_le_1_11_0 : bool
}.

(** The callable that [create_block_forward] returns: the block itself, or
    the lambda that runs it under [torch.utils.checkpoint.checkpoint]. *)
Inductive BlockForward (T : Type) :=
| Checkpointed (block : SanaTransformerBlock T) (use_reentrant : bool)
| Eager (block : SanaTransformerBlock T).
Arguments Checkpointed {T} block use_reentrant.
Arguments Eager {T} block.

Definition is_checkpointed {T} (f : BlockForward T) : bool :=
  match f with Checkpointed _ _ => true | Eager _ => false end.

(** [torch.utils.checkpoint.checkpoint] applied to a function and its
    arguments returns what the function returns on them; it differs from a
    direct call in what is kept for the backward pass. *)
Definition torch_utils_checkpoint {A B} (function : A → B)
    (args : A) (use_reentrant : bool) : B :=
  function args.

(** [create_block_forward], the closure inside [forward].  [timestep] is the
    variable of the enclosing scope, by then the output of [time_embed]. *)
Definition create_block_forward `{TensorOps T}
    (env : TorchEnv) (self : SanaTransformer2DModel T) (timestep : T)
    (block : SanaTransformerBlock T) : BlockForward T :=
  let use_reentrant := is_torch_version_le_1_11_0 env in
  let block :=
    match gradient_checkpointing_interval self with
    | Some interval =>
        if (0 <? interval) && gradient_checkpointing self then
          _set_gradient_checkpointing block
            (eq_scalar (rem_scalar timestep interval) 0)
        else block
    | None => block
    end in
  if is_grad_enabled env && gradient_checkpointing self then
    Checkpointed block use_reentrant
  else Eager block.

Definition call_block_forward `{TensorOps T, Layers T}
    (f : BlockForward T) (hidden_states : T)
    (attention_mask encoder_hidden_states encoder_attention_mask : option T)
    (timestep : T) (height width : Z) : Res T :=
  match f with
  | Checkpointed block use_reentrant =>
      torch_utils_checkpoint
        (λ '(x1, x2, x3, x4, x5, x6, x7),
           SanaTransformerBlock_forward block x1 x2 x3 x4 x5 x6 x7)
        (hidden_states, attention_mask, encoder_hidden_states,
         encoder_attention_mask, timestep, height, width)
        use_reentrant
  | Eager block =>
      SanaTransformerBlock_forward block hidden_states attention_mask
        encoder_hidden_states encoder_attention_mask timestep height width
  end.

(** Lines 419-420 and 424-427: a keep/discard mask becomes an additive
    bias. *)
Definition mask_to_bias `{TensorOps T} (mask hidden_states : T) : Res T :=
  let mask := mul_scalar (rsub_scalar 1 (to_dtype_of mask hidden_states))
                (-10000) in
  unsqueeze mask 1.

(** [if mask is not None and mask.ndim == 2: mask = ...] *)
Definition convert_mask `{TensorOps T}
    (mask : option T) (hidden_states : T) : Res (option T) :=
  match mask with
  | Some m =>
      if ndim m =? 2 then Some <$> mask_to_bias m hidden_states
      else Ok (Some m)
  | None => Ok None
  end.

Definition unpack4 {A} (xs : list A) : Res (A * A * A * A) :=
  match xs with
  | [a; b; c; d] => Ok (a, b, c, d)
  | _ => Raise (ValueError "unpack")
  end.

(** A [for] loop whose body may raise. *)
Fixpoint for_each {A B} (body : A → B → Res A) (acc : A) (xs : list B)
    : Res A :=
  match xs with
  | [] => Ok acc
  | x :: xs => acc ← body acc x; for_each body acc xs
  end.

Inductive ForwardOutput (T : Type) :=
| TupleOutput (output : T)
| Transformer2DModelOutput (sample : T).
Arguments TupleOutput {T} output.
Arguments Transformer2DModelOutput {T} sample.

Definition sample_of {T} (o : ForwardOutput T) : T :=
  match o with TupleOutput x => x | Transformer2DModelOutput x => x end.

(** The transformer blocks of [forward] (step 2), with the masks as the
    blocks receive them. *)
Definition forward_blocks `{TensorOps T, Layers T}
    (env : TorchEnv) (self : SanaTransformer2DModel T) (hidden_states : T)
    (attention_mask encoder_hidden_states encoder_attention_mask : option T)
    (timestep : T) (post_patch_height post_patch_width : Z) : Res T :=
  for_each
    (λ hidden_states block,
       call_block_forward (create_block_forward env self timestep block)
         hidden_states attention_mask encoder_hidden_states
         encoder_attention_mask timestep post_patch_height post_patch_width)
    hidden_states (transformer_blocks self).

(** Step 5 of [forward]: the patches of every token are laid out again as
    an image. *)
Definition unpatchify `{TensorOps T} (hidden_states : T)
    (batch_size post_patch_height post_patch_width p : Z) : Res T :=
  hidden_states ← reshape hidden_states
    [batch_size; post_patch_height; post_patch_width; p; p; -1];
  hidden_states ← permute hidden_states [0; 5; 1; 3; 2; 4];
  reshape hidden_states
    [batch_size; -1; post_patch_height * p; post_patch_width * p].

(** Steps 3 to 5 of [forward]: normalization, modulation, unpatchify. *)
Definition forward_output_stage `{TensorOps T, Layers T}
    (self : SanaTransformer2DModel T) (hidden_states embedded_timestep : T)
    (batch_size post_patch_height post_patch_width : Z) : Res T :=
  let p := patch_size (config self) in
  (* 3. Normalization *)
  table ← unsqueeze (parameter (sana_scale_shift_table self)) 0;
  embedded ← unsqueeze embedded_timestep 1;
  pre ← add table embedded;
  '(shift, scale) ← chunk pre 2 1 ≫= unpack2;
  hidden_states ← layer_norm (sana_norm_out self) hidden_states;
  (* 4. Modulation *)
  scaled ← mul hidden_states (radd_scalar 1 scale);
  hidden_states ← add scaled shift;
  hidden_states ← linear (sana_proj_out self) hidden_states;
  (* 5. Unpatchify *)
  unpatchify hidden_states batch_size post_patch_height post_patch_width p.

(** Lines 478-481: [shift] and [scale] of the output stage. *)
Definition output_modulation `{TensorOps T}
    (scale_shift_table embedded_timestep : T) : Res (T * T) :=
  table ← unsqueeze scale_shift_table 0;
  embedded ← unsqueeze embedded_timestep 1;
  pre ← add table embedded;
  chunk pre 2 1 ≫= unpack2.

(** [SanaTransformer2DModel.forward].  [view] on the output of the caption
    projection is a [reshape]; the move of [embedded_timestep] to the device
    of the table leaves the tensor as it is. *)
Definition SanaTransformer2DModel_forward `{TensorOps T, Layers T}
    (env : TorchEnv) (self : SanaTransformer2DModel T)
    (hidden_states encoder_hidden_states timestep : T)
    (encoder_attention_mask attention_mask : option T)
    (return_dict : bool) : Res (ForwardOutput T) :=
  attention_mask ← convert_mask attention_mask hidden_states;
  encoder_attention_mask ←
    convert_mask encoder_attention_mask hidden_states;
  (* 1. Input *)
  '(batch_size, num_channels, height, width) ← unpack4 (shape hidden_states);
  let p := patch_size (config self) in
  post_patch_height ← floordiv height p;
  post_patch_width ← floordiv width p;
  hidden_states ← patch_embed (sana_patch_embed self) hidden_states;
  '(timestep, embedded_timestep) ←
    ada_layer_norm_single (sana_time_embed self) timestep batch_size
      hidden_states;
  encoder_hidden_states ←
    text_projection (sana_caption_projection self) encoder_hidden_states;
  inner ← shape_last hidden_states;
  encoder_hidden_states ←
    reshape encoder_hidden_states [batch_size; -1; inner];
  encoder_hidden_states ←
    rms_norm (sana_caption_norm self) encoder_hidden_states;
  (* 2. Transformer blocks *)
  hidden_states ←
    forward_blocks env self hidden_states attention_mask
      (Some encoder_hidden_states) encoder_attention_mask timestep
      post_patch_height post_patch_width;
  (* 3-5. Output *)
  output ← forward_output_stage self hidden_states embedded_timestep
             batch_size post_patch_height post_patch_width;
  if return_dict then Ok (Transformer2DModelOutput output)
  else Ok (TupleOutput output).

(** ** Shapes

    What [torch] does to the shape of a tensor, and when it raises. *)

Definition numel (s : list Z) : Z := foldr Z.mul 1 s.

(** A dimension argument [d] of a tensor with [n] dimensions; negative
    values count from the end. *)
Definition norm_dim (n : nat) (d : Z) : option nat :=
  let d' := if d <? 0 then d + Z.of_nat n else d in
  if (0 <=? d') && (d' <? Z.of_nat n) then Some (Z.to_nat d') else None.

Fixpoint broadcast_rev (a b : list Z) : option (list Z) :=
  match a, b with
  | [], _ => Some b
  | _, [] => Some a
  | x :: a, y :: b =>
      d ← (if x =? y then Some x
           else if x =? 1 then Some y
           else if y =? 1 then Some x
           else None);
      r ← broadcast_rev a b;
      Some (d :: r)
  end.

(** Broadcasting aligns the shapes at their last dimension. *)
Definition broadcast_shapes (a b : list Z) : option (list Z) :=
  reverse <$> broadcast_rev (reverse a) (reverse b).

(** [infer_size]: the sizes of [reshape], at most one of them [-1]. *)
Definition infer_size (sizes : list Z) (n : Z) : option (list Z) :=
  if existsb (λ d, d <? -1) sizes then None
  else
    let known := numel (filter (λ d, d ≠ -1) sizes) in
    match length (filter (λ d, d = -1) sizes) with
    | O => if n =? known then Some sizes else None
    | S O =>
        if (0 <? known) && (n mod known =? 0) then
          Some ((λ d, if d =? -1 then n / known else d) <$> sizes)
        else None
    | _ => None
    end.

(** The sizes of the pieces of [chunk]: pieces of [ceil(size / chunks)],
    the last one smaller when the size is not a multiple. *)
Definition chunk_sizes (size chunks : Z) : list Z :=
  let split_size := (size + chunks - 1) / chunks in
  if split_size =? 0 then replicate (Z.to_nat chunks) 0
  else
    let num_splits := Z.max ((size + split_size - 1) / split_size) 1 in
    let last_split_size := split_size - (split_size * num_splits - size) in
    replicate (Z.to_nat (num_splits - 1)) split_size ++ [last_split_size].

Definition chunk_shapes (s : list Z) (chunks dim : Z)
    : option (list (list Z)) :=
  d ← norm_dim (length s) dim;
  size ← s !! d;
  if chunks <=? 0 then None
  else Some ((λ c, <[d := c]> s) <$> chunk_sizes size chunks).

Definition permute_shape (s : list Z) (dims : list Z) : option (list Z) :=
  ds ← mapM (norm_dim (length s)) dims;
  if bool_decide (length ds = length s ∧ NoDup ds) then
    mapM (λ d, s !! d) ds
  else None.

Definition unsqueeze_shape (s : list Z) (dim : Z) : option (list Z) :=
  d ← norm_dim (S (length s)) dim;
  Some (take d s ++ 1 :: drop d s).

Definition unflatten_shape (s : list Z) (dim : Z) (sizes : list Z)
    : option (list Z) :=
  d ← norm_dim (length s) dim;
  size ← s !! d;
  sizes ← infer_size sizes size;
  Some (take d s ++ sizes ++ drop (S d) s).

Definition flatten_shape (s : list Z) (start_dim end_dim : Z)
    : option (list Z) :=
  a ← norm_dim (length s) start_dim;
  b ← norm_dim (length s) end_dim;
  if bool_decide (a ≤ b)%nat then
    Some (take a s ++ numel (take (S b - a) (drop a s)) :: drop (S b) s)
  else None.

Definition movedim_shape (s : list Z) (source destination : Z)
    : option (list Z) :=
  a ← norm_dim (length s) source;
  b ← norm_dim (length s) destination;
  size ← s !! a;
  let rest := delete a s in
  Some (take b rest ++ size :: drop b rest).

(** The spatial size that a convolution produces. *)
Definition conv_out_size (size kernel stride padding : Z) : Z :=
  (size + 2 * padding - kernel) / stride + 1.

Definition conv2d_shape (c : Conv2d) (s : list Z) : option (list Z) :=
  match s with
  | [b; ch; h; w] =>
      let h' := conv_out_size h (conv_kernel_size c) (conv_stride c)
                  (conv_padding c) in
      let w' := conv_out_size w (conv_kernel_size c) (conv_stride c)
                  (conv_padding c) in
      if (ch =? conv_in_channels c) && (0 <? conv_groups c)
         && (conv_in_channels c mod conv_groups c =? 0)
         && (conv_out_channels c mod conv_groups c =? 0)
         && (0 <? conv_stride c) && (0 <? conv_kernel_size c)
         && (0 <? h') && (0 <? w')
      then Some [b; conv_out_channels c; h'; w']
      else None
  | _ => None
  end.

(** Normalization over the last dimension, which must have the size the
    layer was built for. *)
Definition norm_shape (dim : Z) (s : list Z) : option (list Z) :=
  match last s with
  | Some d => if d =? dim then Some s else None
  | None => None
  end.

Definition linear_shape (in_features out_features : Z) (s : list Z)
    : option (list Z) :=
  match last s with
  | Some d =>
      if d =? in_features then
        Some (take (length s - 1) s ++ [out_features])
      else None
  | None => None
  end.

(** [Attention] and its processor.  The layer first projects its inputs:
    the queries [batch, query_tokens, query_dim] with [to_q], the keys and
    values with [to_k] and [to_v] from [encoder_hidden_states] of
    [key_batch, key_tokens, cross_attention_dim], or from the queries when
    there are none.  The result of this step is the batch and the number of
    tokens on both sides. *)
Definition attention_projections (a : Attention) (s : list Z)
    (encoder : option (list Z)) : option (Z * Z * Z * Z) :=
  match s with
  | [b; n; d] =>
      if d =? attn_query_dim a then
        match encoder with
        | None =>
            if d =? default (attn_query_dim a) (attn_cross_attention_dim a)
            then Some (b, n, b, n) else None
        | Some [b'; m; c] =>
            if c =? default (attn_query_dim a) (attn_cross_attention_dim a)
            then Some (b, n, b', m) else None
        | Some _ => None
        end
      else None
  | _ => None
  end.

(** A bias [batch, ..., key_tokens] whose middle dimensions hold one row
    for all queries or one row per query: the processor repeats it for
    every head and views it as [batch, heads, -1, key_tokens], which
    broadcasts against the scores [batch, heads, query_tokens, key_tokens].
    The converted masks of [forward], [batch, 1, key_tokens], are of this
    kind. *)
Definition attention_bias_ok (b n key_tokens : Z) (ms : list Z) : bool :=
  match ms with
  | b' :: rest =>
      match last rest with
      | Some m =>
          let rows := numel (take (length rest - 1) rest) in
          (b' =? b) && (0 <? b) && (m =? key_tokens) && (0 <? key_tokens)
          && ((rows =? 1) || (rows =? n))
      | None => false
      end
  | [] => false
  end.

(** The projections are split in [heads] heads.  The layer exists only with
    a number of heads and a size of the heads; with a number of heads that
    is not positive the processor fails: [AttnProcessor2_0] divides by it
    ([inner_dim // attn.heads], a [ZeroDivisionError] at zero, unless a bias
    was viewed with the heads before) and then views the projections with
    it, [SanaLinearAttnProcessor2_0] unflattens with it (both a
    [RuntimeError]).  With positive heads the scores are computed, which
    needs the keys to have the batch of the queries, and the bias to fit.
    The result has the shape of the queries. *)
Definition attention_shape (a : Attention) (s : list Z)
    (encoder mask : option (list Z)) : Res (list Z) :=
  match attention_projections a s encoder with
  | Some (b, n, b', key_tokens) =>
      match attn_heads a, attn_dim_head a with
      | Some heads, Some dim_head =>
          if (0 <? heads) && (0 <? dim_head) then
            if (b' =? b)
               && from_option (attention_bias_ok b n key_tokens) true mask
            then Ok s
            else Raise (RuntimeError "shape")
          else if (heads =? 0)
                  && bool_decide (attn_processor a = AttnProcessor2_0)
                  && bool_decide (mask = None)
          then Raise ZeroDivisionError
          else Raise (RuntimeError "shape")
      | _, _ => Raise (RuntimeError "shape")
      end
  | None => Raise (RuntimeError "shape")
  end.

(** [PatchEmbed] without position embedding: a convolution with kernel and
    stride [patch_size], then [flatten(2).transpose(1, 2)]. *)
Definition patch_embed_shape (pe : PatchEmbed) (s : list Z)
    : option (list Z) :=
  match s with
  | [b; ch; h; w] =>
      let p := pe_patch_size pe in
      if (ch =? pe_in_channels pe) && (0 <? p) && (p <=? h) && (p <=? w)
      then Some [b; (h / p) * (w / p); pe_embed_dim pe]
      else None
  | _ => None
  end.

(** [AdaLayerNormSingle]: a one-dimensional [timestep] gives the
    [6 * embedding_dim] modulation and the embedded timestep. *)
Definition ada_layer_norm_single_shape (a : AdaLayerNormSingle)
    (s : list Z) : option (list Z * list Z) :=
  match s with
  | [b] => Some ([b; 6 * ada_embedding_dim a], [b; ada_embedding_dim a])
  | _ => None
  end.

(** ** Symbolic tensors

    A symbolic tensor has the shape of the tensor and the expression that
    computes it from the inputs and the parameters: the operations check
    shapes as above and record themselves.  Running [forward] on symbolic
    inputs shows which layers are called, in which order and on what. *)

Inductive op :=
| OToDtype
| ORsubScalar (c : Z)
| OMulScalar (c : Z)
| ORaddScalar (c : Z)
| ORemScalar (c : Z)
| OEqScalar (c : Z)
| OAdd
| OMul
| OSiLU
| OUnsqueeze (dim : Z)
| OReshape (sizes : list Z)
| OChunk (chunks dim : Z) (index : nat)
| OPermute (dims : list Z)
| OUnflatten (dim : Z) (sizes : list Z)
| OFlatten (start_dim end_dim : Z)
| OMovedim (source destination : Z)
| OConv2d (c : Conv2d)
| ORMSNorm (n : RMSNorm)
| OLayerNorm (n : LayerNorm)
| OLinear (l : Linear)
| OAttention (a : Attention)
| OPatchEmbed (p : PatchEmbed)
| OAdaLayerNormSingle (a : AdaLayerNormSingle) (output : nat)
| OTextProjection (p : PixArtAlphaTextProjection)
| OParameter (p : NNParameter).

Inductive term :=
| Input (name : string)
| PyNone
| App (f : op) (args : list term).

Record SymTensor := {
  sym_shape : list Z;
  sym_expr : term
}.

Definition sym_ok (s : option (list Z)) (e : term) : Res SymTensor :=
  match s with
  | Some s => Ok {| sym_shape := s; sym_expr := e |}
  | None => Raise (RuntimeError "shape")
  end.

Definition sym_same (f : op) (x : SymTensor) : SymTensor :=
  {| sym_shape := sym_shape x; sym_expr := App f [sym_expr x] |}.

Definition sym_opt (x : option SymTensor) : term :=
  from_option sym_expr PyNone x.

#[global] Instance SymTensor_ops : TensorOps SymTensor := {|
  shape := sym_shape;
  to_dtype_of x like := sym_same OToDtype x;
  rsub_scalar c x := sym_same (ORsubScalar c) x;
  mul_scalar x c := sym_same (OMulScalar c) x;
  radd_scalar c x := sym_same (ORaddScalar c) x;
  rem_scalar x c := sym_same (ORemScalar c) x;
  eq_scalar x c := sym_same (OEqScalar c) x;
  add x y :=
    sym_ok (broadcast_shapes (sym_shape x) (sym_shape y))
      (App OAdd [sym_expr x; sym_expr y]);
  mul x y :=
    sym_ok (broadcast_shapes (sym_shape x) (sym_shape y))
      (App OMul [sym_expr x; sym_expr y]);
  unsqueeze x dim :=
    sym_ok (unsqueeze_shape (sym_shape x) dim)
      (App (OUnsqueeze dim) [sym_expr x]);
  reshape x sizes :=
    sym_ok (infer_size sizes (numel (sym_shape x)))
      (App (OReshape sizes) [sym_expr x]);
  chunk x chunks dim :=
    match chunk_shapes (sym_shape x) chunks dim with
    | Some ss =>
        Ok (imap (λ i s, {| sym_shape := s;
                            sym_expr := App (OChunk chunks dim i)
                                          [sym_expr x] |}) ss)
    | None => Raise (RuntimeError "shape")
    end;
  permute x dims :=
    sym_ok (permute_shape (sym_shape x) dims)
      (App (OPermute dims) [sym_expr x]);
  unflatten x dim sizes :=
    sym_ok (unflatten_shape (sym_shape x) dim sizes)
      (App (OUnflatten dim sizes) [sym_expr x]);
  flatten x start_dim end_dim :=
    sym_ok (flatten_shape (sym_shape x) start_dim end_dim)
      (App (OFlatten start_dim end_dim) [sym_expr x]);
  movedim x source destination :=
    sym_ok (movedim_shape (sym_shape x) source destination)
      (App (OMovedim source destination) [sym_expr x])
|}.

#[global] Instance SymTensor_layers : Layers SymTensor := {|
  silu x := sym_same OSiLU x;
  conv2d c x :=
    sym_ok (conv2d_shape c (sym_shape x)) (App (OConv2d c) [sym_expr x]);
  rms_norm n x :=
    sym_ok (norm_shape (rms_dim n) (sym_shape x))
      (App (ORMSNorm n) [sym_expr x]);
  layer_norm n x :=
    sym_ok (norm_shape (ln_dim n) (sym_shape x))
      (App (OLayerNorm n) [sym_expr x]);
  linear l x :=
    sym_ok (linear_shape (lin_in_features l) (lin_out_features l)
              (sym_shape x))
      (App (OLinear l) [sym_expr x]);
  attention a x encoder mask :=
    s ← attention_shape a (sym_shape x) (sym_shape <$> encoder)
           (sym_shape <$> mask);
    Ok {| sym_shape := s;
          sym_expr := App (OAttention a)
                        [sym_expr x; sym_opt encoder; sym_opt mask] |};
  patch_embed p x :=
    sym_ok (patch_embed_shape p (sym_shape x))
      (App (OPatchEmbed p) [sym_expr x]);
  ada_layer_norm_single a timestep batch_size like :=
    match ada_layer_norm_single_shape a (sym_shape timestep) with
    | Some (s1, s2) =>
        Ok ({| sym_shape := s1;
               sym_expr := App (OAdaLayerNormSingle a 0)
                             [sym_expr timestep] |},
            {| sym_shape := s2;
               sym_expr := App (OAdaLayerNormSingle a 1)
                             [sym_expr timestep] |})
    | None => Raise (RuntimeError "shape")
    end;
  text_projection p x :=
    sym_ok (linear_shape (tp_in_features p) (tp_hidden_size p) (sym_shape x))
      (App (OTextProjection p) [sym_expr x]);
  parameter p :=
    {| sym_shape := [par_rows p; par_cols p];
       sym_expr := App (OParameter p) [] |}
|}.

Definition sym_input (name : string) (s : list Z) : SymTensor :=
  {| sym_shape := s; sym_expr := Input name |}.

(** The calls of attention layers in an expression: the layer, its
    [encoder_hidden_states] and its [attention_mask]. *)
Fixpoint attention_calls (t : term) : list (Attention * term * term) :=
  match t with
  | Input _ | PyNone => []
  | App f args =>
      let inner :=
        (fix go (ts : list term) :=
           match ts with
           | [] => []
           | t :: ts => attention_calls t ++ go ts
           end) args in
      match f, args with
      | OAttention a, [_; encoder; mask] => (a, encoder, mask) :: inner
      | _, _ => inner
      end
  end.


(** ** The module tree and the attention processors

    [named_children] gives every module its registered sub-modules in the
    order of registration.  A module with [get_processor] and
    [set_processor] is an [Attention]; its processor is mutable state, kept
    in a store under the identity of the layer. *)

Inductive Module :=
| MkModule (attention_id : option nat) (named_children : list (string * Module)).

Definition named_children_of (m : Module) : list (string * Module) :=
  match m with MkModule _ children => children end.

Abbreviation ProcessorStore := (nat → AttentionProcessor).

(** The argument of [set_attn_processor]: one processor or a dict. *)
Inductive ProcessorArg :=
| OneProcessor (p : AttentionProcessor)
| ProcessorDict (d : gmap string AttentionProcessor).

(** [fn_recursive_add_processors] of [attn_processors] *)
Fixpoint fn_recursive_add_processors (store : ProcessorStore)
    (name : string) (module : Module)
    (processors : gmap string AttentionProcessor)
    : gmap string AttentionProcessor :=
  match module with
  | MkModule attention_id children =>
      let processors :=
        match attention_id with
        | Some a => <[name +:+ ".processor" := store a]> processors
        | None => processors
        end in
      (fix go (children : list (string * Module)) processors :=
         match children with
         | [] => processors
         | (sub_name, child) :: rest =>
             go rest
               (fn_recursive_add_processors store
                  (name +:+ "." +:+ sub_name) child processors)
         end) children processors
  end.

(** The property [attn_processors] *)
Definition attn_processors (self : Module) (store : ProcessorStore)
    : gmap string AttentionProcessor :=
  (fix go (children : list (string * Module)) processors :=
     match children with
     | [] => processors
     | (name, module) :: rest =>
         go rest (fn_recursive_add_processors store name module processors)
     end) (named_children_of self) ∅.

(** The state that [set_attn_processor] leaves: the processors of the
    layers, the argument (a dict loses the entries that were popped), and
    the exception if one was raised. *)
Definition SetResult : Type :=
  ProcessorStore * ProcessorArg * option exn.

(** [fn_recursive_attn_processor] of [set_attn_processor] *)
Fixpoint fn_recursive_attn_processor (name : string) (module : Module)
    (store : ProcessorStore) (processor : ProcessorArg) : SetResult :=
  match module with
  | MkModule attention_id children =>
      let '(store, processor, raised) :=
        match attention_id with
        | Some a =>
            match processor with
            | OneProcessor p => (<[a := p]> store, processor, None)
            | ProcessorDict d =>
                match d !! (name +:+ ".processor") with
                | Some p =>
                    (<[a := p]> store,
                     ProcessorDict (delete (name +:+ ".processor") d), None)
                | None =>
                    (store, processor,
                     Some (KeyError (name +:+ ".processor")))
                end
            end
        | None => (store, processor, None)
        end in
      match raised with
      | Some e => (store, processor, Some e)
      | None =>
          (fix go (children : list (string * Module)) store processor
             : SetResult :=
             match children with
             | [] => (store, processor, None)
             | (sub_name, child) :: rest =>
                 let '(store, processor, raised) :=
                   fn_recursive_attn_processor (name +:+ "." +:+ sub_name)
                     child store processor in
                 match raised with
                 | Some e => (store, processor, Some e)
                 | None => go rest store processor
                 end
             end) children store processor
      end
  end.

Definition processor_count_mismatch : exn :=
  ValueError "A dict of processors was passed, but the number of processors does not match the number of attention layers".

(** [set_attn_processor] *)
Definition set_attn_processor (self : Module) (store : ProcessorStore)
    (processor : ProcessorArg) : SetResult :=
  let count := size (attn_processors self store) in
  let mismatch :=
    match processor with
    | ProcessorDict d => negb (size d =? count)%nat
    | OneProcessor _ => false
    end in
  if mismatch then (store, processor, Some processor_count_mismatch)
  else
    (fix go (children : list (string * Module)) store processor
       : SetResult :=
       match children with
       | [] => (store, processor, None)
       | (name, module) :: rest =>
           let '(store, processor, raised) :=
             fn_recursive_attn_processor name module store processor in
           match raised with
           | Some e => (store, processor, Some e)
           | None => go rest store processor
           end
       end) (named_children_of self) store processor.

(** The attention layers of a module in the order in which both
    traversals meet them: the dict key and the identity of each. *)
Fixpoint attention_layers (name : string) (module : Module)
    : list (string * nat) :=
  match module with
  | MkModule attention_id children =>
      match attention_id with
      | Some a => [(name +:+ ".processor", a)]
      | None => []
      end ++
      (fix go (children : list (string * Module)) :=
         match children with
         | [] => []
         | (sub_name, child) :: rest =>
             attention_layers (name +:+ "." +:+ sub_name) child ++ go rest
         end) children
  end.

Definition model_attention_layers (self : Module) : list (string * nat) :=
  (fix go (children : list (string * Module)) :=
     match children with
     | [] => []
     | (name, module) :: rest => attention_layers name module ++ go rest
     end) (named_children_of self).

(** The module tree of a [SanaTransformer2DModel].  The sub-modules of the
    framework layers are left out: none of them is an attention layer.  The
    attention layers of block [i] have the identities [2 * i] and
    [2 * i + 1]. *)
Definition leaf : Module := MkModule None [].

Definition GLUMBConv_module (self : GLUMBConv) : Module :=
  MkModule None
    ([("nonlinearity", leaf); ("conv_inverted", leaf);
      ("conv_depth", leaf); ("conv_point", leaf)]
     ++ match glu_norm self with Some _ => [("norm", leaf)] | None => [] end).

Definition SanaTransformerBlock_module {T} (i : nat)
    (self : SanaTransformerBlock T) : Module :=
  MkModule None
    ([("norm1", leaf); ("attn1", MkModule (Some (2 * i)%nat) [])]
     ++ match blk_norm2 self with Some _ => [("norm2", leaf)] | None => [] end
     ++ match blk_attn2 self with
        | Some (Some _) => [("attn2", MkModule (Some (2 * i + 1)%nat) [])]
        | _ => []
        end
     ++ [("ff", GLUMBConv_module (blk_ff self))]).

Definition SanaTransformer2DModel_module {T}
    (self : SanaTransformer2DModel T) : Module :=
  MkModule None
    [("patch_embed", leaf); ("time_embed", leaf);
     ("caption_projection", leaf); ("caption_norm", leaf);
     ("transformer_blocks",
      MkModule None
        (imap (λ i block, (pretty i, SanaTransformerBlock_module i block))
           (transformer_blocks self)));
     ("norm_out", leaf); ("proj_out", leaf)].

(** The processors that [__init__] installs. *)
Definition SanaTransformer2DModel_processors {T}
    (self : SanaTransformer2DModel T) : ProcessorStore :=
  λ a,
    match transformer_blocks self !! (a `div` 2)%nat with
    | Some block =>
        if (a `mod` 2 =? 0)%nat then attn_processor (blk_attn1 block)
        else match blk_attn2 block with
             | Some (Some attn2) => attn_processor attn2
             | _ => AttnProcessor2_0
             end
    | None => AttnProcessor2_0
    end.

(** ** Tensors with data

    A tensor as its shape and its elements in row-major order.  The elements
    are rationals: the operations of [TensorOps] move elements or do exact
    arithmetic on them. *)

Record DataTensor := {
  dt_shape : list Z;
  dt_data : list Q
}.

Definition dt_valid (x : DataTensor) : Prop :=
  Forall (λ d, 0 ≤ d) (dt_shape x)
  ∧ length (dt_data x) = Z.to_nat (numel (dt_shape x)).

(** Between a position in [dt_data] and an index per dimension. *)
Fixpoint unravel (s : list Z) (i : Z) : list Z :=
  match s with
  | [] => []
  | _ :: s => (i / numel s) :: unravel s (i mod numel s)
  end.

Fixpoint ravel (s idx : list Z) : Z :=
  match s, idx with
  | _ :: s, i :: idx => i * numel s + ravel s idx
  | _, _ => 0
  end.

Definition dt_get (x : DataTensor) (idx : list Z) : Q :=
  default 0%Q (dt_data x !! Z.to_nat (ravel (dt_shape x) idx)).

Definition tabulate (s : list Z) (f : list Z → Q) : DataTensor :=
  {| dt_shape := s;
     dt_data := (λ i : nat, f (unravel s (Z.of_nat i)))
                <$> seq 0 (Z.to_nat (numel s)) |}.

Definition dt_map (f : Q → Q) (x : DataTensor) : DataTensor :=
  {| dt_shape := dt_shape x; dt_data := f <$> dt_data x |}.

(** An operation that changes the shape and leaves the elements in place. *)
Definition dt_view (s : option (list Z)) (x : DataTensor) : Res DataTensor :=
  match s with
  | Some s => Ok {| dt_shape := s; dt_data := dt_data x |}
  | None => Raise (RuntimeError "shape")
  end.

(** The index into an operand of shape [sx] for an index of the broadcast
    result. *)
Definition broadcast_index (sx idx : list Z) : list Z :=
  zip_with (λ d i, if d =? 1 then 0 else i) sx
    (drop (length idx - length sx) idx).

Definition dt_binary (f : Q → Q → Q) (x y : DataTensor) : Res DataTensor :=
  match broadcast_shapes (dt_shape x) (dt_shape y) with
  | Some s =>
      Ok (tabulate s
            (λ idx, f (dt_get x (broadcast_index (dt_shape x) idx))
                      (dt_get y (broadcast_index (dt_shape y) idx))))
  | None => Raise (RuntimeError "shape")
  end.

Definition dt_permute (x : DataTensor) (dims : list Z) : Res DataTensor :=
  match permute_shape (dt_shape x) dims,
        mapM (norm_dim (length (dt_shape x))) dims with
  | Some s, Some ds =>
      Ok (tabulate s
            (λ idx,
               dt_get x
                 ((λ k : nat,
                     default 0 (j ← list_find (λ d, d = k) ds; idx !! j.1))
                  <$> seq 0 (length (dt_shape x)))))
  | _, _ => Raise (RuntimeError "shape")
  end.

Definition movedim_dims (n a b : nat) : list nat :=
  let rest := delete a (seq 0 n) in
  take b rest ++ a :: drop b rest.

Definition dt_movedim (x : DataTensor) (source destination : Z)
    : Res DataTensor :=
  match norm_dim (length (dt_shape x)) source,
        norm_dim (length (dt_shape x)) destination with
  | Some a, Some b =>
      dt_permute x (Z.of_nat <$> movedim_dims (length (dt_shape x)) a b)
  | _, _ => Raise (RuntimeError "shape")
  end.

(** The elements of a piece of [chunk]: with the data seen as [outer] blocks
    of [block] elements (one block per index of the dimensions before the
    one that is split), [len] elements from position [off] of every block. *)
Definition slice_blocks (outer block off len : nat) (data : list Q)
    : list Q :=
  mjoin ((λ blk, take len (drop off blk))
         <$> list.reshape (replicate outer block) data).

Fixpoint chunk_pieces (s : list Z) (d outer inner : nat) (size : Z)
    (data : list Q) (off : Z) (sizes : list Z) : list DataTensor :=
  match sizes with
  | [] => []
  | c :: sizes =>
      {| dt_shape := <[d := c]> s;
         dt_data := slice_blocks outer (Z.to_nat size * inner)
                      (Z.to_nat off * inner) (Z.to_nat c * inner) data |}
      :: chunk_pieces s d outer inner size data (off + c) sizes
  end.

Definition dt_chunk (x : DataTensor) (chunks dim : Z)
    : Res (list DataTensor) :=
  let s := dt_shape x in
  match norm_dim (length s) dim with
  | Some d =>
      match s !! d with
      | Some size =>
          if chunks <=? 0 then Raise (RuntimeError "chunks")
          else
            Ok (chunk_pieces s d
                  (Z.to_nat (numel (take d s)))
                  (Z.to_nat (numel (drop (S d) s)))
                  size (dt_data x) 0 (chunk_sizes size chunks))
      | None => Raise (RuntimeError "dim")
      end
  | None => Raise (RuntimeError "dim")
  end.

(** [torch.cat(xs, dim)]: the module does not call it; it states what
    putting the pieces of a [chunk] together again means. *)
Definition dt_cat (xs : list DataTensor) (dim : Z) : Res DataTensor :=
  match xs with
  | [] => Raise (RuntimeError "empty")
  | x0 :: _ =>
      let s := dt_shape x0 in
      match norm_dim (length s) dim with
      | Some d =>
          if forallb (λ x, bool_decide (<[d := 0]> (dt_shape x) = <[d := 0]> s))
               xs
          then
            let outer := Z.to_nat (numel (take d s)) in
            let inner := Z.to_nat (numel (drop (S d) s)) in
            let size_of x := default 0 (dt_shape x !! d) in
            Ok {| dt_shape := <[d := foldr Z.add 0 (size_of <$> xs)]> s;
                  dt_data :=
                    mjoin (foldr (zip_with app) (replicate outer [])
                             ((λ x, list.reshape
                                      (replicate outer
                                         (Z.to_nat (size_of x) * inner)%nat)
                                      (dt_data x)) <$> xs)) |}
          else Raise (RuntimeError "shape")
      | None => Raise (RuntimeError "dim")
      end
  end.

(** [x % c] on floats is [x - c * floor(x / c)]. *)
Definition py_mod (x c : Q) : Q :=
  (x - c * inject_Z (Qfloor (x / c)))%Q.

#[global] Instance DataTensor_ops : TensorOps DataTensor := {|
  shape := dt_shape;
  to_dtype_of x like := x;
  rsub_scalar c x := dt_map (λ v, inject_Z c - v)%Q x;
  mul_scalar x c := dt_map (λ v, v * inject_Z c)%Q x;
  radd_scalar c x := dt_map (λ v, inject_Z c + v)%Q x;
  rem_scalar x c := dt_map (λ v, py_mod v (inject_Z c)) x;
  eq_scalar x c := dt_map (λ v, if Qeq_bool v (inject_Z c) then 1 else 0)%Q x;
  add := dt_binary Qplus;
  mul := dt_binary Qmult;
  unsqueeze x dim := dt_view (unsqueeze_shape (dt_shape x) dim) x;
  reshape x sizes := dt_view (infer_size sizes (numel (dt_shape x))) x;
  chunk := dt_chunk;
  permute := dt_permute;
  unflatten x dim sizes := dt_view (unflatten_shape (dt_shape x) dim sizes) x;
  flatten x start_dim end_dim :=
    dt_view (flatten_shape (dt_shape x) start_dim end_dim) x;
  movedim := dt_movedim
|}.

(** ** Tensors of a floating-point type

    [DataTensor_ops] computes with exact numbers, which shows where the
    elements of a result come from.  The elements of a tensor of a
    floating-point type are numbers of its format, and every operation
    rounds its result to the format. *)






(** ** The feed-forward block as it is described

    The description of [GLUMBConv], step by step, as an expression over the
    input [x]: a 1x1 convolution to [2 * int(expand_ratio * in_channels)]
    channels (the product is the product of floats, rounded to the nearest
    float, and [int] truncates it), SiLU, a depthwise 3x3 convolution, the
    split in a value and a gate half, value times SiLU of gate, a 1x1
    convolution without bias to [out_channels], the normalization over
    channels when asked for, the residual when asked for. *)
Definition GLUMBConv_described (w : string) (in_channels out_channels : Z)
    (expand_ratio : Q) (norm_type : option string)
    (residual_connection : bool) (x : term) : term :=
  let channels :=
    2 * py_int (float_round (expand_ratio * inject_Z in_channels)%Q) in
  let expanded :=
    App (OConv2d {| conv_weights := w +:+ ".conv_inverted";
                    conv_in_channels := in_channels;
                    conv_out_channels := channels;
                    conv_kernel_size := 1; conv_stride := 1;
                    conv_padding := 0; conv_groups := 1;
                    conv_bias := true |}) [x] in
  let activated := App OSiLU [expanded] in
  let depthwise :=
    App (OConv2d {| conv_weights := w +:+ ".conv_depth";
                    conv_in_channels := channels;
                    conv_out_channels := channels;
                    conv_kernel_size := 3; conv_stride := 1;
                    conv_padding := 1; conv_groups := channels;
                    conv_bias := true |}) [activated] in
  let value := App (OChunk 2 1 0) [depthwise] in
  let gate := App (OChunk 2 1 1) [depthwise] in
  let gated := App OMul [value; App OSiLU [gate]] in
  let projected :=
    App (OConv2d {| conv_weights := w +:+ ".conv_point";
                    conv_in_channels := channels / 2;
                    conv_out_channels := out_channels;
                    conv_kernel_size := 1; conv_stride := 1;
                    conv_padding := 0; conv_groups := 1;
                    conv_bias := false |}) [gated] in
  let normalized :=
    if decide (norm_type = Some "rms_norm") then
      App (OMovedim (-1) 1)
        [App (ORMSNorm {| rms_weights := w +:+ ".norm";
                          rms_dim := out_channels; rms_eps := 1 # 100000;
                          rms_elementwise_affine := true;
                          rms_bias := true |})
           [App (OMovedim 1 (-1)) [projected]]]
    else projected in
  if residual_connection then App OAdd [normalized; x] else normalized.

(** ** What the attention layers are called with

    [mask_routing encoder bias] holds of a call when it is a self-attention
    (a layer without [cross_attention_dim]) called with neither
    [encoder_hidden_states] nor a mask, or a cross-attention called with
    [encoder] as its [encoder_hidden_states] and [bias] as its
    [attention_mask]. *)
Definition mask_routing (encoder bias : term)
    (call : Attention * term * term) : Prop :=
  let '(a, e, m) := call in
  match attn_cross_attention_dim a with
  | None => e = PyNone ∧ m = PyNone
  | Some _ => e = encoder ∧ m = bias
  end.


(** The caption states as the blocks receive them: projected, viewed as
    [batch, tokens, inner_dim], normalized. *)
Definition caption_expression (c : Config) (batch_size : Z)
    (encoder_hidden_states : term) : term :=
  let inner_dim := num_attention_heads c * attention_head_dim c in
  App (ORMSNorm {| rms_weights := "caption_norm"; rms_dim := inner_dim;
                   rms_eps := 1 # 100000; rms_elementwise_affine := true;
                   rms_bias := false |})
    [App (OReshape [batch_size; -1; inner_dim])
       [App (OTextProjection {| tp_weights := "caption_projection";
                                tp_in_features := caption_channels c;
                                tp_hidden_size := inner_dim |})
          [encoder_hidden_states]]].

(** A block calls its self-attention without captions and without mask,
    and it has a cross-attention that it calls with [encoder] and [bias]:
    both calls are part of the expression [out]. *)
Definition block_calls_attention {T} (encoder bias out : term)
    (block : SanaTransformerBlock T) : Prop :=
  (blk_attn1 block, PyNone, PyNone) ∈ attention_calls out
  ∧ ∃ attn2, blk_attn2 block = Some (Some attn2)
             ∧ (attn2, encoder, bias) ∈ attention_calls out.

(** An [encoder_attention_mask] for a batch of [b] items, [n] query tokens
    and [m] caption tokens: none, a keep/discard mask [b, m], or a bias
    [b, ..., m] with one row for all query tokens or one row for each. *)
Definition encoder_mask_ok (b n m : Z) (mask : option SymTensor) : Prop :=
  match mask with
  | None => True
  | Some x =>
      ∃ rows, sym_shape x = b :: rows ++ [m]
              ∧ (numel rows = 1 ∨ numel rows = n)
  end.

(** The configurations that [__init__] builds a model from, every layer
    with sizes that are positive: the sizes of the latent, of the captions
    and of the heads, a [dropout] that is a probability, and, when there
    are blocks, a cross-attention on the inner dimension with its heads
    given, and a feed-forward block with a hidden channel. *)
Definition config_ok (c : Config) : Prop :=
  let inner_dim := num_attention_heads c * attention_head_dim c in
  0 < patch_size c ∧ 0 < in_channels c
  ∧ 0 < py_or (out_channels c) (in_channels c)
  ∧ 0 < caption_channels c
  ∧ 0 < num_attention_heads c ∧ 0 < attention_head_dim c
  ∧ (0 < num_layers c →
     (0 <= dropout c <= 1)%Q
     ∧ cross_attention_dim c = Some inner_dim
     ∧ (∃ heads dim_head,
          num_cross_attention_heads c = Some heads
          ∧ cross_attention_head_dim c = Some dim_head
          ∧ 0 < heads ∧ 0 < dim_head)
     ∧ 0 < GLUMBConv_hidden_channels (mlp_ratio c) inner_dim).


(** ** Both traversals as folds, and the pieces of a list

    Definitions used to reason about the traversals of the module tree and
    about [chunk]. *)

Section Module_induction.
Variable P : Module → Prop.
Hypothesis step : ∀ attention_id children,
  Forall (λ c, P c.2) children → P (MkModule attention_id children).

Fixpoint Module_children_ind (m : Module) : P m :=
  match m with
  | MkModule attention_id children =>
      step attention_id children
        ((fix go (l : list (string * Module)) : Forall (λ c, P c.2) l :=
            match l with
            | [] => @List.Forall_nil _ (λ c, P c.2)
            | (name, child) :: l =>
                @List.Forall_cons _ (λ c, P c.2) (name, child) l
                  (Module_children_ind child) (go l)
            end) children)
  end.
End Module_induction.

(** Both traversals are folds over the attention layers in order. *)
Definition add_layer (store : ProcessorStore)
    (processors : gmap string AttentionProcessor) (layer : string * nat)
    : gmap string AttentionProcessor :=
  <[layer.1 := store layer.2]> processors.

Definition set_layer (state : SetResult) (layer : string * nat) : SetResult :=
  let '(store, processor, raised) := state in
  match raised with
  | Some e => state
  | None =>
      match processor with
      | OneProcessor p => (<[layer.2 := p]> store, processor, None)
      | ProcessorDict d =>
          match d !! layer.1 with
          | Some p =>
              (<[layer.2 := p]> store, ProcessorDict (delete layer.1 d), None)
          | None => (store, processor, Some (KeyError layer.1))
          end
      end
  end.

(** Consecutive slices of a list, from an offset. *)
Fixpoint slices {A} (off : nat) (lens : list nat) : list (list A → list A) :=
  match lens with
  | [] => []
  | n :: lens => (λ l, take n (drop off l)) :: slices (off + n) lens
  end.

(** The dict keys of the two attention layers of block [i]. *)
Definition attn1_key (i : nat) : string :=
  "transformer_blocks." +:+ pretty i +:+ ".attn1.processor".
Definition attn2_key (i : nat) : string :=
  "transformer_blocks." +:+ pretty i +:+ ".attn2.processor".

Definition block_layers (cross : bool) (i : nat) : list (string * nat) :=
  (attn1_key i, (2 * i)%nat)
  :: if cross then [(attn2_key i, (2 * i + 1)%nat)] else [].

(** An index per dimension, each within the size of its dimension. *)
Definition in_bounds (s idx : list Z) : Prop :=
  Forall2 (λ d i, 0 ≤ i < d) s idx.

(** ** Inputs used in the examples *)

(** A small configuration: [inner_dim = 2 * 4 = 8], patches of 2 by 2. *)
Definition example_config (layers : Z) (cross : option Z) : Config :=
  {| in_channels := 4; out_channels := Some 3;
     num_attention_heads := 2; attention_head_dim := 4;
     num_layers := layers;
     num_cross_attention_heads := Some 2;
     cross_attention_head_dim := Some 4;
     cross_attention_dim := cross;
     caption_channels := 16; mlp_ratio := 5 # 2; dropout := 0;
     attention_bias := false; sample_size := 32; patch_size := 2;
     norm_elementwise_affine := false; norm_eps := 1 # 1000000 |}.

(** The same configuration with a cross-attention of no heads. *)
Definition example_config_no_heads : Config :=
  {| in_channels := 4; out_channels := Some 3;
     num_attention_heads := 2; attention_head_dim := 4;
     num_layers := 1;
     num_cross_attention_heads := Some 0;
     cross_attention_head_dim := Some 4;
     cross_attention_dim := Some 8;
     caption_channels := 16; mlp_ratio := 5 # 2; dropout := 0;
     attention_bias := false; sample_size := 32; patch_size := 2;
     norm_elementwise_affine := false; norm_eps := 1 # 1000000 |}.

Definition grad_env : TorchEnv :=
  {| is_grad_enabled := true; is_torch_version_le_1_11_0 := false |}.

(** A latent of 3 items, 4 channels, 8 by 6; captions of 5 tokens. *)
Definition example_hidden_states : SymTensor :=
  sym_input "hidden_states" [3; 4; 8; 6].
Definition example_encoder_hidden_states : SymTensor :=
  sym_input "encoder_hidden_states" [3; 5; 16].
Definition example_timestep : SymTensor := sym_input "timestep" [3].
Definition example_encoder_attention_mask : SymTensor :=
  sym_input "encoder_attention_mask" [3; 5].
Definition example_attention_mask : SymTensor :=
  sym_input "attention_mask" [3; 12].

Definition with_out_channels (c : Config) (o : option Z) : Config :=
  {| in_channels := in_channels c; out_channels := o;
     num_attention_heads := num_attention_heads c;
     attention_head_dim := attention_head_dim c;
     num_layers := num_layers c;
     num_cross_attention_heads := num_cross_attention_heads c;
     cross_attention_head_dim := cross_attention_head_dim c;
     cross_attention_dim := cross_attention_dim c;
     caption_channels := caption_channels c; mlp_ratio := mlp_ratio c;
     dropout := dropout c; attention_bias := attention_bias c;
     sample_size := sample_size c; patch_size := patch_size c;
     norm_elementwise_affine := norm_elementwise_affine c;
     norm_eps := norm_eps c |}.

(** The module tree and the processors of a model of [layers] blocks. *)
Definition example_module (layers : Z) : Module :=
  SanaTransformer2DModel_module
    (@SanaTransformer2DModel_init SymTensor (example_config layers (Some 8))).

Definition example_processors (layers : Z) : ProcessorStore :=
  SanaTransformer2DModel_processors
    (@SanaTransformer2DModel_init SymTensor (example_config layers (Some 8))).

(** A dict with one entry per attention layer of a model of two blocks. *)
Definition example_processor_dict : gmap string AttentionProcessor :=
  list_to_map
    [("transformer_blocks.0.attn1.processor", OtherProcessor 1);
     ("transformer_blocks.0.attn2.processor", OtherProcessor 2);
     ("transformer_blocks.1.attn1.processor", OtherProcessor 3);
     ("transformer_blocks.1.attn2.processor", OtherProcessor 4)].

(** A dict of the right size for a model of one block, with a key that is
    no path of the model. *)
Definition example_misnamed_dict : gmap string AttentionProcessor :=
  list_to_map
    [("transformer_blocks.0.attn1.processor", OtherProcessor 1);
     ("transformer_blocks.0.attn2", OtherProcessor 2)].

(** A modulation table [6, 2] and the conditioning of two items. *)
Definition example_table : DataTensor :=
  {| dt_shape := [6; 2]; dt_data := inject_Z <$> seqZ 100 12 |}.
Definition example_conditioning : DataTensor :=
  {| dt_shape := [2; 12]; dt_data := inject_Z <$> seqZ 0 24 |}.

(** The table [2, 3] of an output stage, the embedded timesteps of four
    items, and a sequence of six tokens of two channels for two items. *)
Definition example_output_table : DataTensor :=
  {| dt_shape := [2; 3]; dt_data := inject_Z <$> seqZ 10 6 |}.
Definition example_embedded_timestep : DataTensor :=
  {| dt_shape := [4; 3]; dt_data := inject_Z <$> seqZ 0 12 |}.
Definition example_sequence : DataTensor :=
  {| dt_shape := [2; 6; 2]; dt_data := inject_Z <$> seqZ 0 24 |}.

(** Which of the blocks [forward] runs under checkpointing. *)
Definition checkpointed_blocks `{TensorOps T}
    (env : TorchEnv) (self : SanaTransformer2DModel T) (timestep : T)
    : list bool :=
  (λ block, is_checkpointed (create_block_forward env self timestep block))
  <$> transformer_blocks self.

(** * Properties *)

(** ** Fallible computations *)

Lemma for_each_ext {A B} (f g : A → B → Res A) (acc : A) (xs : list B) :
  (∀ a x, f a x = g a x) → for_each f acc xs = for_each g acc xs.
Proof.
  intros Hfg. revert acc.
  induction xs as [|x xs IH]; intros acc; simpl; [done|].
  rewrite Hfg. destruct (g acc x); simpl; auto.
Qed.

Lemma bind_Ok {A B} (m : Res A) (f : A → Res B) (b : B) :
  m ≫= f = Ok b → ∃ a, m = Ok a ∧ f a = Ok b.
Proof. destruct m; simpl; [eauto|discriminate]. Qed.

Lemma bind_ext {A B} (m : Res A) (f g : A → Res B) :
  (∀ a, f a = g a) → m ≫= f = m ≫= g.
Proof. intros Hfg. destruct m; simpl; auto. Qed.

(** ** Gradient checkpointing *)

Section checkpointing.
Context `{TensorOps T, Layers T}.

Lemma forward_ignores_block_flag (block : SanaTransformerBlock T) (value : T)
    hidden_states attention_mask encoder_hidden_states
    encoder_attention_mask timestep height width :
  SanaTransformerBlock_forward (_set_gradient_checkpointing block value)
    hidden_states attention_mask encoder_hidden_states
    encoder_attention_mask timestep height width
  = SanaTransformerBlock_forward block
      hidden_states attention_mask encoder_hidden_states
      encoder_attention_mask timestep height width.
Proof.
  unfold _set_gradient_checkpointing.
  destruct (hasattr_gradient_checkpointing block); reflexivity.
Qed.

Lemma call_create_block_forward env (self : SanaTransformer2DModel T)
    ts (block : SanaTransformerBlock T)
    hidden_states attention_mask encoder_hidden_states
    encoder_attention_mask timestep height width :
  call_block_forward (create_block_forward env self ts block)
    hidden_states attention_mask encoder_hidden_states
    encoder_attention_mask timestep height width
  = SanaTransformerBlock_forward block
      hidden_states attention_mask encoder_hidden_states
      encoder_attention_mask timestep height width.
Proof.
  unfold create_block_forward.
  destruct (gradient_checkpointing_interval self) as [interval|];
    [destruct (0 <? interval); destruct (gradient_checkpointing self)|];
    destruct (is_grad_enabled env); simpl;
    unfold torch_utils_checkpoint; simpl;
    rewrite ?forward_ignores_block_flag; try reflexivity;
    destruct (gradient_checkpointing self); simpl;
    rewrite ?forward_ignores_block_flag; reflexivity.
Qed.

Lemma forward_blocks_plain env (self : SanaTransformer2DModel T)
    hidden_states attention_mask encoder_hidden_states
    encoder_attention_mask timestep height width :
  forward_blocks env self hidden_states attention_mask
    encoder_hidden_states encoder_attention_mask timestep height width
  = for_each
      (λ hidden_states block,
         SanaTransformerBlock_forward block hidden_states attention_mask
           encoder_hidden_states encoder_attention_mask timestep
           height width)
      hidden_states (transformer_blocks self).
Proof.
  unfold forward_blocks. apply for_each_ext. intros.
  apply call_create_block_forward.
Qed.

(** C7. The output of [forward] is the same for every value of the
    checkpointing interval, unset included, whether or not checkpointing
    is enabled: the interval only reaches [create_block_forward], and the
    callable it returns computes what the block computes. *)
Theorem forward_independent_of_interval env
    (self : SanaTransformer2DModel T)
    hidden_states encoder_hidden_states timestep
    encoder_attention_mask attention_mask return_dict
    (value : bool) (interval1 interval2 : option Z) :
  SanaTransformer2DModel_forward env
    (with_checkpointing self value interval1)
    hidden_states encoder_hidden_states timestep
    encoder_attention_mask attention_mask return_dict
  = SanaTransformer2DModel_forward env
      (with_checkpointing self value interval2)
      hidden_states encoder_hidden_states timestep
      encoder_attention_mask attention_mask return_dict.
Proof.
  unfold SanaTransformer2DModel_forward.
  repeat (apply bind_ext; intros;
          repeat match goal with a : (_ * _)%type |- _ => destruct a end).
  rewrite !forward_blocks_plain. reflexivity.
Qed.
End checkpointing.

(** C3 (the code departs from the claim).  With checkpointing and gradients
    enabled, every block runs under checkpointing whatever the interval is:
    [_set_gradient_checkpointing] finds no [gradient_checkpointing]
    attribute on a block, and the test that follows reads the flag of the
    model.  On four blocks the intervals 2, 3, 0 and unset all checkpoint
    four blocks. *)
Theorem interval_checkpoints_every_block :
  (∀ `{TensorOps T} (self : SanaTransformer2DModel T) (timestep : T)
     (interval : option Z) (use_reentrant : bool),
     checkpointed_blocks
       {| is_grad_enabled := true;
          is_torch_version_le_1_11_0 := use_reentrant |}
       (with_checkpointing self true interval) timestep
     = replicate (length (transformer_blocks self)) true)
  ∧ (let model :=
       set_gradient_checkpointing
         (SanaTransformer2DModel_init (example_config 4 (Some 8))) true in
     checkpointed_blocks grad_env
       (set_gradient_checkpointing_interval model 2) example_timestep
     = [true; true; true; true]
     ∧ checkpointed_blocks grad_env
         (set_gradient_checkpointing_interval model 3) example_timestep
       = [true; true; true; true]
     ∧ checkpointed_blocks grad_env
         (set_gradient_checkpointing_interval model 0) example_timestep
       = [true; true; true; true]
     ∧ checkpointed_blocks grad_env model example_timestep
       = [true; true; true; true]).
Proof.
  split; [|by vm_compute].
  intros T ? self timestep interval use_reentrant.
  unfold checkpointed_blocks. simpl.
  induction (transformer_blocks self) as [|block blocks IH]; simpl; [done|].
  f_equal. exact IH.
Qed.

(** ** Output channels *)

(** C10. With [out_channels] [None] or [0], the final projection has
    [patch_size * patch_size * in_channels] output features. *)
Theorem out_channels_falsy_uses_in_channels {T} (c : Config) :
  out_channels c = None ∨ out_channels c = Some 0 →
  lin_out_features (sana_proj_out (@SanaTransformer2DModel_init T c))
  = patch_size c * patch_size c * in_channels c.
Proof. intros [Hc|Hc]; simpl; rewrite Hc; reflexivity. Qed.

Lemma out_channels_falsy_uses_in_channels_witness :
  let c := with_out_channels (example_config 1 (Some 8)) None in
  (out_channels c = None ∨ out_channels c = Some 0)
  ∧ lin_out_features (sana_proj_out (@SanaTransformer2DModel_init SymTensor c))
    = 16.
Proof.
  split; [left; reflexivity|].
  apply (@out_channels_falsy_uses_in_channels SymTensor
           (with_out_channels (example_config 1 (Some 8)) None)).
  left; reflexivity.
Defined.

(** ** A model without cross-attention *)

Ltac res_step :=
  lazymatch goal with
  | |- context [mbind _ ?m] =>
      lazymatch goal with
      | |- is_Ok (mbind _ ?m) = _ =>
          let E := fresh "E" in destruct m eqn:E; simpl; try reflexivity
      end
  end;
  repeat match goal with p : (_ * _)%type |- _ => destruct p; simpl end.

Lemma block_without_cross_attention_raises `{TensorOps T, Layers T}
    w dim heads head_dim dropout cross_heads cross_head_dim
    attention_bias affine eps out_bias ratio
    hidden_states attention_mask encoder_hidden_states
    encoder_attention_mask timestep height width :
  is_Ok (SanaTransformerBlock_forward
           (@SanaTransformerBlock_init T w dim heads head_dim dropout
              cross_heads cross_head_dim None attention_bias affine eps
              out_bias ratio)
           hidden_states attention_mask encoder_hidden_states
           encoder_attention_mask timestep height width) = false.
Proof.
  unfold SanaTransformerBlock_forward. simpl.
  repeat res_step.
Qed.

(** C1 (the code departs from the claim).  A block built without
    cross-attention has neither [attn2] nor [norm2]; its [forward] reads
    [self.attn2] and raises.  No call of such a block returns, on any
    tensors, and [forward] of a model with one such block raises
    [AttributeError]. *)
Theorem forward_without_cross_attention_raises :
  (∀ `{TensorOps T, Layers T}
     w dim heads head_dim dropout cross_heads cross_head_dim
     attention_bias affine eps out_bias ratio
     hidden_states attention_mask encoder_hidden_states
     encoder_attention_mask timestep height width,
     is_Ok (SanaTransformerBlock_forward
              (@SanaTransformerBlock_init T w dim heads head_dim dropout
                 cross_heads cross_head_dim None attention_bias affine eps
                 out_bias ratio)
              hidden_states attention_mask encoder_hidden_states
              encoder_attention_mask timestep height width) = false)
  ∧ SanaTransformer2DModel_forward grad_env
      (SanaTransformer2DModel_init (example_config 1 None))
      example_hidden_states example_encoder_hidden_states example_timestep
      None None true
    = Raise (AttributeError "attn2").
Proof.
  split; [|by vm_compute].
  intros. apply block_without_cross_attention_raises.
Qed.

(** ** Attention processors *)

Lemma fn_recursive_add_processors_fold store name module processors :
  fn_recursive_add_processors store name module processors
  = foldl (add_layer store) processors (attention_layers name module).
Proof.
  revert name processors.
  induction module as [attention_id children IH] using Module_children_ind.
  intros name processors. simpl.
  rewrite foldl_app.
  set (start := foldl (add_layer store) processors _).
  assert (Hstart :
    match attention_id with
    | Some a => <[name +:+ ".processor" := store a]> processors
    | None => processors
    end = start) by (subst start; destruct attention_id; reflexivity).
  rewrite Hstart. clear Hstart. generalize start. clear start.
  induction IH as [|[sub_name child] rest Hchild _ IHrest]; intros start;
    [reflexivity|].
  simpl in *. rewrite foldl_app, Hchild. apply IHrest.
Qed.

Lemma attn_processors_fold self store :
  attn_processors self store
  = foldl (add_layer store) ∅ (model_attention_layers self).
Proof.
  unfold attn_processors, model_attention_layers.
  generalize (∅ : gmap string AttentionProcessor).
  induction (named_children_of self) as [|[name module] rest IH];
    intros start; [reflexivity|].
  rewrite foldl_app, fn_recursive_add_processors_fold. apply IH.
Qed.

Lemma set_layer_raised store processor e layers :
  foldl set_layer (store, processor, Some e) layers
  = (store, processor, Some e).
Proof. induction layers as [|layer layers IH]; simpl; auto. Qed.

Lemma fn_recursive_attn_processor_fold name module store processor :
  fn_recursive_attn_processor name module store processor
  = foldl set_layer (store, processor, None) (attention_layers name module).
Proof.
  revert name store processor.
  induction module as [attention_id children IH] using Module_children_ind.
  intros name store processor. simpl.
  rewrite foldl_app.
  set (first := foldl set_layer (store, processor, None) _).
  assert (Hfirst :
    match attention_id with
    | Some a =>
        match processor with
        | OneProcessor p => (<[a := p]> store, processor, None)
        | ProcessorDict d =>
            match d !! (name +:+ ".processor") with
            | Some p =>
                (<[a := p]> store,
                 ProcessorDict (delete (name +:+ ".processor") d), None)
            | None =>
                (store, processor, Some (KeyError (name +:+ ".processor")))
            end
        end
    | None => (store, processor, None)
    end = first).
  { subst first. destruct attention_id as [a|]; [|reflexivity].
    destruct processor as [p|d]; simpl; [reflexivity|].
    destruct (d !! _); reflexivity. }
  rewrite Hfirst. clear Hfirst.
  destruct first as [[store1 processor1] [e|]].
  { rewrite set_layer_raised. reflexivity. }
  clear store processor. revert store1 processor1.
  induction IH as [|[sub_name child] rest Hchild _ IHrest];
    intros store1 processor1; [reflexivity|].
  simpl in *. rewrite foldl_app, Hchild.
  destruct (foldl set_layer _ (attention_layers _ child))
    as [[store2 processor2] [e|]].
  - rewrite set_layer_raised. reflexivity.
  - apply IHrest.
Qed.

Lemma set_attn_processor_fold self store processor :
  set_attn_processor self store processor
  = if match processor with
       | ProcessorDict d =>
           negb (size d =? size (attn_processors self store))%nat
       | OneProcessor _ => false
       end
    then (store, processor, Some processor_count_mismatch)
    else foldl set_layer (store, processor, None)
           (model_attention_layers self).
Proof.
  unfold set_attn_processor, model_attention_layers.
  destruct (match processor with
            | ProcessorDict d => _ | OneProcessor _ => false end);
    [reflexivity|].
  generalize store processor.
  induction (named_children_of self) as [|[name module] rest IH];
    intros store1 processor1; [reflexivity|].
  rewrite foldl_app, fn_recursive_attn_processor_fold.
  destruct (foldl set_layer _ (attention_layers name module))
    as [[store2 processor2] [e|]].
  - rewrite set_layer_raised. reflexivity.
  - apply IH.
Qed.

Lemma add_layers_dom store acc (layers : list (string * nat)) :
  dom (foldl (add_layer store) acc layers)
  = list_to_set layers.*1 ∪ dom acc.
Proof.
  revert acc. induction layers as [|[k a] layers IH]; intros acc; simpl.
  - set_solver.
  - rewrite IH. unfold add_layer. simpl. rewrite dom_insert_L. set_solver.
Qed.

Lemma add_layers_lookup_other store acc (layers : list (string * nat)) k :
  k ∉ layers.*1 → foldl (add_layer store) acc layers !! k = acc !! k.
Proof.
  revert acc. induction layers as [|[k' a] layers IH]; intros acc Hk;
    simpl in *; [done|].
  apply not_elem_of_cons in Hk as [Hne Hk].
  rewrite IH by done. unfold add_layer. simpl.
  by rewrite lookup_insert_ne.
Qed.

Lemma add_layers_lookup store acc (layers : list (string * nat)) k a :
  NoDup layers.*1 → (k, a) ∈ layers →
  foldl (add_layer store) acc layers !! k = Some (store a).
Proof.
  revert acc. induction layers as [|[k' a'] layers IH]; intros acc Hnd Hin;
    simpl in *.
  - by apply elem_of_nil in Hin.
  - apply NoDup_cons in Hnd as [Hk' Hnd].
    apply elem_of_cons in Hin as [Heq|Hin].
    + inversion Heq; subst k' a'.
      rewrite add_layers_lookup_other by done.
      unfold add_layer. simpl. by rewrite lookup_insert_eq.
    + by apply IH.
Qed.

Lemma add_layers_fmap store store' p acc (layers : list (string * nat)) :
  (∀ k a, (k, a) ∈ layers → store' a = p) →
  foldl (add_layer store') ((λ _, p) <$> acc) layers
  = (λ _, p) <$> foldl (add_layer store) acc layers.
Proof.
  revert acc. induction layers as [|[k a] layers IH]; intros acc Hp;
    simpl; [done|].
  unfold add_layer at 2 4. simpl.
  rewrite (Hp k a) by apply list_elem_of_here.
  rewrite <- (fmap_insert (λ _, p) acc k (store a)).
  apply IH. intros k' a' Hin. apply (Hp k' a'). by apply list_elem_of_further.
Qed.

(** One processor for all layers. *)
Lemma set_layers_one store p (layers : list (string * nat)) :
  ∃ store',
    foldl set_layer (store, OneProcessor p, None) layers
    = (store', OneProcessor p, None)
    ∧ (∀ a, a ∈ layers.*2 → store' a = p)
    ∧ (∀ a, a ∉ layers.*2 → store' a = store a).
Proof.
  revert store. induction layers as [|[k a] layers IH]; intros store; simpl.
  - exists store. split_and!; [done| |done].
    intros a Ha. by apply elem_of_nil in Ha.
  - destruct (IH (<[a := p]> store)) as (store' & Hrun & Hin & Hout).
    exists store'. split_and!; [done| |].
    + intros a' Ha'. destruct (decide (a' ∈ layers.*2)) as [Hl|Hl];
        [by apply Hin|].
      apply elem_of_cons in Ha' as [->|Ha']; [|done].
      rewrite Hout by done. apply fn_lookup_insert.
    + intros a' Ha'. apply not_elem_of_cons in Ha' as [Hne Ha'].
      rewrite Hout by done. by apply fn_lookup_insert_ne.
Qed.

(** A dict: the run raises nothing but [KeyError]. *)
Lemma set_layers_dict_raised store d (layers : list (string * nat)) :
  ∀ store' processor' e,
    foldl set_layer (store, ProcessorDict d, None) layers
    = (store', processor', Some e) →
    ∃ k, e = KeyError k.
Proof.
  revert store d. induction layers as [|[k a] layers IH];
    intros store d store' processor' e; simpl; [discriminate|].
  destruct (d !! k) as [p|] eqn:Hk.
  - apply IH.
  - rewrite set_layer_raised. intros [= <- <- <-]. eauto.
Qed.

(** A dict that has every key: each layer gets the entry of its key, and
    the entries are popped. *)
Lemma set_layers_dict store d (layers : list (string * nat)) :
  NoDup layers.*1 → NoDup layers.*2 →
  (∀ k, k ∈ layers.*1 → is_Some (d !! k)) →
  ∃ store' d',
    foldl set_layer (store, ProcessorDict d, None) layers
    = (store', ProcessorDict d', None)
    ∧ dom d' = dom d ∖ list_to_set layers.*1
    ∧ (∀ k a, (k, a) ∈ layers → d !! k = Some (store' a))
    ∧ (∀ a, a ∉ layers.*2 → store' a = store a).
Proof.
  revert store d. induction layers as [|[k a] layers IH];
    intros store d Hkeys Hids Hhas; simpl in *.
  - exists store, d. split_and!; [done|set_solver| |done].
    intros k a Hin. by apply elem_of_nil in Hin.
  - apply NoDup_cons in Hkeys as [Hk Hkeys].
    apply NoDup_cons in Hids as [Ha Hids].
    destruct (Hhas k) as [p Hp]; [apply list_elem_of_here|].
    rewrite Hp.
    destruct (IH (<[a := p]> store) (delete k d)) as
      (store' & d' & Hrun & Hdom & Hin & Hout); [done|done| |].
    { intros k' Hk'. rewrite lookup_delete_ne by (intros ->; done).
      apply Hhas. by apply list_elem_of_further. }
    exists store', d'. split_and!; [done| | |].
    + rewrite Hdom, dom_delete_L. set_solver.
    + intros k' a' Hl. apply elem_of_cons in Hl as [Heq|Hl].
      * inversion Heq; subst k' a'.
        rewrite Hout by done. by rewrite fn_lookup_insert.
      * rewrite <- (Hin k' a' Hl).
        rewrite lookup_delete_ne; [done|].
        intros ->. apply Hk. apply list_elem_of_fmap. by exists (k', a').
    + intros a' Ha'. apply not_elem_of_cons in Ha' as [Hne Ha'].
      rewrite Hout by done. by apply fn_lookup_insert_ne.
Qed.

(** C9. Given one processor, [set_attn_processor] raises nothing, whatever
    the number of attention layers, and leaves every attention layer of the
    model with that processor: [attn_processors] then has the same keys,
    all bound to it.  No other processor is touched. *)
Theorem set_attn_processor_single (self : Module) (store : ProcessorStore)
    (p : AttentionProcessor) :
  ∃ store',
    set_attn_processor self store (OneProcessor p)
    = (store', OneProcessor p, None)
    ∧ (∀ a, a ∈ (model_attention_layers self).*2 → store' a = p)
    ∧ (∀ a, a ∉ (model_attention_layers self).*2 → store' a = store a)
    ∧ attn_processors self store' = (λ _, p) <$> attn_processors self store.
Proof.
  rewrite set_attn_processor_fold.
  destruct (set_layers_one store p (model_attention_layers self))
    as (store' & Hrun & Hin & Hout).
  exists store'. split_and!; [done..|].
  rewrite !attn_processors_fold.
  rewrite <- (add_layers_fmap store store' p ∅); [by rewrite fmap_empty|].
  intros k a Hl. apply Hin. apply list_elem_of_fmap. by exists (k, a).
Qed.

(** A dict, on any module tree whose attention layers have distinct paths
    and are distinct objects. *)
Lemma set_attn_processor_dict_tree (self : Module) (store : ProcessorStore)
    (d : gmap string AttentionProcessor) :
  NoDup (model_attention_layers self).*1 →
  NoDup (model_attention_layers self).*2 →
  let count := size (attn_processors self store) in
  let '(store', processor', raised) :=
    set_attn_processor self store (ProcessorDict d) in
  (raised = Some processor_count_mismatch ↔ size d ≠ count)
  ∧ (size d ≠ count → store' = store ∧ processor' = ProcessorDict d)
  ∧ (dom d = dom (attn_processors self store) →
     raised = None ∧ processor' = ProcessorDict ∅
     ∧ attn_processors self store' = d).
Proof.
  intros Hkeys Hids count. subst count.
  rewrite set_attn_processor_fold.
  destruct (size d =? size (attn_processors self store))%nat eqn:Hsize; simpl.
  - apply Nat.eqb_eq in Hsize.
    destruct (foldl set_layer _ _) as [[store' processor'] raised] eqn:Hrun.
    split_and!.
    + split; [|done]. intros ->.
      apply set_layers_dict_raised in Hrun as [k Hk]. discriminate.
    + done.
    + intros Hdom.
      destruct (set_layers_dict store d (model_attention_layers self))
        as (store2 & d2 & Hrun2 & Hdom2 & Hin & Hout); [done|done| |].
      { intros k Hk. apply elem_of_dom. rewrite Hdom.
        rewrite attn_processors_fold, add_layers_dom. set_solver. }
      rewrite Hrun2 in Hrun. injection Hrun as <- <- <-.
      assert (d2 = ∅) as ->.
      { apply dom_empty_inv_L. rewrite Hdom2, Hdom.
        rewrite attn_processors_fold, add_layers_dom. set_solver. }
      split_and!; [done..|].
      apply map_eq. intros k. rewrite attn_processors_fold.
      destruct (decide (k ∈ (model_attention_layers self).*1)) as [Hk|Hk].
      * apply list_elem_of_fmap in Hk as ([k' a] & -> & Hl). simpl.
        rewrite (add_layers_lookup _ _ _ k' a) by done.
        symmetry. by apply Hin.
      * rewrite add_layers_lookup_other by done. rewrite lookup_empty.
        symmetry. apply not_elem_of_dom. rewrite Hdom.
        rewrite attn_processors_fold, add_layers_dom. set_solver.
  - apply Nat.eqb_neq in Hsize. split_and!; [done|done|].
    intros Hdom. exfalso. apply Hsize.
    by rewrite <- !size_dom, Hdom.
Qed.

(** *** The module tree of a model *)

Lemma string_app_cons c (s1 s2 : string) :
  String c s1 +:+ s2 = String c (s1 +:+ s2).
Proof. reflexivity. Qed.

Lemma string_length_app (s1 s2 : string) :
  String.length (s1 +:+ s2) = (String.length s1 + String.length s2)%nat.
Proof.
  induction s1 as [|c s1 IH]; [done|].
  rewrite string_app_cons. cbn [String.length]. by rewrite IH.
Qed.

Lemma string_app_assoc (s1 s2 s3 : string) :
  (s1 +:+ s2) +:+ s3 = s1 +:+ (s2 +:+ s3).
Proof.
  induction s1 as [|c s1 IH]; [done|].
  rewrite !string_app_cons. by rewrite IH.
Qed.

Lemma string_app_inj_suffix (a a' s s' : string) :
  String.length s = String.length s' →
  a +:+ s = a' +:+ s' → a = a' ∧ s = s'.
Proof.
  revert a'. induction a as [|c a IH]; intros [|c' a'] Hlen Heq.
  - done.
  - apply (f_equal String.length) in Heq.
    rewrite string_app_cons in Heq. cbn [String.length] in Heq.
    rewrite !string_length_app in Heq. cbn [String.length] in Heq. lia.
  - apply (f_equal String.length) in Heq.
    rewrite string_app_cons in Heq. cbn [String.length] in Heq.
    rewrite !string_length_app in Heq. cbn [String.length] in Heq. lia.
  - rewrite !string_app_cons in Heq. injection Heq as -> Heq.
    destruct (IH a' Hlen Heq) as [-> ->]. done.
Qed.

Lemma imap_seq_index {B} (h : nat → nat → B) (k n : nat) :
  imap h (seq k n) = (λ i, h (i - k)%nat i) <$> seq k n.
Proof.
  revert h k. induction n as [|n IH]; intros h k; [done|].
  simpl seq. rewrite imap_cons, fmap_cons. f_equal; [f_equal; lia|].
  rewrite (IH (h ∘ S) (S k)). unfold compose.
  apply list_fmap_ext. intros i x Hx. apply lookup_seq in Hx as [-> ?].
  f_equal. lia.
Qed.

Lemma attention_layers_children name attention_id children :
  attention_layers name (MkModule attention_id children)
  = match attention_id with
    | Some a => [(name +:+ ".processor", a)]
    | None => []
    end
    ++ mjoin ((λ c : string * Module,
                 attention_layers (name +:+ "." +:+ c.1) c.2) <$> children).
Proof.
  simpl. f_equal.
  induction children as [|[sub child] rest IH]; [done|].
  csimpl. by rewrite IH.
Qed.

Lemma SanaTransformer2DModel_attention_layers {T} (c : Config) :
  model_attention_layers
    (SanaTransformer2DModel_module (@SanaTransformer2DModel_init T c))
  = mjoin (block_layers (bool_decide (is_Some (cross_attention_dim c)))
           <$> py_range (num_layers c)).
Proof.
  unfold model_attention_layers, SanaTransformer2DModel_module.
  cbn [named_children_of]. 
  change (attention_layers "patch_embed" leaf) with (@nil (string * nat)).
  change (attention_layers "time_embed" leaf) with (@nil (string * nat)).
  change (attention_layers "caption_projection" leaf) with (@nil (string * nat)).
  change (attention_layers "caption_norm" leaf) with (@nil (string * nat)).
  change (attention_layers "norm_out" leaf) with (@nil (string * nat)).
  change (attention_layers "proj_out" leaf) with (@nil (string * nat)).
  rewrite attention_layers_children.
  rewrite !app_nil_l, !app_nil_r.
  cbn [SanaTransformer2DModel_init transformer_blocks].
  rewrite imap_fmap. unfold py_range.
  rewrite imap_seq_index.
  rewrite <- list_fmap_compose.
  f_equal. apply list_fmap_ext. intros j i Hi.
  apply lookup_seq in Hi as [-> _].
  unfold compose. cbv beta. cbn [fst snd Nat.add]. rewrite Nat.sub_0_r.
  unfold SanaTransformerBlock_module, block_layers, attn1_key, attn2_key.
  destruct (cross_attention_dim c) as [cd|]; cbn [SanaTransformerBlock_init blk_norm2 blk_attn2 blk_ff];
    rewrite attention_layers_children; csimpl;
    rewrite ?string_app_assoc; reflexivity.
Qed.

Lemma attn_key_inj (i j : nat) (s s' : string) :
  String.length s = String.length s' →
  "transformer_blocks." +:+ pretty i +:+ s
  = "transformer_blocks." +:+ pretty j +:+ s' →
  i = j ∧ s = s'.
Proof.
  intros Hlen Heq. apply (inj (String.app "transformer_blocks.")) in Heq.
  destruct (string_app_inj_suffix _ _ _ _ Hlen Heq) as [Hp ->].
  split; [|done]. by apply (inj pretty).
Qed.

Lemma block_layers_keys_NoDup cross (l : list nat) :
  NoDup l → NoDup (mjoin (block_layers cross <$> l)).*1.
Proof.
  induction 1 as [|i l Hi Hl IH]; csimpl; [constructor|].
  assert (Hother : ∀ k, k ∈ (mjoin (block_layers cross <$> l)).*1 →
            ∃ j, j ∈ l ∧ (k = attn1_key j ∨ k = attn2_key j)).
  { clear. intros k Hk. induction l as [|j l IH]; csimpl in *.
    - by apply elem_of_nil in Hk.
    - apply elem_of_cons in Hk as [->|Hk].
      { exists j. split; [apply list_elem_of_here|by left]. }
      rewrite fmap_app in Hk. apply elem_of_app in Hk as [Hk|Hk].
      + destruct cross; csimpl in Hk.
        * apply elem_of_cons in Hk as [->|Hk];
            [|by apply elem_of_nil in Hk].
          exists j. split; [apply list_elem_of_here|by right].
        * by apply elem_of_nil in Hk.
      + destruct (IH Hk) as (j' & Hj' & Hkey).
        exists j'. split; [by apply list_elem_of_further|done]. }
  rewrite fmap_app. 
  assert (Hfresh : ∀ k, (k = attn1_key i ∨ k = attn2_key i) →
            k ∉ (mjoin (block_layers cross <$> l)).*1).
  { intros k Hk Hin. destruct (Hother k Hin) as (j & Hj & Hkey).
    assert (i = j); [|by subst].
    destruct Hk as [->| ->], Hkey as [Hkey|Hkey];
      by apply attn_key_inj in Hkey as [? ?]. }
  constructor.
  - intros Hin. apply elem_of_app in Hin as [Hin|Hin].
    + destruct cross; csimpl in Hin; [|by apply elem_of_nil in Hin].
      apply elem_of_cons in Hin as [Hin|Hin]; [|by apply elem_of_nil in Hin].
      by apply attn_key_inj in Hin as [_ ?].
    + apply (Hfresh (attn1_key i)); auto.
  - apply NoDup_app. split_and!; [|intros k Hk|done].
    + destruct cross; csimpl; [apply NoDup_singleton|constructor].
    + apply Hfresh. destruct cross; csimpl in Hk;
        [|by apply elem_of_nil in Hk].
      apply elem_of_cons in Hk as [->|Hk]; [auto|by apply elem_of_nil in Hk].
Qed.

Lemma block_layers_ids_NoDup cross (l : list nat) :
  NoDup l → NoDup (mjoin (block_layers cross <$> l)).*2.
Proof.
  induction 1 as [|i l Hi Hl IH]; csimpl; [constructor|].
  assert (Hother : ∀ a, a ∈ (mjoin (block_layers cross <$> l)).*2 →
            ∃ j, j ∈ l ∧ (a = (2 * j)%nat ∨ a = (2 * j + 1)%nat)).
  { clear. intros a Ha. induction l as [|j l IH]; csimpl in *.
    - by apply elem_of_nil in Ha.
    - apply elem_of_cons in Ha as [->|Ha].
      { exists j. split; [apply list_elem_of_here|by left]. }
      rewrite fmap_app in Ha. apply elem_of_app in Ha as [Ha|Ha].
      + destruct cross; csimpl in Ha.
        * apply elem_of_cons in Ha as [->|Ha];
            [|by apply elem_of_nil in Ha].
          exists j. split; [apply list_elem_of_here|by right].
        * by apply elem_of_nil in Ha.
      + destruct (IH Ha) as (j' & Hj' & Hid).
        exists j'. split; [by apply list_elem_of_further|done]. }
  rewrite fmap_app.
  assert (Hfresh : ∀ a, (a = (2 * i)%nat ∨ a = (2 * i + 1)%nat) →
            a ∉ (mjoin (block_layers cross <$> l)).*2).
  { intros a Ha Hin. destruct (Hother a Hin) as (j & Hj & Hid).
    assert (i = j) by lia. by subst. }
  constructor.
  - intros Hin. apply elem_of_app in Hin as [Hin|Hin].
    + destruct cross; csimpl in Hin; [|by apply elem_of_nil in Hin].
      apply elem_of_cons in Hin as [Hin|Hin]; [lia|by apply elem_of_nil in Hin].
    + apply (Hfresh (2 * i)%nat); auto.
  - apply NoDup_app. split_and!; [|intros a Ha|done].
    + destruct cross; csimpl; [apply NoDup_singleton|constructor].
    + apply Hfresh. destruct cross; csimpl in Ha;
        [|by apply elem_of_nil in Ha].
      apply elem_of_cons in Ha as [->|Ha]; [auto|by apply elem_of_nil in Ha].
Qed.

Lemma SanaTransformer2DModel_layers_distinct {T} (c : Config) :
  let self :=
    SanaTransformer2DModel_module (@SanaTransformer2DModel_init T c) in
  NoDup (model_attention_layers self).*1
  ∧ NoDup (model_attention_layers self).*2.
Proof.
  intros self. subst self. rewrite SanaTransformer2DModel_attention_layers.
  split.
  - apply block_layers_keys_NoDup, NoDup_seq.
  - apply block_layers_ids_NoDup, NoDup_seq.
Qed.

(** C4, as the code has it.  For the model that [__init__] builds from any
    configuration, [set_attn_processor] on a dict
    raises the error about the number of processors exactly when the size
    of the dict differs from the size of [attn_processors], and then
    replaces nothing; on a dict whose keys are the keys of
    [attn_processors] it raises nothing, pops every entry and leaves each
    layer with the processor given under its path, so that
    [attn_processors] is the dict that was passed. *)
Theorem set_attn_processor_dict {T} (c : Config) (store : ProcessorStore)
    (d : gmap string AttentionProcessor) :
  let self :=
    SanaTransformer2DModel_module (@SanaTransformer2DModel_init T c) in
  let count := size (attn_processors self store) in
  let '(store', processor', raised) :=
    set_attn_processor self store (ProcessorDict d) in
  (raised = Some processor_count_mismatch ↔ size d ≠ count)
  ∧ (size d ≠ count → store' = store ∧ processor' = ProcessorDict d)
  ∧ (dom d = dom (attn_processors self store) →
     raised = None ∧ processor' = ProcessorDict ∅
     ∧ attn_processors self store' = d).
Proof.
  intros self.
  destruct (SanaTransformer2DModel_layers_distinct (T := T) c)
    as [Hkeys Hids].
  exact (set_attn_processor_dict_tree self store d Hkeys Hids).
Qed.

Lemma set_attn_processor_dict_witness :
  let '(store', processor', raised) :=
    set_attn_processor (example_module 2) (example_processors 2)
      (ProcessorDict example_processor_dict) in
  dom example_processor_dict
  = dom (attn_processors (example_module 2) (example_processors 2))
  ∧ raised = None ∧ processor' = ProcessorDict ∅
  ∧ attn_processors (example_module 2) store' = example_processor_dict.
Proof.
  pose proof (@set_attn_processor_dict SymTensor (example_config 2 (Some 8))
                (example_processors 2) example_processor_dict) as Hset.
  cbv zeta in Hset. fold (example_module 2) in Hset.
  destruct (set_attn_processor (example_module 2) (example_processors 2)
              (ProcessorDict example_processor_dict))
    as [[store' processor'] raised].
  destruct Hset as (_ & _ & Hrouted).
  assert (Hdom : dom example_processor_dict
                 = dom (attn_processors (example_module 2)
                          (example_processors 2)))
    by (vm_compute; reflexivity).
  split; [exact Hdom|]. exact (Hrouted Hdom).
Defined.

(** A dict of the right size can still make [set_attn_processor] raise:
    with a key that is no path of the model the second layer finds no
    entry, after the first layer has got its processor. *)
Lemma set_attn_processor_error_with_matching_size :
  let count := size (attn_processors (example_module 1)
                       (example_processors 1)) in
  let '(store', processor', raised) :=
    set_attn_processor (example_module 1) (example_processors 1)
      (ProcessorDict example_misnamed_dict) in
  size example_misnamed_dict = count
  ∧ raised = Some (KeyError "transformer_blocks.0.attn2.processor")
  ∧ example_processors 1 0%nat = SanaLinearAttnProcessor2_0
  ∧ store' 0%nat = OtherProcessor 1
  ∧ ¬ (is_Some raised ↔ size example_misnamed_dict ≠ count).
Proof.
  vm_compute. split_and!; try reflexivity.
  intros [Herr _]. apply Herr; eauto.
Qed.

(** ** Running the layers on symbolic tensors *)

Ltac zbool :=
  repeat match goal with
  | |- context [?a =? ?a] => rewrite (Z.eqb_refl a)
  | |- context [?a =? ?b] =>
      first [rewrite (proj2 (Z.eqb_eq a b)) by lia
            |rewrite (proj2 (Z.eqb_neq a b)) by lia]
  | |- context [?a <? ?b] =>
      first [rewrite (proj2 (Z.ltb_lt a b)) by lia
            |rewrite (proj2 (Z.ltb_ge a b)) by lia]
  | |- context [?a <=? ?b] =>
      first [rewrite (proj2 (Z.leb_le a b)) by lia
            |rewrite (proj2 (Z.leb_gt a b)) by lia]
  end.

Lemma Ok_bind {A B} (a : A) (f : A → Res B) : Ok a ≫= f = f a.
Proof. reflexivity. Qed.

Ltac sym_norm :=
  rewrite ?Ok_bind; cbv beta iota; cbn [sym_shape sym_expr].

Abbreviation Sym s e := {| sym_shape := s; sym_expr := e |}.

Section sym_steps.
Implicit Types x y : SymTensor.

Lemma sym_silu x : silu x = Sym (sym_shape x) (App OSiLU [sym_expr x]).
Proof. reflexivity. Qed.

Lemma sym_radd_scalar c x :
  radd_scalar c x = Sym (sym_shape x) (App (ORaddScalar c) [sym_expr x]).
Proof. reflexivity. Qed.

Lemma sym_to_dtype_of x like :
  to_dtype_of x like = Sym (sym_shape x) (App OToDtype [sym_expr x]).
Proof. reflexivity. Qed.

Lemma sym_parameter p :
  parameter p = Sym [par_rows p; par_cols p] (App (OParameter p) []).
Proof. reflexivity. Qed.

Lemma sym_conv2d c x s :
  conv2d_shape c (sym_shape x) = Some s →
  conv2d c x = Ok (Sym s (App (OConv2d c) [sym_expr x])).
Proof. intros Hs. simpl. by rewrite Hs. Qed.

Lemma sym_rms_norm n x s :
  norm_shape (rms_dim n) (sym_shape x) = Some s →
  rms_norm n x = Ok (Sym s (App (ORMSNorm n) [sym_expr x])).
Proof. intros Hs. simpl. by rewrite Hs. Qed.

Lemma sym_layer_norm n x s :
  norm_shape (ln_dim n) (sym_shape x) = Some s →
  layer_norm n x = Ok (Sym s (App (OLayerNorm n) [sym_expr x])).
Proof. intros Hs. simpl. by rewrite Hs. Qed.

Lemma sym_linear l x s :
  linear_shape (lin_in_features l) (lin_out_features l) (sym_shape x)
  = Some s →
  linear l x = Ok (Sym s (App (OLinear l) [sym_expr x])).
Proof. intros Hs. simpl. by rewrite Hs. Qed.

Lemma sym_text_projection p x s :
  linear_shape (tp_in_features p) (tp_hidden_size p) (sym_shape x) = Some s →
  text_projection p x = Ok (Sym s (App (OTextProjection p) [sym_expr x])).
Proof. intros Hs. simpl. by rewrite Hs. Qed.

Lemma sym_patch_embed p x s :
  patch_embed_shape p (sym_shape x) = Some s →
  patch_embed p x = Ok (Sym s (App (OPatchEmbed p) [sym_expr x])).
Proof. intros Hs. simpl. by rewrite Hs. Qed.

Lemma sym_ada_layer_norm_single a x batch_size like s1 s2 :
  ada_layer_norm_single_shape a (sym_shape x) = Some (s1, s2) →
  ada_layer_norm_single a x batch_size like
  = Ok (Sym s1 (App (OAdaLayerNormSingle a 0) [sym_expr x]),
        Sym s2 (App (OAdaLayerNormSingle a 1) [sym_expr x])).
Proof. intros Hs. simpl. by rewrite Hs. Qed.

Lemma sym_attention a x encoder mask s :
  attention_shape a (sym_shape x) (sym_shape <$> encoder)
    (sym_shape <$> mask) = Ok s →
  attention a x encoder mask
  = Ok (Sym s (App (OAttention a)
                 [sym_expr x; sym_opt encoder; sym_opt mask])).
Proof. intros Hs. simpl. by rewrite Hs. Qed.

Lemma sym_add x y s :
  broadcast_shapes (sym_shape x) (sym_shape y) = Some s →
  add x y = Ok (Sym s (App OAdd [sym_expr x; sym_expr y])).
Proof. intros Hs. simpl. by rewrite Hs. Qed.

Lemma sym_mul x y s :
  broadcast_shapes (sym_shape x) (sym_shape y) = Some s →
  mul x y = Ok (Sym s (App OMul [sym_expr x; sym_expr y])).
Proof. intros Hs. simpl. by rewrite Hs. Qed.

Lemma sym_unsqueeze x dim s :
  unsqueeze_shape (sym_shape x) dim = Some s →
  unsqueeze x dim = Ok (Sym s (App (OUnsqueeze dim) [sym_expr x])).
Proof. intros Hs. simpl. by rewrite Hs. Qed.

Lemma sym_reshape x sizes s :
  infer_size sizes (numel (sym_shape x)) = Some s →
  reshape x sizes = Ok (Sym s (App (OReshape sizes) [sym_expr x])).
Proof. intros Hs. simpl. by rewrite Hs. Qed.

Lemma sym_permute x dims s :
  permute_shape (sym_shape x) dims = Some s →
  permute x dims = Ok (Sym s (App (OPermute dims) [sym_expr x])).
Proof. intros Hs. simpl. by rewrite Hs. Qed.

Lemma sym_unflatten x dim sizes s :
  unflatten_shape (sym_shape x) dim sizes = Some s →
  unflatten x dim sizes
  = Ok (Sym s (App (OUnflatten dim sizes) [sym_expr x])).
Proof. intros Hs. simpl. by rewrite Hs. Qed.

Lemma sym_flatten x start_dim end_dim s :
  flatten_shape (sym_shape x) start_dim end_dim = Some s →
  flatten x start_dim end_dim
  = Ok (Sym s (App (OFlatten start_dim end_dim) [sym_expr x])).
Proof. intros Hs. simpl. by rewrite Hs. Qed.

Lemma sym_movedim x source destination s :
  movedim_shape (sym_shape x) source destination = Some s →
  movedim x source destination
  = Ok (Sym s (App (OMovedim source destination) [sym_expr x])).
Proof. intros Hs. simpl. by rewrite Hs. Qed.

Lemma sym_chunk x chunks dim ss :
  chunk_shapes (sym_shape x) chunks dim = Some ss →
  chunk x chunks dim
  = Ok (imap (λ i s, Sym s (App (OChunk chunks dim i) [sym_expr x])) ss).
Proof. intros Hs. simpl. by rewrite Hs. Qed.
End sym_steps.

(** ** Shapes of the layers *)

Lemma numel_app (a b : list Z) : numel (a ++ b) = numel a * numel b.
Proof.
  induction a as [|x a IH]; simpl; [by destruct (numel b)|].
  rewrite IH. ring.
Qed.

Lemma numel_nonneg (s : list Z) : Forall (λ d, 0 ≤ d) s → 0 ≤ numel s.
Proof. induction 1; simpl; lia. Qed.

Lemma conv_out_size_1x1 h : conv_out_size h 1 1 0 = h.
Proof. unfold conv_out_size. rewrite Z.div_1_r. lia. Qed.

Lemma conv_out_size_3x3 h : conv_out_size h 3 1 1 = h.
Proof. unfold conv_out_size. rewrite Z.div_1_r. lia. Qed.

Lemma conv2d_shape_pointwise c b h w :
  conv_kernel_size c = 1 → conv_stride c = 1 → conv_padding c = 0 →
  conv_groups c = 1 → 0 < h → 0 < w →
  conv2d_shape c [b; conv_in_channels c; h; w]
  = Some [b; conv_out_channels c; h; w].
Proof.
  intros Hk Hs Hp Hg Hh Hw. unfold conv2d_shape. rewrite Hk, Hs, Hp, Hg.
  rewrite !conv_out_size_1x1, !Z.mod_1_r. zbool. reflexivity.
Qed.

Lemma conv2d_shape_depthwise c b h w :
  conv_kernel_size c = 3 → conv_stride c = 1 → conv_padding c = 1 →
  conv_groups c = conv_in_channels c →
  conv_out_channels c = conv_in_channels c →
  0 < conv_in_channels c → 0 < h → 0 < w →
  conv2d_shape c [b; conv_in_channels c; h; w]
  = Some [b; conv_out_channels c; h; w].
Proof.
  intros Hk Hs Hp Hg Ho Hc Hh Hw. unfold conv2d_shape.
  rewrite Hk, Hs, Hp, Hg, Ho.
  rewrite !conv_out_size_3x3, !Z_mod_same_full. zbool. reflexivity.
Qed.

Lemma chunk_sizes_halves n : 0 < n → chunk_sizes (n * 2) 2 = [n; n].
Proof.
  intros Hn. unfold chunk_sizes.
  replace ((n * 2 + 2 - 1) / 2) with n by (apply Z.div_unique with 1; lia).
  zbool.
  replace ((n * 2 + n - 1) / n) with 2
    by (apply Z.div_unique with (n - 1); lia).
  simpl. f_equal. f_equal. lia.
Qed.

Lemma chunk_shapes_halves b n h w :
  0 < n →
  chunk_shapes [b; n * 2; h; w] 2 1 = Some [[b; n; h; w]; [b; n; h; w]].
Proof.
  intros Hn. unfold chunk_shapes. simpl. by rewrite chunk_sizes_halves.
Qed.

Lemma broadcast_rev_same s : broadcast_rev s s = Some s.
Proof.
  induction s as [|x s IH]; simpl; [done|].
  rewrite Z.eqb_refl. simpl. by rewrite IH.
Qed.

Lemma broadcast_shapes_same s : broadcast_shapes s s = Some s.
Proof.
  unfold broadcast_shapes. rewrite broadcast_rev_same. simpl.
  by rewrite reverse_involutive.
Qed.

(** ** Rounding to a floating-point format *)

Lemma Qpow2_pos e : (0 < Qpow2 e)%Q.
Proof. by apply Qpower_0_lt. Qed.

Lemma Qpow2_plus a b : (Qpow2 (a + b) == Qpow2 a * Qpow2 b)%Q.
Proof. by apply Qpower_plus. Qed.

Lemma Qpow2_inject e : 0 <= e → (Qpow2 e == inject_Z (2 ^ e))%Q.
Proof. intros He. unfold Qpow2. by rewrite Zpower_Qpower. Qed.

Lemma Qpow2_opp e : (Qpow2 (- e) == / Qpow2 e)%Q.
Proof. apply Qpower_opp. Qed.

Lemma Qpow2_ge_1 e : 0 <= e → (1 <= Qpow2 e)%Q.
Proof. intros He. by apply Qpower_1_le. Qed.

(** [2^e <= |x|] for the binary exponent [e] of [x]. *)
Lemma binary_exponent_le x :
  ¬ (x == 0)%Q → (Qpow2 (binary_exponent x) <= Qabs x)%Q.
Proof.
  intros Hx. unfold binary_exponent.
  assert (Hpos : (0 < Qabs x)%Q).
  { destruct (Qlt_le_dec 0 (Qabs x)) as [|Hle]; [done|].
    exfalso. apply Hx. apply Qabs_Qle_condition in Hle.
    lra. }
  set (a := Qabs x) in *.
  destruct (Qle_bool 1 a) eqn:Hb.
  - apply Qle_bool_iff in Hb.
    assert (Hf : 1 <= Qfloor a).
    { change 1 with (Qfloor 1). by apply Qfloor_resp_le. }
    rewrite Qpow2_inject by apply Z.log2_nonneg.
    apply Qle_trans with (inject_Z (Qfloor a)); [|apply Qfloor_le].
    rewrite <- Zle_Qle. apply Z.log2_spec. lia.
  - assert (Hlt : (a < 1)%Q).
    { apply Qnot_le_lt. intros Hle. apply Qle_bool_iff in Hle. congruence. }
    rewrite Qpow2_opp.
    set (c := Qceiling (/ a)).
    assert (Hinv : (/ a <= inject_Z c)%Q) by apply Qle_ceiling.
    assert (Hc : (inject_Z c <= Qpow2 (Z.log2_up c))%Q).
    { rewrite Qpow2_inject by apply Z.log2_up_nonneg.
      rewrite <- Zle_Qle.
      destruct (Z_lt_le_dec 1 c) as [H1|H1].
      - by apply Z.log2_up_spec.
      - transitivity 1; [done|].
        pose proof (Z.pow_pos_nonneg 2 (Z.log2_up c) ltac:(lia)
                      (Z.log2_up_nonneg c)). lia. }
    assert (Hia : (0 < / a)%Q) by by apply Qinv_lt_0_compat.
    apply Qle_shift_inv_r.
    + apply Qpow2_pos.
    + apply Qle_trans with (a * / a)%Q.
      * rewrite Qmult_inv_r; [apply Qle_refl|].
        intros H0. rewrite H0 in Hpos. by apply Qlt_irrefl in Hpos.
      * apply Qmult_le_l; [done|]. by apply Qle_trans with (inject_Z c).
Qed.

Lemma binary_exponent_nonneg x : (1 <= x)%Q → 0 <= binary_exponent x.
Proof.
  intros Hx. unfold binary_exponent.
  assert (Ha : (1 <= Qabs x)%Q) by (by apply Qabs_ge).
  apply Qle_bool_iff in Ha. rewrite Ha. apply Z.log2_nonneg.
Qed.

Lemma round_half_even_comp x y :
  (x == y)%Q → round_half_even x = round_half_even y.
Proof.
  intros Hxy. unfold round_half_even.
  rewrite (Qfloor_comp _ _ Hxy).
  assert (H : (x - inject_Z (Qfloor y) == y - inject_Z (Qfloor y))%Q)
    by (by rewrite Hxy).
  by rewrite (Qcompare_comp _ _ H _ _ (Qeq_refl (1 # 2))).
Qed.

Lemma round_half_even_inject n : round_half_even (inject_Z n) = n.
Proof.
  unfold round_half_even. rewrite Qfloor_Z.
  assert (H : (inject_Z n - inject_Z n == 0)%Q) by ring.
  by rewrite (Qcompare_comp _ _ H _ _ (Qeq_refl (1 # 2))).
Qed.

Lemma round_half_even_floor y : Qfloor y <= round_half_even y.
Proof.
  unfold round_half_even.
  destruct (_ ?= _)%Q; [destruct (Z.even _)|..]; lia.
Qed.

(** The nearest integer is at most one half away. *)
Lemma round_half_even_close y :
  (Qabs (inject_Z (round_half_even y) - y) <= 1 # 2)%Q.
Proof.
  apply Qabs_Qle_condition.
  pose proof (Qfloor_le y) as Hlo. pose proof (Qlt_floor y) as Hhi.
  rewrite inject_Z_plus in Hhi. change (inject_Z 1) with 1%Q in Hhi.
  unfold round_half_even.
  destruct (y - inject_Z (Qfloor y) ?= 1 # 2)%Q eqn:Hc.
  - apply Qeq_alt in Hc.
    destruct (Z.even _); rewrite ?inject_Z_plus;
      change (inject_Z 1) with 1%Q; split; lra.
  - apply Qlt_alt in Hc. split; lra.
  - apply Qgt_alt in Hc. rewrite inject_Z_plus.
    change (inject_Z 1) with 1%Q. split; lra.
Qed.

Lemma py_int_comp x y : (x == y)%Q → py_int x = py_int y.
Proof.
  destruct x as [a b], y as [c d].
  unfold Qeq, py_int. cbn [Qnum Qden]. intros H.
  assert (Hb : 0 < Z.pos b) by lia. assert (Hd : 0 < Z.pos d) by lia.
  set (B := Z.pos b) in *. set (D := Z.pos d) in *.
  rewrite <- (Z.quot_mul_cancel_r a B D) by lia.
  rewrite H, (Z.mul_comm c B).
  by rewrite Z.quot_mul_cancel_l by lia.
Qed.

Section rounding.
Variable p : Z.
Hypothesis Hp : 0 < p.

Lemma round_to_precision_unfold x :
  ¬ (x == 0)%Q →
  (round_to_precision p x
   == inject_Z (round_half_even (x / Qpow2 (binary_exponent x - p + 1)))
      * Qpow2 (binary_exponent x - p + 1))%Q.
Proof.
  intros Hx. unfold round_to_precision.
  destruct (Qeq_bool x 0) eqn:Hb.
  - by apply Qeq_bool_iff in Hb.
  - apply Qred_correct.
Qed.

(** The relative error of rounding is at most [2^-p]. *)
Lemma round_to_precision_error x :
  (Qabs (round_to_precision p x - x) <= Qabs x * Qpow2 (- p))%Q.
Proof.
  destruct (Qeq_dec x 0) as [H0|Hx].
  - unfold round_to_precision.
    pose proof (proj2 (Qeq_bool_iff x 0) H0) as ->.
    rewrite H0. pose proof (Qpow2_pos (- p)).
    rewrite Qabs_pos; [|apply Qle_refl]. rewrite Qabs_pos; lra.
  - rewrite (round_to_precision_unfold x Hx).
    set (e := binary_exponent x).
    set (q := Qpow2 (e - p + 1)).
    pose proof (Qpow2_pos (e - p + 1)) as Hq. fold q in Hq.
    set (r := round_half_even (x / q)).
    pose proof (round_half_even_close (x / q)) as Hr. fold r in Hr.
    assert (Heq : (inject_Z r * q - x == (inject_Z r - x / q) * q)%Q)
      by (field; lra).
    rewrite Heq, Qabs_Qmult, (Qabs_pos q) by lra.
    apply Qle_trans with ((1 # 2) * q)%Q.
    { apply Qmult_le_compat_r; [done|lra]. }
    pose proof (binary_exponent_le x Hx) as He. fold e in He.
    assert (Hq2 : ((1 # 2) * q == Qpow2 e * Qpow2 (- p))%Q).
    { unfold q. replace (e - p + 1) with (e + (- p + 1)) by lia.
      rewrite Qpow2_plus, (Qpow2_plus (- p) 1).
      change (Qpow2 1) with 2%Q. ring. }
    rewrite Hq2. apply Qmult_le_compat_r; [done|].
    apply Qlt_le_weak, Qpow2_pos.
Qed.

(** Rounding does not go below the power of two under the number. *)
Lemma round_to_precision_ge_pow2 x :
  (0 < x)%Q → (Qpow2 (binary_exponent x) <= round_to_precision p x)%Q.
Proof.
  intros Hpos. assert (Hx : ¬ (x == 0)%Q) by lra.
  rewrite (round_to_precision_unfold x Hx).
  set (e := binary_exponent x).
  set (q := Qpow2 (e - p + 1)).
  pose proof (Qpow2_pos (e - p + 1)) as Hq. fold q in Hq.
  pose proof (binary_exponent_le x Hx) as He. fold e in He.
  rewrite Qabs_pos in He by lra.
  assert (Hsplit : (Qpow2 e == inject_Z (2 ^ (p - 1)) * q)%Q).
  { unfold q. rewrite <- Qpow2_inject by lia.
    rewrite <- Qpow2_plus. by replace (p - 1 + (e - p + 1)) with e by lia. }
  rewrite Hsplit. apply Qmult_le_compat_r; [|lra].
  rewrite <- Zle_Qle.
  etransitivity; [|apply round_half_even_floor].
  rewrite <- (Qfloor_Z (2 ^ (p - 1))). apply Qfloor_resp_le.
  apply Qle_shift_div_l; [done|]. by rewrite <- Hsplit.
Qed.

Lemma round_to_precision_nonneg x :
  (0 <= x)%Q → (0 <= round_to_precision p x)%Q.
Proof.
  intros Hx. destruct (Qeq_dec x 0) as [H0|Hn].
  - unfold round_to_precision.
    pose proof (proj2 (Qeq_bool_iff x 0) H0) as ->. apply Qle_refl.
  - apply Qle_trans with (Qpow2 (binary_exponent x)).
    + apply Qlt_le_weak, Qpow2_pos.
    + apply round_to_precision_ge_pow2. lra.
Qed.

Lemma round_to_precision_ge_1 x :
  (1 <= x)%Q → (1 <= round_to_precision p x)%Q.
Proof.
  intros Hx. apply Qle_trans with (Qpow2 (binary_exponent x)).
  - by apply Qpow2_ge_1, binary_exponent_nonneg.
  - apply round_to_precision_ge_pow2. lra.
Qed.

(** An integer of at most [p] bits is a number of the format. *)
Lemma round_to_precision_integer n :
  Z.abs n < 2 ^ p → (round_to_precision p (inject_Z n) == inject_Z n)%Q.
Proof.
  intros Hn. destruct (Z.eq_dec n 0) as [->|Hn0]; [done|].
  assert (Hx : ¬ (inject_Z n == 0)%Q).
  { intros H. apply Hn0. by apply (inject_Z_injective n 0). }
  rewrite (round_to_precision_unfold _ Hx).
  assert (He : binary_exponent (inject_Z n) = Z.log2 (Z.abs n)).
  { unfold binary_exponent.
    assert (Ha : (Qabs (inject_Z n) == inject_Z (Z.abs n))%Q).
    { unfold Qabs, inject_Z. reflexivity. }
    assert (Hb : Qle_bool 1 (Qabs (inject_Z n)) = true).
    { apply Qle_bool_iff. rewrite Ha.
      change 1%Q with (inject_Z 1). rewrite <- Zle_Qle. lia. }
    rewrite Hb. by rewrite (Qfloor_comp _ _ Ha), Qfloor_Z. }
  rewrite He. set (e := Z.log2 (Z.abs n)).
  assert (He0 : 0 <= e) by apply Z.log2_nonneg.
  assert (Hep : e < p) by (apply Z.log2_lt_pow2; lia).
  set (k := p - 1 - e).
  replace (e - p + 1) with (- k) by lia.
  assert (Hdiv : (inject_Z n / Qpow2 (- k) == inject_Z (n * 2 ^ k))%Q).
  { rewrite Qpow2_opp, inject_Z_mult, <- Qpow2_inject by lia.
    pose proof (Qpow2_pos k). field. lra. }
  rewrite (round_half_even_comp _ _ Hdiv), round_half_even_inject.
  rewrite inject_Z_mult.
  rewrite <- Qpow2_inject by lia. rewrite Qpow2_opp.
  pose proof (Qpow2_pos k). field. lra.
Qed.
End rounding.

Lemma binary_exponent_comp x y :
  (x == y)%Q → binary_exponent x = binary_exponent y.
Proof.
  intros Hxy. unfold binary_exponent.
  assert (Ha : (Qabs x == Qabs y)%Q) by (by rewrite Hxy).
  rewrite (Qleb_comp _ _ (Qeq_refl 1) _ _ Ha).
  rewrite (Qfloor_comp _ _ Ha).
  assert (Hi : (/ Qabs x == / Qabs y)%Q) by (by rewrite Ha).
  by rewrite (Qceiling_comp _ _ Hi).
Qed.

Lemma round_to_precision_comp p x y :
  (x == y)%Q → round_to_precision p x = round_to_precision p y.
Proof.
  intros Hxy. unfold round_to_precision.
  assert (Hb : Qeq_bool x 0 = Qeq_bool y 0).
  { destruct (Qeq_bool y 0) eqn:Hy.
    - apply Qeq_bool_iff. apply Qeq_bool_iff in Hy. by rewrite Hxy.
    - destruct (Qeq_bool x 0) eqn:Hx; [|done].
      apply Qeq_bool_iff in Hx. rewrite Hxy in Hx.
      apply Qeq_bool_iff in Hx. congruence. }
  rewrite Hb. destruct (Qeq_bool y 0); [done|].
  rewrite (binary_exponent_comp x y Hxy).
  apply Qred_complete.
  set (q := Qpow2 _).
  assert (Hd : (x / q == y / q)%Q) by (by rewrite Hxy).
  by rewrite (round_half_even_comp _ _ Hd).
Qed.

Lemma py_int_pos x : 0 < py_int x ↔ (1 <= x)%Q.
Proof.
  destruct x as [a b]. unfold py_int, Qle. cbn [Qnum Qden].
  rewrite Z.mul_1_r, Z.mul_1_l.
  assert (Hb : 0 < Z.pos b) by lia. set (B := Z.pos b) in *.
  split.
  - intros H. destruct (Z_lt_le_dec a B) as [Hlt|]; [|done].
    destruct (Z_lt_le_dec a 0) as [Hneg|Hnn].
    + pose proof (Z.quot_opp_l a B ltac:(lia)).
      pose proof (Z.quot_pos (- a) B ltac:(lia) ltac:(lia)). lia.
    + rewrite Z.quot_small in H by lia. lia.
  - intros H. apply Z.quot_str_pos. lia.
Qed.

(** A product of at least one is not rounded below one. *)
Lemma float_round_pos x : 0 < py_int x → 0 < py_int (float_round x).
Proof.
  rewrite !py_int_pos. by apply round_to_precision_ge_1.
Qed.

(** ** The feed-forward block *)

Lemma GLUMBConv_forward_sym w cin cout ratio norm_type residual
    (x : SymTensor) b h w' :
  sym_shape x = [b; cin; h; w'] → 0 < h → 0 < w' →
  0 < GLUMBConv_hidden_channels ratio cin →
  (residual = true → cin = cout) →
  GLUMBConv_forward (GLUMBConv_init w cin cout ratio norm_type residual) x
  = Ok (Sym [b; cout; h; w']
          (GLUMBConv_described w cin cout ratio norm_type residual
             (sym_expr x))).
Proof.
  intros Hs Hh Hw Hhid Hres.
  unfold GLUMBConv_forward, GLUMBConv_described.
  set (g := GLUMBConv_init _ _ _ _ _ _).
  change (py_int (float_round (ratio * inject_Z cin)))
    with (GLUMBConv_hidden_channels ratio cin).
  set (hid := GLUMBConv_hidden_channels ratio cin) in *.
  replace (2 * hid / 2) with hid by (rewrite Z.mul_comm, Z.div_mul; lia).
  rewrite (Z.mul_comm 2 hid).
  rewrite (sym_conv2d _ _ [b; hid * 2; h; w'])
    by (rewrite Hs; by apply conv2d_shape_pointwise).
  sym_norm. rewrite sym_silu. sym_norm.
  rewrite (sym_conv2d _ _ [b; hid * 2; h; w'])
    by (apply (conv2d_shape_depthwise (glu_conv_depth g));
        try done; simpl; lia).
  sym_norm.
  rewrite (sym_chunk _ _ _ [[b; hid; h; w']; [b; hid; h; w']])
    by (by apply chunk_shapes_halves).
  cbn [imap compose]. sym_norm. unfold unpack2. sym_norm.
  rewrite sym_silu. sym_norm.
  rewrite (sym_mul _ _ [b; hid; h; w']) by apply broadcast_shapes_same.
  sym_norm.
  rewrite (sym_conv2d _ _ [b; cout; h; w'])
    by (by apply (conv2d_shape_pointwise (glu_conv_point g))).
  sym_norm.
  subst g. cbn [GLUMBConv_init glu_norm_type glu_norm glu_residual_connection
                glu_conv_inverted glu_conv_depth glu_conv_point].
  destruct (decide (norm_type = Some "rms_norm")) as [Hn|Hn].
  - rewrite (sym_movedim _ _ _ [b; h; w'; cout]) by reflexivity.
    sym_norm. unfold call_norm.
    rewrite (sym_rms_norm _ _ [b; h; w'; cout])
      by (unfold norm_shape; simpl; by rewrite Z.eqb_refl).
    sym_norm.
    rewrite (sym_movedim _ _ _ [b; cout; h; w']) by reflexivity.
    sym_norm.
    destruct residual; sym_norm; [|reflexivity].
    rewrite (sym_add _ _ [b; cout; h; w'])
      by (rewrite Hs, (Hres eq_refl); apply broadcast_shapes_same).
    reflexivity.
  - sym_norm.
    destruct residual; sym_norm; [|reflexivity].
    rewrite (sym_add _ _ [b; cout; h; w'])
      by (rewrite Hs, (Hres eq_refl); apply broadcast_shapes_same).
    reflexivity.
Qed.

(** ** The attention layers *)

Lemma attention_bias_ok_rows b n m rows :
  0 < b → 0 < m → numel rows = 1 ∨ numel rows = n →
  attention_bias_ok b n m (b :: rows ++ [m]) = true.
Proof.
  intros Hb Hm Hrows. unfold attention_bias_ok.
  rewrite last_snoc, length_app. cbn [length].
  replace (length rows + 1 - 1)%nat with (length rows) by lia.
  rewrite take_app_length.
  rewrite !Z.eqb_refl, (proj2 (Z.ltb_lt 0 b)), (proj2 (Z.ltb_lt 0 m)) by done.
  destruct Hrows as [-> | ->]; [reflexivity|].
  rewrite Z.eqb_refl. by rewrite orb_true_r.
Qed.

(** A self-attention with positive heads accepts a sequence of its
    dimension. *)
Lemma attention_shape_self a b n d heads dim_head :
  attn_query_dim a = d →
  attn_cross_attention_dim a = None →
  attn_heads a = Some heads → attn_dim_head a = Some dim_head →
  0 < heads → 0 < dim_head →
  attention_shape a [b; n; d] None None = Ok [b; n; d].
Proof.
  intros <- Hcross Hheads Hdim Hh Hd.
  unfold attention_shape, attention_projections.
  rewrite Hcross, Hheads, Hdim. cbn [default from_option].
  rewrite !Z.eqb_refl.
  rewrite (proj2 (Z.ltb_lt 0 heads)), (proj2 (Z.ltb_lt 0 dim_head)) by done.
  reflexivity.
Qed.

(** A cross-attention with positive heads accepts a sequence of its
    dimension, captions of its cross-attention dimension for the same
    batch, and no mask or a bias that fits. *)
Lemma attention_shape_cross a b n m d cd heads dim_head mask :
  attn_query_dim a = d →
  attn_cross_attention_dim a = Some cd →
  attn_heads a = Some heads → attn_dim_head a = Some dim_head →
  0 < heads → 0 < dim_head →
  from_option (λ ms, attention_bias_ok b n m ms = true) True mask →
  attention_shape a [b; n; d] (Some [b; m; cd]) mask = Ok [b; n; d].
Proof.
  intros <- Hcross Hheads Hdim Hh Hd Hmask.
  unfold attention_shape, attention_projections.
  rewrite Hcross, Hheads, Hdim. cbn [default from_option].
  rewrite !Z.eqb_refl.
  rewrite (proj2 (Z.ltb_lt 0 heads)), (proj2 (Z.ltb_lt 0 dim_head)) by done.
  destruct mask as [ms|]; [|reflexivity].
  cbn [from_option andb] in *. by rewrite Hmask.
Qed.

(** A layer whose heads are not positive raises whatever it is given; with
    another processor than [AttnProcessor2_0] the exception is a
    [RuntimeError]. *)
Lemma attention_shape_heads a s encoder mask heads dim_head :
  attn_heads a = Some heads → attn_dim_head a = Some dim_head →
  ¬ (0 < heads ∧ 0 < dim_head) →
  attn_processor a ≠ AttnProcessor2_0 →
  attention_shape a s encoder mask = Raise (RuntimeError "shape").
Proof.
  intros Hheads Hdim Hneg Hproc. unfold attention_shape.
  destruct (attention_projections a s encoder) as [[[[b n] b'] m]|];
    [|reflexivity].
  rewrite Hheads, Hdim.
  destruct ((0 <? heads) && (0 <? dim_head)) eqn:Hpos.
  { apply andb_true_iff in Hpos as [?%Z.ltb_lt ?%Z.ltb_lt]. tauto. }
  rewrite (bool_decide_eq_false_2 _ Hproc), andb_false_r. reflexivity.
Qed.

Lemma attention_calls_described_elem call w cin cout ratio norm_type
    residual x :
  call ∈ attention_calls x →
  call ∈ attention_calls
           (GLUMBConv_described w cin cout ratio norm_type residual x).
Proof.
  intros Hx. unfold GLUMBConv_described.
  destruct (decide _), residual; cbn [attention_calls];
    rewrite ?elem_of_app; tauto.
Qed.

(** A call that is part of an expression, found by search. *)
Ltac find_call :=
  solve [ assumption
        | apply list_elem_of_here
        | apply list_elem_of_further; find_call
        | apply elem_of_app; left; find_call
        | apply elem_of_app; right; find_call
        | apply attention_calls_described_elem; find_call ].

(** ** Shapes in the transformer block *)

Lemma broadcast_shapes_mid_r b n d :
  broadcast_shapes [b; n; d] [b; 1; d] = Some [b; n; d].
Proof.
  unfold broadcast_shapes. cbn -[Z.eqb]. rewrite !Z.eqb_refl. cbn -[Z.eqb].
  destruct (Z.eqb_spec n 1) as [->|]; reflexivity.
Qed.

Lemma broadcast_shapes_mid_l b n d :
  broadcast_shapes [b; 1; d] [b; n; d] = Some [b; n; d].
Proof.
  unfold broadcast_shapes. cbn -[Z.eqb]. rewrite !Z.eqb_refl. cbn -[Z.eqb].
  destruct (Z.eqb_spec 1 n) as [<-|]; reflexivity.
Qed.

Lemma broadcast_shapes_first b k d :
  broadcast_shapes [1; k; d] [b; k; d] = Some [b; k; d].
Proof.
  unfold broadcast_shapes. cbn -[Z.eqb]. rewrite !Z.eqb_refl. cbn -[Z.eqb].
  destruct (Z.eqb_spec 1 b) as [<-|]; reflexivity.
Qed.

Ltac pos_solve := repeat apply Z.mul_pos_pos; lia.

(** [reshape] with one size to infer: the inferred size is [q] when the
    number of elements is [q] times the product of the other sizes. *)
Ltac infer_size_solve q :=
  unfold infer_size;
  cbn -[Z.eqb Z.ltb Z.mul Z.div Z.modulo Z.add]; zbool;
  cbn -[Z.eqb Z.ltb Z.mul Z.div Z.modulo Z.add];
  repeat case_decide; try lia;
  cbn -[Z.eqb Z.ltb Z.mul Z.div Z.modulo Z.add];
  lazymatch goal with
  | |- context [?n mod ?k] =>
      let Hk := fresh "Hk" in
      assert (Hk : 0 < k) by pos_solve;
      replace n with (q * k) by ring;
      rewrite Z.mod_mul, Z.div_mul by lia;
      rewrite (proj2 (Z.ltb_lt 0 k) Hk)
  end;
  reflexivity.

Lemma infer_size_modulation b d :
  0 < b → infer_size [b; 6; -1] (numel [b; 6 * d]) = Some [b; 6; d].
Proof. intros Hb. infer_size_solve d. Qed.

Lemma infer_size_encoder b m d :
  0 < b → 0 < d → infer_size [b; -1; d] (numel [b; m; d]) = Some [b; m; d].
Proof. intros Hb Hd. infer_size_solve m. Qed.

Lemma infer_size_patches b hp wp p oc :
  0 < b → 0 < hp → 0 < wp → 0 < p →
  infer_size [b; hp; wp; p; p; -1] (numel [b; hp * wp; p * p * oc])
  = Some [b; hp; wp; p; p; oc].
Proof. intros. infer_size_solve oc. Qed.

Lemma infer_size_image b hp wp p oc :
  0 < b → 0 < hp → 0 < wp → 0 < p →
  infer_size [b; -1; hp * p; wp * p] (numel [b; oc; hp; p; wp; p])
  = Some [b; oc; hp * p; wp * p].
Proof. intros. infer_size_solve oc. Qed.

Lemma infer_size_grid hh ww :
  0 < hh → 0 < ww → infer_size [hh; ww] (hh * ww) = Some [hh; ww].
Proof.
  intros Hh Hw. unfold infer_size.
  cbn -[Z.eqb Z.ltb Z.mul Z.div Z.modulo Z.add]; zbool;
  cbn -[Z.eqb Z.ltb Z.mul Z.div Z.modulo Z.add];
  repeat case_decide; try lia;
  cbn -[Z.eqb Z.ltb Z.mul Z.div Z.modulo Z.add].
  rewrite Z.mul_1_r. zbool. reflexivity.
Qed.

Lemma chunk_shapes_six b d :
  chunk_shapes [b; 6; d] 6 1
  = Some [[b; 1; d]; [b; 1; d]; [b; 1; d]; [b; 1; d]; [b; 1; d]; [b; 1; d]].
Proof. reflexivity. Qed.

Lemma attention_calls_described (P : Attention * term * term → Prop)
    w cin cout ratio norm_type residual x :
  Forall P (attention_calls x) →
  Forall P (attention_calls
              (GLUMBConv_described w cin cout ratio norm_type residual x)).
Proof.
  intros Hx. unfold GLUMBConv_described.
  destruct (decide _), residual; cbn [attention_calls];
    repeat first [apply Forall_nil_2 | apply Forall_app_2 | assumption].
Qed.

(** A block with cross-attention, on a sequence of [hh * ww] tokens: it
    returns a sequence of the same shape, and the attention layers it calls
    are its own two, the first without mask, the second with the mask the
    block was given for the captions. *)
Lemma block_forward_sym w d heads head_dim dropout cross_heads cross_head_dim
    attention_bias affine eps out_bias ratio
    (hs e ts : SymTensor) (am em : option SymTensor) b hh ww m :
  0 < b → 0 < hh → 0 < ww → 0 < GLUMBConv_hidden_channels ratio d →
  0 < heads → 0 < head_dim → 0 < cross_heads → 0 < cross_head_dim →
  sym_shape hs = [b; hh * ww; d] →
  sym_shape ts = [b; 6 * d] →
  sym_shape e = [b; m; d] →
  from_option (λ x, attention_bias_ok b (hh * ww) m (sym_shape x) = true)
    True em →
  let block :=
    @SanaTransformerBlock_init SymTensor w d heads head_dim dropout
      (Some cross_heads) (Some cross_head_dim) (Some d) attention_bias
      affine eps out_bias ratio in
  ∃ out,
    SanaTransformerBlock_forward block hs am (Some e) em ts hh ww = Ok out
    ∧ sym_shape out = [b; hh * ww; d]
    ∧ (∀ P : Attention * term * term → Prop,
         Forall P (attention_calls (sym_expr hs)) →
         Forall P (attention_calls (sym_expr ts)) →
         Forall P (attention_calls (sym_expr e)) →
         Forall P (attention_calls (sym_opt em)) →
         (∀ a, attn_cross_attention_dim a = None → P (a, PyNone, PyNone)) →
         (∀ a, is_Some (attn_cross_attention_dim a) →
               P (a, sym_expr e, sym_opt em)) →
         Forall P (attention_calls (sym_expr out)))
    ∧ (∀ call, call ∈ attention_calls (sym_expr hs) →
               call ∈ attention_calls (sym_expr out))
    ∧ block_calls_attention (sym_expr e) (sym_opt em) (sym_expr out) block.
Proof.
  intros Hb Hhh Hww Hhid Hheads Hhead_dim Hcross Hcross_dim Hhs Hts He Hem
    block.
  unfold SanaTransformerBlock_forward.
  unfold shape_at. cbn [shape SymTensor_ops]. rewrite Hhs.
  cbn [lookup list_lookup]. sym_norm.
  (* 1. Modulation *)
  unfold modulation, modulation_pre_chunk.
  rewrite sym_parameter.
  rewrite (sym_unsqueeze _ _ [1; 6; d]) by reflexivity.
  sym_norm.
  rewrite (sym_reshape _ _ [b; 6; d])
    by (rewrite Hts; by apply infer_size_modulation).
  sym_norm.
  rewrite (sym_add _ _ [b; 6; d]) by apply broadcast_shapes_first.
  sym_norm.
  rewrite (sym_chunk _ _ _
             [[b; 1; d]; [b; 1; d]; [b; 1; d]; [b; 1; d]; [b; 1; d];
              [b; 1; d]]) by apply chunk_shapes_six.
  cbn [imap compose]. sym_norm. unfold unpack6. sym_norm.
  (* 2. Self Attention *)
  rewrite (sym_layer_norm _ _ [b; hh * ww; d])
    by (rewrite Hhs; unfold norm_shape; simpl; by rewrite Z.eqb_refl).
  sym_norm. rewrite sym_radd_scalar. sym_norm.
  rewrite (sym_mul _ _ [b; hh * ww; d]) by apply broadcast_shapes_mid_r.
  sym_norm.
  rewrite (sym_add _ _ [b; hh * ww; d]) by apply broadcast_shapes_mid_r.
  sym_norm. rewrite sym_to_dtype_of. sym_norm.
  rewrite (sym_attention _ _ _ _ [b; hh * ww; d])
    by (by apply (attention_shape_self _ b (hh * ww) d heads head_dim)).
  sym_norm.
  rewrite (sym_mul _ _ [b; hh * ww; d]) by apply broadcast_shapes_mid_l.
  sym_norm.
  rewrite (sym_add _ _ [b; hh * ww; d])
    by (rewrite Hhs; apply broadcast_shapes_same).
  sym_norm.
  (* 3. Cross Attention *)
  unfold getattr.
  cbn [block SanaTransformerBlock_init blk_attn2 blk_norm2]. sym_norm.
  set (attn2 := {| attn_weights := w +:+ ".attn2" |}).
  rewrite (sym_attention _ _ _ _ [b; hh * ww; d]).
  2:{ cbn [sym_shape fmap option_fmap option_map]. rewrite He.
      apply (attention_shape_cross attn2 b (hh * ww) m d d cross_heads
               cross_head_dim); try done.
      by destruct em. }
  sym_norm.
  rewrite (sym_add _ _ [b; hh * ww; d]) by apply broadcast_shapes_same.
  sym_norm.
  (* 4. Feed-forward *)
  rewrite (sym_layer_norm _ _ [b; hh * ww; d])
    by (unfold norm_shape; simpl; by rewrite Z.eqb_refl).
  sym_norm. rewrite sym_radd_scalar. sym_norm.
  rewrite (sym_mul _ _ [b; hh * ww; d]) by apply broadcast_shapes_mid_r.
  sym_norm.
  rewrite (sym_add _ _ [b; hh * ww; d]) by apply broadcast_shapes_mid_r.
  sym_norm.
  rewrite (sym_unflatten _ _ _ [b; hh; ww; d]).
  2:{ unfold unflatten_shape. cbn [sym_shape length].
      change (norm_dim 3 1) with (Some 1%nat).
      cbn [mbind option_bind lookup list_lookup].
      rewrite infer_size_grid by done. reflexivity. }
  sym_norm.
  rewrite (sym_permute _ _ [b; d; hh; ww]) by reflexivity.
  sym_norm.
  cbn [block SanaTransformerBlock_init blk_ff].
  rewrite (GLUMBConv_forward_sym _ _ _ _ _ _ _ b hh ww)
    by (try done; simpl; done).
  sym_norm.
  rewrite (sym_flatten _ _ _ [b; d; hh * ww])
    by (unfold flatten_shape; simpl; by rewrite Z.mul_1_r).
  sym_norm.
  rewrite (sym_permute _ _ [b; hh * ww; d]) by reflexivity.
  sym_norm.
  rewrite (sym_mul _ _ [b; hh * ww; d]) by apply broadcast_shapes_mid_l.
  sym_norm.
  rewrite (sym_add _ _ [b; hh * ww; d]) by apply broadcast_shapes_same.
  sym_norm.
  eexists. split; [reflexivity|]. split; [reflexivity|].
  split; [|split].
  - intros P Hhs' Hts' He' Hem' Hself Hcross'.
    cbn [sym_expr attention_calls sym_opt from_option].
    assert (P (blk_attn1 block, PyNone, PyNone))
      by (apply Hself; reflexivity).
    repeat first
      [ assumption
      | apply Forall_nil_2
      | apply Forall_cons_2;
        [first [assumption | apply Hcross'; simpl; eauto]|]
      | apply Forall_app_2
      | apply attention_calls_described ].
  - intros call Hcall. cbn [sym_expr attention_calls]. find_call.
  - split.
    + cbn [sym_expr attention_calls]. find_call.
    + exists attn2. split; [reflexivity|].
      cbn [sym_expr attention_calls]. find_call.
Qed.

(** ** The whole model on symbolic tensors *)

Lemma block_calls_attention_mono {T} encoder bias out out'
    (block : SanaTransformerBlock T) :
  (∀ call, call ∈ attention_calls out → call ∈ attention_calls out') →
  block_calls_attention encoder bias out block →
  block_calls_attention encoder bias out' block.
Proof.
  intros Hmono [Hself (attn2 & Hattn2 & Hcross)].
  split; [by apply Hmono|]. exists attn2. split; [done|]. by apply Hmono.
Qed.

Lemma blocks_forward_sym (c : Config) (ws : list string)
    cross_heads cross_head_dim
    (hs e ts : SymTensor) (am em : option SymTensor) b hh ww m :
  let d := num_attention_heads c * attention_head_dim c in
  let blocks :=
    (λ w, @SanaTransformerBlock_init SymTensor w d
            (num_attention_heads c) (attention_head_dim c) (dropout c)
            (Some cross_heads) (Some cross_head_dim)
            (Some d) (attention_bias c) (norm_elementwise_affine c)
            (norm_eps c) true (mlp_ratio c)) <$> ws in
  0 < b → 0 < hh → 0 < ww →
  0 < num_attention_heads c → 0 < attention_head_dim c →
  (ws ≠ [] →
   0 < GLUMBConv_hidden_channels (mlp_ratio c) d
   ∧ 0 < cross_heads ∧ 0 < cross_head_dim) →
  sym_shape hs = [b; hh * ww; d] →
  sym_shape ts = [b; 6 * d] →
  sym_shape e = [b; m; d] →
  from_option (λ x, attention_bias_ok b (hh * ww) m (sym_shape x) = true)
    True em →
  ∃ out,
    for_each
      (λ hidden_states block,
         SanaTransformerBlock_forward block hidden_states am (Some e) em ts
           hh ww)
      hs blocks
    = Ok out
    ∧ sym_shape out = [b; hh * ww; d]
    ∧ (∀ P : Attention * term * term → Prop,
         Forall P (attention_calls (sym_expr hs)) →
         Forall P (attention_calls (sym_expr ts)) →
         Forall P (attention_calls (sym_expr e)) →
         Forall P (attention_calls (sym_opt em)) →
         (∀ a, attn_cross_attention_dim a = None → P (a, PyNone, PyNone)) →
         (∀ a, is_Some (attn_cross_attention_dim a) →
               P (a, sym_expr e, sym_opt em)) →
         Forall P (attention_calls (sym_expr out)))
    ∧ (∀ call, call ∈ attention_calls (sym_expr hs) →
               call ∈ attention_calls (sym_expr out))
    ∧ Forall (block_calls_attention (sym_expr e) (sym_opt em) (sym_expr out))
        blocks.
Proof.
  intros d blocks Hb Hhh Hww Hheads Hhead_dim Hhid Hhs Hts He Hem.
  subst blocks. revert hs Hhs.
  induction ws as [|w ws IH]; intros hs Hhs.
  - exists hs. split; [reflexivity|]. split; [done|].
    split; [auto|]. split; [auto|]. constructor.
  - cbn [fmap list_fmap for_each].
    destruct Hhid as (Hratio & Hcross & Hcross_dim); [done|].
    destruct (block_forward_sym w d (num_attention_heads c)
                (attention_head_dim c) (dropout c) cross_heads cross_head_dim
                (attention_bias c) (norm_elementwise_affine c) (norm_eps c)
                true (mlp_ratio c) hs e ts am em b hh ww m)
      as (hs1 & Hrun1 & Hshape1 & Hcalls1 & Hmono1 & Hblock1); try done.
    rewrite Hrun1. sym_norm.
    destruct (IH) with (hs := hs1)
      as (out & Hrun & Hshape & Hcalls & Hmono & Hblocks); try done.
    exists out. split; [exact Hrun|]. split; [done|].
    split; [|split].
    + intros P ? ? ? ? ? ?. apply Hcalls; try done. by apply Hcalls1.
    + intros call Hcall. by apply Hmono, Hmono1.
    + constructor; [|done].
      by apply (block_calls_attention_mono _ _ (sym_expr hs1)).
Qed.

Lemma broadcast_shapes_table b d :
  broadcast_shapes [1; 2; d] [b; 1; d] = Some [b; 2; d].
Proof.
  unfold broadcast_shapes. cbn -[Z.eqb]. rewrite !Z.eqb_refl. cbn -[Z.eqb].
  destruct (Z.eqb_spec 1 b) as [<-|]; reflexivity.
Qed.

Lemma chunk_shapes_two b d :
  chunk_shapes [b; 2; d] 2 1 = Some [[b; 1; d]; [b; 1; d]].
Proof. reflexivity. Qed.

Lemma output_stage_sym (c : Config) value interval
    (hs et : SymTensor) b hp wp :
  let d := num_attention_heads c * attention_head_dim c in
  let p := patch_size c in
  let oc := py_or (out_channels c) (in_channels c) in
  0 < b → 0 < hp → 0 < wp → 0 < p →
  sym_shape hs = [b; hp * wp; d] →
  sym_shape et = [b; d] →
  ∃ out,
    forward_output_stage
      (with_checkpointing (@SanaTransformer2DModel_init SymTensor c)
         value interval) hs et b hp wp = Ok out
    ∧ sym_shape out = [b; oc; hp * p; wp * p]
    ∧ (∀ P : Attention * term * term → Prop,
         Forall P (attention_calls (sym_expr hs)) →
         Forall P (attention_calls (sym_expr et)) →
         Forall P (attention_calls (sym_expr out)))
    ∧ (∀ call, call ∈ attention_calls (sym_expr hs) →
               call ∈ attention_calls (sym_expr out)).
Proof.
  intros d p oc Hb Hhp Hwp Hp Hhs Het.
  unfold forward_output_stage.
  set (self := with_checkpointing _ _ _).
  rewrite sym_parameter.
  rewrite (sym_unsqueeze _ 0 [1; 2; d]) by reflexivity.
  sym_norm.
  rewrite (sym_unsqueeze _ _ [b; 1; d]) by (rewrite Het; reflexivity).
  sym_norm.
  rewrite (sym_add _ _ [b; 2; d]) by apply broadcast_shapes_table.
  sym_norm.
  rewrite (sym_chunk _ _ _ [[b; 1; d]; [b; 1; d]]) by apply chunk_shapes_two.
  cbn [imap compose]. sym_norm. unfold unpack2. sym_norm.
  rewrite (sym_layer_norm _ _ [b; hp * wp; d])
    by (rewrite Hhs; unfold norm_shape; simpl; by rewrite Z.eqb_refl).
  sym_norm. rewrite sym_radd_scalar. sym_norm.
  rewrite (sym_mul _ _ [b; hp * wp; d]) by apply broadcast_shapes_mid_r.
  sym_norm.
  rewrite (sym_add _ _ [b; hp * wp; d]) by apply broadcast_shapes_mid_r.
  sym_norm.
  rewrite (sym_linear _ _ [b; hp * wp; p * p * oc])
    by (unfold linear_shape; simpl; by rewrite Z.eqb_refl).
  sym_norm.
  change (patch_size (config self)) with p. unfold unpatchify.
  rewrite (sym_reshape _ _ [b; hp; wp; p; p; oc])
    by (by apply infer_size_patches).
  sym_norm.
  rewrite (sym_permute _ _ [b; oc; hp; p; wp; p]) by reflexivity.
  sym_norm.
  rewrite (sym_reshape _ _ [b; oc; hp * p; wp * p])
    by (by apply infer_size_image).
  eexists. split; [reflexivity|]. split; [reflexivity|]. split.
  - intros P Hhs' Het'.
    cbn [sym_expr attention_calls].
    repeat first [assumption | apply Forall_nil_2 | apply Forall_app_2].
  - intros call Hcall. cbn [sym_expr attention_calls]. find_call.
Qed.

Lemma convert_mask_sym_total (mask : option SymTensor) (hs : SymTensor) :
  ∃ r, convert_mask mask hs = Ok r.
Proof.
  destruct mask as [x|]; [|by eexists].
  unfold convert_mask.
  destruct (Z.eqb_spec (ndim x) 2) as [H2|H2]; [|by eexists].
  unfold ndim in H2. cbn [shape SymTensor_ops] in H2.
  destruct (sym_shape x) as [|a [|a' [|a'' s]]] eqn:Hx;
    try (simpl in H2; lia).
  unfold mask_to_bias.
  rewrite (sym_unsqueeze _ _ [a; 1; a']) by (simpl; rewrite Hx; reflexivity).
  by eexists.
Qed.

Lemma convert_mask_sym_2d (x hs : SymTensor) b m :
  sym_shape x = [b; m] →
  convert_mask (Some x) hs
  = Ok (Some (Sym [b; 1; m]
                (App (OUnsqueeze 1)
                   [App (OMulScalar (-10000))
                      [App (ORsubScalar 1) [App OToDtype [sym_expr x]]]]))).
Proof.
  intros Hx. unfold convert_mask, ndim. cbn [shape SymTensor_ops].
  rewrite Hx. change (Z.of_nat (length [b; m]) =? 2) with true.
  cbv iota. unfold mask_to_bias.
  rewrite (sym_unsqueeze _ _ [b; 1; m]) by (simpl; rewrite Hx; reflexivity).
  reflexivity.
Qed.

Lemma convert_mask_other `{TensorOps T} (x hs : T) :
  ndim x ≠ 2 → convert_mask (Some x) hs = Ok (Some x).
Proof.
  intros Hx. unfold convert_mask.
  destruct (Z.eqb_spec (ndim x) 2); [done|reflexivity].
Qed.

Lemma encoder_mask_converted (em : option SymTensor) (hs : SymTensor)
    b n m :
  0 < b → 0 < m → encoder_mask_ok b n m em →
  ∃ em', convert_mask em hs = Ok em'
         ∧ from_option
             (λ x, attention_bias_ok b n m (sym_shape x) = true) True em'
         ∧ ∀ P : Attention * term * term → Prop,
             Forall P (attention_calls (sym_opt em)) →
             Forall P (attention_calls (sym_opt em')).
Proof.
  intros Hb Hm. destruct em as [x|]; unfold encoder_mask_ok.
  - intros (rows & Hx & Hrows).
    destruct rows as [|r rows].
    + eexists. split; [by apply (convert_mask_sym_2d x hs b m)|].
      split; [by apply (attention_bias_ok_rows b n m [1]); auto|].
      intros P HP. cbn [sym_opt from_option sym_expr attention_calls].
      repeat first [assumption | apply Forall_nil_2 | apply Forall_app_2].
    + exists (Some x). split; [|split; [|done]].
      * apply convert_mask_other. unfold ndim. cbn [shape SymTensor_ops].
        rewrite Hx. cbn [length]. rewrite length_app. cbn [length]. lia.
      * cbn [from_option]. rewrite Hx.
        by apply attention_bias_ok_rows.
  - intros _. exists None. done.
Qed.

Lemma linear_shape_last (pre : list Z) cin cout :
  linear_shape cin cout (pre ++ [cin]) = Some (pre ++ [cout]).
Proof.
  unfold linear_shape. rewrite last_snoc, Z.eqb_refl, length_app. simpl.
  replace (length pre + 1 - 1)%nat with (length pre) by lia.
  by rewrite take_app_length.
Qed.

Lemma infer_size_captions (pre : list Z) b m d :
  0 < b → 0 < d → numel pre = b * m →
  infer_size [b; -1; d] (numel (pre ++ [d])) = Some [b; m; d].
Proof.
  intros Hb Hd Hpre. rewrite numel_app, Hpre.
  replace (numel [d]) with d by (simpl; lia).
  infer_size_solve m.
Qed.

Lemma config_ok_blocks (c : Config) :
  config_ok c →
  let d := num_attention_heads c * attention_head_dim c in
  ∃ ws cross_heads cross_head_dim,
    (ws ≠ [] →
     0 < GLUMBConv_hidden_channels (mlp_ratio c) d
     ∧ 0 < cross_heads ∧ 0 < cross_head_dim)
    ∧ transformer_blocks (@SanaTransformer2DModel_init SymTensor c)
      = (λ w, @SanaTransformerBlock_init SymTensor w d
                (num_attention_heads c) (attention_head_dim c) (dropout c)
                (Some cross_heads) (Some cross_head_dim)
                (Some d) (attention_bias c) (norm_elementwise_affine c)
                (norm_eps c) true (mlp_ratio c)) <$> ws.
Proof.
  intros (_ & _ & _ & _ & _ & _ & Hlayers) d.
  cbn [SanaTransformer2DModel_init transformer_blocks].
  destruct (decide (0 < num_layers c)) as [Hn|Hn].
  - destruct (Hlayers Hn)
      as (_ & -> & (heads & dim_head & -> & -> & ? & ?) & Hratio).
    exists ((λ i : nat, "transformer_blocks." +:+ pretty i)
            <$> py_range (num_layers c)), heads, dim_head.
    split; [done|]. by rewrite <- list_fmap_compose.
  - exists [], 1, 1. split; [done|].
    unfold py_range. by rewrite Z2Nat.nonpos by lia.
Qed.

(** [forward] on a latent of any height and width of at least one patch,
    and on captions of any shape that ends in [caption_channels] and has
    [m] rows per item of the batch. *)
Lemma forward_sym_floor (c : Config) env value interval
    (hs ehs ts : SymTensor) (em am : option SymTensor) rd b h w m
    (pre : list Z) :
  let p := patch_size c in
  let oc := py_or (out_channels c) (in_channels c) in
  config_ok c →
  0 < b → p ≤ h → p ≤ w → 0 < m →
  sym_shape hs = [b; in_channels c; h; w] →
  sym_shape ehs = pre ++ [caption_channels c] →
  numel pre = b * m →
  sym_shape ts = [b] →
  encoder_mask_ok b (h / p * (w / p)) m em →
  ∃ out em',
    convert_mask em hs = Ok em'
    ∧ SanaTransformer2DModel_forward env
        (with_checkpointing (SanaTransformer2DModel_init c) value interval)
        hs ehs ts em am rd = Ok out
    ∧ sym_shape (sample_of out) = [b; oc; h / p * p; w / p * p]
    ∧ (attention_calls (sym_expr hs) = [] →
       attention_calls (sym_expr ehs) = [] →
       attention_calls (sym_expr ts) = [] →
       attention_calls (sym_opt em) = [] →
       Forall (mask_routing (caption_expression c b (sym_expr ehs))
                 (sym_opt em'))
         (attention_calls (sym_expr (sample_of out))))
    ∧ Forall (block_calls_attention
                (caption_expression c b (sym_expr ehs)) (sym_opt em')
                (sym_expr (sample_of out)))
        (transformer_blocks (@SanaTransformer2DModel_init SymTensor c)).
Proof.
  intros p oc Hc Hb Hph Hpw Hm Hhs Hehs Hpre Hts Hem.
  set (d := num_attention_heads c * attention_head_dim c).
  pose proof Hc as (Hp & _ & _ & _ & Hheads & Hhead_dim & _). fold p in Hp.
  assert (Hd : 0 < d) by (by apply Z.mul_pos_pos).
  destruct (convert_mask_sym_total am hs) as [am' Ham].
  destruct (encoder_mask_converted em hs b (h / p * (w / p)) m Hb Hm Hem)
    as (em' & Hem' & Hshape' & Hcalls').
  assert (0 < h / p) by (apply Z.div_str_pos; lia).
  assert (0 < w / p) by (apply Z.div_str_pos; lia).
  unfold SanaTransformer2DModel_forward.
  rewrite Ham, Hem'. sym_norm.
  cbn [shape SymTensor_ops]. rewrite Hhs. unfold unpack4. sym_norm.
  set (self := with_checkpointing _ _ _).
  change (patch_size (config self)) with p.
  unfold floordiv. rewrite (proj2 (Z.eqb_neq p 0)) by lia. sym_norm.
  rewrite (sym_patch_embed _ _ [b; (h / p) * (w / p); d]).
  2:{ rewrite Hhs. unfold patch_embed_shape.
      cbn [self with_checkpointing SanaTransformer2DModel_init sana_patch_embed
           pe_patch_size pe_in_channels pe_embed_dim].
      fold p. rewrite Z.eqb_refl.
      rewrite (proj2 (Z.ltb_lt 0 p)) by lia.
      rewrite (proj2 (Z.leb_le p h)) by lia.
      rewrite (proj2 (Z.leb_le p w)) by lia.
      reflexivity. }
  sym_norm.
  rewrite (sym_ada_layer_norm_single _ _ _ _ [b; 6 * d] [b; d])
    by (rewrite Hts; reflexivity).
  sym_norm.
  rewrite (sym_text_projection _ _ (pre ++ [d]))
    by (rewrite Hehs; apply linear_shape_last).
  sym_norm. unfold shape_last. cbn [shape SymTensor_ops sym_shape last].
  sym_norm.
  rewrite (sym_reshape _ _ [b; m; d]) by (by apply infer_size_captions).
  sym_norm.
  rewrite (sym_rms_norm _ _ [b; m; d])
    by (unfold norm_shape; simpl; by rewrite Z.eqb_refl).
  sym_norm.
  rewrite forward_blocks_plain.
  set (e := Sym [b; m; d] _). set (t := Sym [b; 6 * d] _).
  set (x := Sym [b; h / p * (w / p); d] _).
  destruct (config_ok_blocks c Hc)
    as (ws & cross_heads & cross_head_dim & Hratio & Hblocks).
  change (transformer_blocks self)
    with (transformer_blocks (@SanaTransformer2DModel_init SymTensor c)).
  rewrite Hblocks.
  destruct (blocks_forward_sym c ws cross_heads cross_head_dim x e t am' em'
              b (h / p) (w / p) m)
    as (x1 & Hrun1 & Hshape1 & Hcalls1 & Hmono1 & Hblocks1); try done.
  rewrite Hrun1. sym_norm.
  destruct (output_stage_sym c value interval x1
              (Sym [b; d] (App (OAdaLayerNormSingle (sana_time_embed self) 1)
                             [sym_expr ts])) b (h / p) (w / p))
    as (out & Hrun2 & Hshape2 & Hcalls2 & Hmono2); try done.
  fold self in Hrun2. rewrite Hrun2. sym_norm.
  exists (if rd then Transformer2DModelOutput out else TupleOutput out), em'.
  split; [done|]. split; [by destruct rd|].
  assert (Hsample : sample_of (if rd then Transformer2DModelOutput out
                               else TupleOutput out) = out) by by destruct rd.
  rewrite Hsample. split; [|split].
  { rewrite Hshape2. by fold p oc. }
  { intros Chs Cehs Cts Cem.
    apply Hcalls2.
    - apply Hcalls1.
      + subst x. cbn [sym_expr attention_calls]. rewrite Chs. by constructor.
      + subst t. cbn [sym_expr attention_calls]. rewrite Cts. by constructor.
      + subst e. cbn [sym_expr attention_calls]. rewrite Cehs.
        by constructor.
      + apply Hcalls'. rewrite Cem. by constructor.
      + intros a Ha. unfold mask_routing. by rewrite Ha.
      + intros a [cd Ha]. unfold mask_routing. rewrite Ha. done.
    - cbn [sym_expr attention_calls]. rewrite Cts. by constructor. }
  eapply Forall_impl; [exact Hblocks1|].
  intros block Hblock.
  by apply (block_calls_attention_mono _ _ (sym_expr x1)).
Qed.

Lemma forward_sym (c : Config) env value interval
    (hs ehs ts : SymTensor) (em am : option SymTensor) rd b h w m :
  let p := patch_size c in
  let oc := py_or (out_channels c) (in_channels c) in
  config_ok c →
  0 < b → 0 < h → 0 < w → h mod p = 0 → w mod p = 0 → 0 < m →
  sym_shape hs = [b; in_channels c; h; w] →
  sym_shape ehs = [b; m; caption_channels c] →
  sym_shape ts = [b] →
  encoder_mask_ok b (h / p * (w / p)) m em →
  ∃ out em',
    convert_mask em hs = Ok em'
    ∧ SanaTransformer2DModel_forward env
        (with_checkpointing (SanaTransformer2DModel_init c) value interval)
        hs ehs ts em am rd = Ok out
    ∧ sym_shape (sample_of out) = [b; oc; h; w]
    ∧ (attention_calls (sym_expr hs) = [] →
       attention_calls (sym_expr ehs) = [] →
       attention_calls (sym_expr ts) = [] →
       attention_calls (sym_opt em) = [] →
       Forall (mask_routing (caption_expression c b (sym_expr ehs))
                 (sym_opt em'))
         (attention_calls (sym_expr (sample_of out))))
    ∧ Forall (block_calls_attention
                (caption_expression c b (sym_expr ehs)) (sym_opt em')
                (sym_expr (sample_of out)))
        (transformer_blocks (@SanaTransformer2DModel_init SymTensor c)).
Proof.
  intros p oc Hc Hb Hh Hw Hhp Hwp Hm Hhs Hehs Hts Hem.
  assert (Hp : 0 < p) by apply Hc.
  assert (Hh' : h = h / p * p) by (rewrite Z.mul_comm; apply Z.div_exact; lia).
  assert (Hw' : w = w / p * p) by (rewrite Z.mul_comm; apply Z.div_exact; lia).
  assert (p ≤ h).
  { apply Z.divide_pos_le; [lia|]. apply Z.mod_divide; lia. }
  assert (p ≤ w).
  { apply Z.divide_pos_le; [lia|]. apply Z.mod_divide; lia. }
  destruct (forward_sym_floor c env value interval hs ehs ts em am rd b h w m
              [b; m])
    as (out & em' & Hem' & Hrun & Hshape & Hcalls & Hblocks); try done.
  { simpl. lia. }
  exists out, em'. split_and!; [done|done| |done|done].
  rewrite Hshape. fold p oc. by rewrite <- Hh', <- Hw'.
Qed.

(** ** Unpatchify on data *)

Lemma ravel_bounds s idx :
  in_bounds s idx → 0 ≤ ravel s idx < numel s.
Proof.
  induction 1 as [|d i s idx Hi _ IH]; simpl; [lia|]. nia.
Qed.

Lemma unravel_ravel s idx :
  in_bounds s idx → unravel s (ravel s idx) = idx.
Proof.
  induction 1 as [|d i s idx Hi Hrest IH]; simpl; [done|].
  pose proof (ravel_bounds s idx Hrest) as Hr.
  rewrite Z.add_comm, Z.div_add, Z.mod_add by lia.
  rewrite Z.div_small, Z.mod_small by lia.
  rewrite IH. f_equal. 
Qed.

Lemma dt_get_tabulate s f idx :
  in_bounds s idx → dt_get (tabulate s f) idx = f idx.
Proof.
  intros Hidx. pose proof (ravel_bounds s idx Hidx) as Hr.
  unfold dt_get, tabulate. cbn [dt_shape dt_data].
  rewrite list_lookup_fmap, lookup_seq_lt by lia. simpl.
  rewrite Z2Nat.id by lia. by rewrite unravel_ravel.
Qed.

(** Unpatchify, element by element: the value of channel [c] at pixel
    [(u, v)] of the patch at [(i, j)] goes to row [i * p + u] and column
    [j * p + v] of channel [c]. *)
Lemma unpatchify_restores_grid (x : DataTensor) b hp wp p oc :
  0 < b → 0 < hp → 0 < wp → 0 < p →
  dt_shape x = [b; hp * wp; p * p * oc] →
  ∃ out,
    unpatchify x b hp wp p = Ok out
    ∧ dt_shape out = [b; oc; hp * p; wp * p]
    ∧ ∀ n c i u j v,
        0 ≤ n < b → 0 ≤ c < oc → 0 ≤ i < hp → 0 ≤ u < p →
        0 ≤ j < wp → 0 ≤ v < p →
        dt_get out [n; c; i * p + u; j * p + v]
        = dt_get x [n; i * wp + j; (u * p + v) * oc + c].
Proof.
  intros Hb Hhp Hwp Hp Hs. unfold unpatchify.
  cbn [reshape permute DataTensor_ops]. rewrite Hs.
  rewrite infer_size_patches by done. unfold dt_view. sym_norm.
  unfold dt_permute. cbn [dt_shape].
  change (permute_shape [b; hp; wp; p; p; oc] [0; 5; 1; 3; 2; 4])
    with (Some [b; oc; hp; p; wp; p]).
  change (mapM (norm_dim (length [b; hp; wp; p; p; oc])) [0; 5; 1; 3; 2; 4])
    with (Some [0; 5; 1; 3; 2; 4]%nat).
  sym_norm. sym_norm. set (f := λ idx : list Z, dt_get _ _).
  cbn [tabulate dt_shape dt_data].
  rewrite infer_size_image by done.
  eexists. split; [reflexivity|]. split; [reflexivity|].
  intros n c i u j v Hn Hc Hi Hu Hj Hv.
  change (dt_get {| dt_shape := [b; oc; hp * p; wp * p];
                    dt_data := dt_data (tabulate [b; oc; hp; p; wp; p] f) |}
            [n; c; i * p + u; j * p + v]
          = dt_get x [n; i * wp + j; (u * p + v) * oc + c]).
  transitivity (dt_get (tabulate [b; oc; hp; p; wp; p] f) [n; c; i; u; j; v]).
  { unfold dt_get. cbn [dt_shape dt_data tabulate].
    replace (ravel [b; oc; hp * p; wp * p] [n; c; i * p + u; j * p + v])
      with (ravel [b; oc; hp; p; wp; p] [n; c; i; u; j; v]); [done|].
    cbn [ravel numel foldr]. ring. }
  rewrite dt_get_tabulate by (repeat constructor; lia).
  subst f. cbv beta.
  unfold dt_get. cbn [dt_shape dt_data]. rewrite Hs.
  replace (ravel [b; hp * wp; p * p * oc] [n; i * wp + j; (u * p + v) * oc + c])
    with (ravel [b; hp; wp; p; p; oc] [n; i; j; u; v; c]);
    [reflexivity|].
  cbn [ravel numel foldr]. ring.
Qed.

(** ** Output shape *)

Lemma example_config_ok layers : config_ok (example_config layers (Some 8)).
Proof.
  unfold config_ok. cbn [example_config patch_size in_channels out_channels
    caption_channels num_attention_heads attention_head_dim num_layers
    dropout cross_attention_dim num_cross_attention_heads
    cross_attention_head_dim mlp_ratio py_or].
  split_and!; try done. intros _. split_and!; try done.
  exists 2, 4. done.
Qed.

(** C5, with the conditions it needs.  For a model that [__init__] builds
    with positive sizes, with cross-attention on the inner dimension when
    it has blocks ([config_ok]); a latent of a batch that is not empty, of
    shape [batch, in_channels, height, width] with [height] and [width]
    positive multiples of [patch_size]; captions
    [batch, tokens, caption_channels] of at least one token; one timestep
    per item; no mask for the captions, or one that fits them: [forward]
    returns, and its output has the shape
    [batch, out_channels, height, width], where a falsy [out_channels]
    stands for [in_channels].  The reshape and permute that end the output
    stage put the value of each channel at each pixel of each patch at that
    pixel of the [height] x [width] grid. *)
Theorem forward_output_shape (c : Config) env value interval
    (hs ehs ts : SymTensor) (em am : option SymTensor) rd b h w m :
  config_ok c →
  0 < b → 0 < h → 0 < w →
  h mod patch_size c = 0 → w mod patch_size c = 0 →
  0 < m →
  sym_shape hs = [b; in_channels c; h; w] →
  sym_shape ehs = [b; m; caption_channels c] →
  sym_shape ts = [b] →
  encoder_mask_ok b (h / patch_size c * (w / patch_size c)) m em →
  ∃ out,
    SanaTransformer2DModel_forward env
      (with_checkpointing (SanaTransformer2DModel_init c) value interval)
      hs ehs ts em am rd = Ok out
    ∧ sym_shape (sample_of out)
      = [b; py_or (out_channels c) (in_channels c); h; w]
    ∧ ∀ x : DataTensor,
        let p := patch_size c in
        let oc := py_or (out_channels c) (in_channels c) in
        dt_shape x = [b; (h / p) * (w / p); p * p * oc] →
        ∃ y,
          unpatchify x b (h / p) (w / p) p = Ok y
          ∧ dt_shape y = [b; oc; h; w]
          ∧ ∀ n ch i u j v,
              0 ≤ n < b → 0 ≤ ch < oc → 0 ≤ i < h / p → 0 ≤ u < p →
              0 ≤ j < w / p → 0 ≤ v < p →
              dt_get y [n; ch; i * p + u; j * p + v]
              = dt_get x [n; i * (w / p) + j; (u * p + v) * oc + ch].
Proof.
  intros Hc Hb Hh Hw Hhp Hwp Hm Hhs Hehs Hts Hem.
  assert (Hp : 0 < patch_size c) by apply Hc.
  destruct (forward_sym c env value interval hs ehs ts em am rd b h w m)
    as (out & em' & _ & Hrun & Hshape & _); try done.
  exists out. split_and!; [done..|].
  intros x p oc Hs.
  assert (Hh' : h = h / p * p).
  { rewrite Z.mul_comm. apply Z.div_exact; subst p; lia. }
  assert (Hw' : w = w / p * p).
  { rewrite Z.mul_comm. apply Z.div_exact; subst p; lia. }
  destruct (unpatchify_restores_grid x b (h / p) (w / p) p oc)
    as (y & Hy & Hys & Hget); try done; try (subst p; nia).
  exists y. split_and!; [done| |done].
  by rewrite Hys, <- Hh', <- Hw'.
Qed.

Lemma forward_output_shape_witness :
  ∃ out,
    SanaTransformer2DModel_forward grad_env
      (with_checkpointing
         (SanaTransformer2DModel_init (example_config 2 (Some 8)))
         true (Some 2))
      example_hidden_states example_encoder_hidden_states example_timestep
      (Some example_encoder_attention_mask) (Some example_attention_mask)
      true = Ok out
    ∧ sym_shape (sample_of out) = [3; 3; 8; 6].
Proof.
  destruct (forward_output_shape (example_config 2 (Some 8)) grad_env true
              (Some 2) example_hidden_states example_encoder_hidden_states
              example_timestep (Some example_encoder_attention_mask)
              (Some example_attention_mask) true 3 8 6 5)
    as (out & Hrun & Hshape & _);
    try reflexivity; try (simpl; lia).
  - apply example_config_ok.
  - exists []. split; [reflexivity|]. by left.
  - exists out. split; [exact Hrun|exact Hshape].
Defined.

(** Without these conditions [forward] need not return.  On a latent
    [0, 4, 8, 6] of an empty batch, whose height and width are multiples of
    the patch size 2, it raises before the blocks: the captions, of no
    elements, cannot be viewed as [0, -1, inner_dim].  On the latent of the
    examples, a model whose cross-attention has no heads raises where the
    processor divides by their number. *)
Lemma forward_output_shape_needs_batch_and_heads :
  8 mod patch_size (example_config 2 (Some 8)) = 0
  ∧ 6 mod patch_size (example_config 2 (Some 8)) = 0
  ∧ SanaTransformer2DModel_forward grad_env
      (SanaTransformer2DModel_init (example_config 2 (Some 8)))
      (sym_input "hidden_states" [0; 4; 8; 6])
      (sym_input "encoder_hidden_states" [0; 5; 16])
      (sym_input "timestep" [0]) None None true
    = Raise (RuntimeError "shape")
  ∧ SanaTransformer2DModel_forward grad_env
      (SanaTransformer2DModel_init example_config_no_heads)
      example_hidden_states example_encoder_hidden_states example_timestep
      None None true
    = Raise ZeroDivisionError.
Proof. split_and!; reflexivity. Qed.

(** ** The feed-forward block, step by step *)




(** ** Attention masks *)






(** ** Chunks

    [chunk] cuts a tensor in pieces along one dimension; [torch.cat] of the
    pieces along that dimension is the tensor. *)

Section lists.
Context {A : Type}.
Implicit Types l : list A.
Implicit Types L : list (list A).

Lemma reshape_join_uniform (n : nat) L :
  Forall (λ l, length l = n) L →
  list.reshape (replicate (length L) n) (mjoin L) = L.
Proof.
  induction 1 as [|l L Hl _ IH]; [reflexivity|].
  simpl. rewrite take_app_length', drop_app_length' by done. by f_equal.
Qed.

Lemma reshape_blocks (outer block : nat) l :
  length l = (outer * block)%nat →
  length (list.reshape (replicate outer block) l) = outer
  ∧ Forall (λ blk, length blk = block)
      (list.reshape (replicate outer block) l).
Proof.
  revert l. induction outer as [|outer IH]; intros l Hl; simpl.
  - split; [done|constructor].
  - destruct (IH (drop block l)) as [Hlen Hall].
    { rewrite length_drop. lia. }
    split; [by rewrite Hlen|]. constructor; [|done].
    rewrite length_take. lia.
Qed.

Lemma zip_with_app_fmap {B} (f g : B → list A) (bs : list B) :
  zip_with app (f <$> bs) (g <$> bs) = (λ b, f b ++ g b) <$> bs.
Proof. induction bs as [|b bs IH]; simpl; [done|]. by f_equal. Qed.

Lemma foldr_zip_with_app {B} (fs : list (B → list A)) (bs : list B) :
  foldr (zip_with app) (replicate (length bs) []) ((λ f, f <$> bs) <$> fs)
  = (λ b, mjoin ((λ f, f b) <$> fs)) <$> bs.
Proof.
  induction fs as [|f fs IH]; csimpl.
  - induction bs as [|b bs IHb]; simpl; [done|]. by f_equal.
  - rewrite IH. apply zip_with_app_fmap.
Qed.

Lemma join_slices (off : nat) (lens : list nat) l :
  mjoin ((λ f, f l) <$> slices off lens)
  = take (sum_list lens) (drop off l).
Proof.
  revert off. induction lens as [|n lens IH]; intros off; csimpl; [done|].
  rewrite IH. rewrite <- (drop_drop l n off). apply take_take_drop.
Qed.
End lists.

Lemma chunk_sizes_spec size chunks :
  0 ≤ size → 0 < chunks →
  chunk_sizes size chunks ≠ []
  ∧ Forall (λ c, 0 ≤ c) (chunk_sizes size chunks)
  ∧ foldr Z.add 0 (chunk_sizes size chunks) = size.
Proof.
  intros Hsize Hchunks. unfold chunk_sizes.
  set (split_size := (size + chunks - 1) / chunks).
  assert (Hsplit : 0 ≤ split_size) by (apply Z.div_pos; lia).
  destruct (Z.eqb_spec split_size 0) as [H0|H0].
  - assert (size = 0).
    { destruct (Z.eq_dec size 0) as [|Hne]; [done|]. exfalso.
      assert (1 ≤ split_size); [|lia].
      apply Z.div_le_lower_bound; lia. }
    subst size. split_and!.
    + destruct (Z.to_nat chunks) eqn:E; [lia|done].
    + apply Forall_replicate. lia.
    + induction (Z.to_nat chunks); simpl; lia.
  - set (num_splits := Z.max ((size + split_size - 1) / split_size) 1).
    assert (Hnum : 1 ≤ num_splits) by lia.
    assert (Hlast : split_size * (num_splits - 1) ≤ size).
    { subst num_splits.
      destruct (Z.max_spec ((size + split_size - 1) / split_size) 1)
        as [[_ ->]|[_ ->]]; [lia|].
      replace (size + split_size - 1) with ((size - 1) + 1 * split_size) by ring.
      rewrite Z.div_add by lia.
      replace ((size - 1) / split_size + 1 - 1) with ((size - 1) / split_size) by ring.
      pose proof (Z.mul_div_le (size - 1) split_size). lia. }
    split_and!.
    + intros Happ. by apply app_eq_nil in Happ as [_ ?].
    + apply Forall_app. split; [apply Forall_replicate; lia|].
      constructor; [lia|constructor].
    + rewrite foldr_app. simpl.
      assert (Hrep : ∀ (n : nat) acc,
                 foldr Z.add acc (replicate n split_size)
                 = Z.of_nat n * split_size + acc).
      { induction n as [|n IH]; intros acc; simpl; [lia|]. rewrite IH. lia. }
      rewrite Hrep, Z2Nat.id by lia. ring.
Qed.

Lemma chunk_pieces_shapes s d outer inner size data off sizes :
  dt_shape <$> chunk_pieces s d outer inner size data off sizes
  = (λ c, <[d := c]> s) <$> sizes.
Proof.
  revert off. induction sizes as [|c sizes IH]; intros off; csimpl; [done|].
  by rewrite IH.
Qed.

Lemma chunk_pieces_blocks s (d outer inner : nat) size data off sizes :
  (d < length s)%nat → 0 ≤ off → Forall (λ c, 0 ≤ c) sizes →
  off + foldr Z.add 0 sizes ≤ size →
  length data = (outer * (Z.to_nat size * inner))%nat →
  (λ x, list.reshape
          (replicate outer (Z.to_nat (default 0%Z (dt_shape x !! d)) * inner)%nat)
          (dt_data x))
  <$> chunk_pieces s d outer inner size data off sizes
  = (λ f, f <$> list.reshape (replicate outer (Z.to_nat size * inner)%nat) data)
    <$> slices (Z.to_nat off * inner) ((λ c, Z.to_nat c * inner)%nat <$> sizes).
Proof.
  intros Hd Hoff Hsizes Hsum Hdata. revert off Hoff Hsum.
  induction Hsizes as [|c sizes Hc Hsizes IH]; intros off Hoff Hsum;
    csimpl; [done|].
  simpl in Hsum.
  assert (0 ≤ foldr Z.add 0 sizes).
  { clear -Hsizes. induction Hsizes; simpl; lia. }
  f_equal.
  - rewrite list_lookup_insert_eq by done. simpl.
    unfold slice_blocks.
    destruct (reshape_blocks outer (Z.to_nat size * inner) data Hdata)
      as [Hlen Hall].
    rewrite <- Hlen at 1.
    rewrite <- (length_fmap (λ blk, take (Z.to_nat c * inner)
                                   (drop (Z.to_nat off * inner) blk))).
    apply reshape_join_uniform.
    apply Forall_fmap. eapply Forall_impl; [exact Hall|].
    intros blk Hblk. simpl. rewrite length_take, length_drop, Hblk.
    assert (Z.to_nat off * inner + Z.to_nat c * inner
            ≤ Z.to_nat size * inner)%nat; [|lia].
    rewrite <- Nat.mul_add_distr_r. apply Nat.mul_le_mono_r. lia.
  - rewrite IH by lia.
    replace (Z.to_nat (off + c) * inner)%nat
      with (Z.to_nat off * inner + Z.to_nat c * inner)%nat; [done|].
    rewrite Z2Nat.inj_add by lia. lia.
Qed.

Lemma chunk_pieces_sizes s (d outer inner : nat) size data off sizes :
  (d < length s)%nat →
  (λ x, default 0 (dt_shape x !! d))
  <$> chunk_pieces s d outer inner size data off sizes = sizes.
Proof.
  intros Hd. revert off.
  induction sizes as [|c sizes IH]; intros off; csimpl; [done|].
  rewrite list_lookup_insert_eq by done. simpl. by rewrite IH.
Qed.

Lemma norm_dim_lt n dim d : norm_dim n dim = Some d → (d < n)%nat.
Proof.
  unfold norm_dim. intros H.
  destruct (_ && _) eqn:E; [|done]. injection H as <-.
  apply andb_true_iff in E as [E1 E2].
  apply Z.leb_le in E1. apply Z.ltb_lt in E2. lia.
Qed.

Lemma dt_numel_split (s : list Z) (d : nat) size :
  Forall (λ d, 0 ≤ d) s → s !! d = Some size →
  Z.to_nat (numel s)
  = (Z.to_nat (numel (take d s))
     * (Z.to_nat size * Z.to_nat (numel (drop (S d) s))))%nat.
Proof.
  intros Hs Hd.
  rewrite <- (take_drop_middle s d size Hd) at 1.
  rewrite numel_app. simpl.
  assert (0 ≤ numel (take d s)) by (apply numel_nonneg; by apply Forall_take).
  assert (0 ≤ numel (drop (S d) s))
    by (apply numel_nonneg; by apply Forall_drop).
  assert (0 ≤ size).
  { eapply (proj1 (Forall_lookup _ s) Hs); eauto. }
  rewrite !Z2Nat.inj_mul by nia. done.
Qed.

Lemma dt_cat_unfold (xs : list DataTensor) dim x0 (d : nat) :
  head xs = Some x0 →
  norm_dim (length (dt_shape x0)) dim = Some d →
  forallb (λ x, bool_decide (<[d := 0]> (dt_shape x)
                             = <[d := 0]> (dt_shape x0))) xs = true →
  dt_cat xs dim
  = Ok {| dt_shape :=
            <[d := foldr Z.add 0 ((λ x, default 0 (dt_shape x !! d)) <$> xs)]>
              (dt_shape x0);
          dt_data :=
            mjoin
              (foldr (zip_with app)
                 (replicate (Z.to_nat (numel (take d (dt_shape x0)))) [])
                 ((λ x, list.reshape
                          (replicate
                             (Z.to_nat (numel (take d (dt_shape x0))))
                             (Z.to_nat (default 0%Z (dt_shape x !! d))
                              * Z.to_nat (numel (drop (S d) (dt_shape x0))))%nat)
                          (dt_data x)) <$> xs)) |}.
Proof.
  intros Hhead Hdim Hall. destruct xs as [|x xs]; [done|].
  injection Hhead as ->. unfold dt_cat. rewrite Hdim, Hall. reflexivity.
Qed.

Lemma dt_chunk_cat (x : DataTensor) chunks dim pieces :
  dt_valid x → dt_chunk x chunks dim = Ok pieces →
  dt_cat pieces dim = Ok x.
Proof.
  intros [Hnonneg Hlen]. unfold dt_chunk.
  destruct (norm_dim (length (dt_shape x)) dim) as [d|] eqn:Hdim; [|done].
  destruct (dt_shape x !! d) as [size|] eqn:Hsize; [|done].
  destruct (Z.leb_spec chunks 0) as [|Hchunks]; [done|].
  intros [= <-].
  pose proof (norm_dim_lt _ _ _ Hdim) as Hd.
  assert (0 ≤ size) as Hsize0.
  { eapply (proj1 (Forall_lookup _ (dt_shape x)) Hnonneg); eauto. }
  destruct (chunk_sizes_spec size chunks Hsize0 Hchunks)
    as (Hne & Hpos & Hsum).
  destruct x as [s data]. cbn [dt_shape dt_data] in *.
  set (outer := Z.to_nat (numel (take d s))).
  set (inner := Z.to_nat (numel (drop (S d) s))).
  set (sizes := chunk_sizes size chunks) in *.
  set (pieces := chunk_pieces s d outer inner size data 0 sizes).
  assert (Hdata : length data = (outer * (Z.to_nat size * inner))%nat).
  { rewrite Hlen. by apply dt_numel_split. }
  assert (Hshapes : dt_shape <$> pieces = (λ c, <[d := c]> s) <$> sizes)
    by apply chunk_pieces_shapes.
  assert (Hhead : ∃ c0 p0, head pieces = Some p0 ∧ dt_shape p0 = <[d := c0]> s).
  { subst pieces. destruct sizes as [|c0 sizes']; [done|].
    eexists c0, _. split; reflexivity. }
  destruct Hhead as (c0 & p0 & Hhead & Hs0).
  rewrite (dt_cat_unfold pieces dim p0 d Hhead).
  - rewrite Hs0. rewrite take_insert_ge, drop_insert_lt by lia.
    fold outer inner. f_equal. f_equal.
    + rewrite list_insert_insert_eq.
      unfold pieces. rewrite (chunk_pieces_sizes s d outer inner size data 0 _ Hd).
      rewrite Hsum. by apply list_insert_id.
    + unfold pieces. rewrite chunk_pieces_blocks; try done; try lia.
      destruct (reshape_blocks outer (Z.to_nat size * inner) data Hdata)
        as [Hblen Hball].
      rewrite <- Hblen at 1.
      rewrite foldr_zip_with_app.
      erewrite list_fmap_ext; [rewrite list_fmap_id|].
      * apply join_reshape. rewrite sum_list_replicate. lia.
      * intros i blk Hblk. rewrite join_slices. simpl.
        rewrite drop_0. apply take_ge.
        assert (length blk = (Z.to_nat size * inner)%nat) as ->.
        { eapply (proj1 (Forall_lookup _ _) Hball); eauto. }
        assert (Hnat : sum_list ((λ c, Z.to_nat c * inner)%nat <$> sizes)
                       = (Z.to_nat (foldr Z.add 0%Z sizes) * inner)%nat).
        { clear -Hpos. induction Hpos as [|c cs Hc Hcs IH]; csimpl; [done|].
          rewrite IH.
          assert (0 ≤ foldr Z.add 0 cs)
            by (clear -Hcs; induction Hcs; simpl; lia).
          rewrite Z2Nat.inj_add by lia. lia. }
        rewrite Hnat, Hsum. done.
  - by rewrite Hs0, length_insert.
  - apply forallb_forall. intros y Hy. apply bool_decide_eq_true.
    assert (Hin : dt_shape y ∈ dt_shape <$> pieces)
      by (apply list_elem_of_fmap_2; by apply list_elem_of_In).
    rewrite Hshapes in Hin.
    apply list_elem_of_fmap in Hin as (c & -> & _).
    by rewrite Hs0, !list_insert_insert_eq.
Qed.

Lemma tabulate_valid s f : Forall (λ d, 0 ≤ d) s → dt_valid (tabulate s f).
Proof.
  intros Hs. split; [done|]. unfold tabulate. simpl.
  by rewrite length_fmap, length_seq.
Qed.

Lemma pre_chunk_shape (table timestep pre : DataTensor) batch_size dim :
  dt_valid table → dt_valid timestep → dt_shape table = [6; dim] →
  modulation_pre_chunk table timestep batch_size = Ok pre →
  dt_valid pre ∧ ∃ b d, dt_shape pre = [b; 6; d].
Proof.
  intros [Htable _] [Hts _] Hshape Hrun. unfold modulation_pre_chunk in Hrun.
  apply bind_Ok in Hrun as (table' & Ht & Hrun).
  apply bind_Ok in Hrun as (reshaped & Hr & Hrun).
  cbn [reshape unsqueeze add DataTensor_ops] in *. unfold dt_view in *.
  destruct (infer_size _ _) as [r|] eqn:Hr'; [|done].
  injection Hr as <-.
  rewrite Hshape in Ht.
  change (unsqueeze_shape [6; dim] 0) with (Some [1; 6; dim]) in Ht.
  injection Ht as <-.
  unfold dt_binary in Hrun. cbn [dt_shape] in Hrun.
  destruct (broadcast_shapes [1; 6; dim] r) as [s|] eqn:Hs; [|done].
  injection Hrun as <-. rename Hr' into Hr.
  assert (Hdim : 0 ≤ dim).
  { rewrite Hshape in Htable. by inversion Htable as [|? ? ? [|? ? ? ?]]. }
  (* the shape of the reshaped timestep *)
  unfold infer_size in Hr.
  destruct (existsb _ _) eqn:Hex; [done|].
  cbn -[Z.ltb] in Hex. apply orb_false_elim in Hex as [Hb _].
  apply Z.ltb_ge in Hb.
  assert (0 ≤ numel (dt_shape timestep)) as Hn by by apply numel_nonneg.
  revert Hr. generalize (numel (dt_shape timestep)) Hn. intros n Hn'.
  rewrite !filter_cons, !filter_nil.
  repeat case_decide; try lia; cbn -[Z.ltb Z.eqb Z.mul Z.div Z.modulo];
    try done.
  destruct (_ && _) eqn:Hk; [|done]. intros [= <-].
  apply andb_true_iff in Hk as [Hk _]. apply Z.ltb_lt in Hk.
  assert (0 ≤ n / (batch_size * (6 * 1))) by (apply Z.div_pos; lia).
  revert Hs. csimpl.
  destruct (Z.eqb_spec batch_size (-1)); [lia|].
  set (q := n / _) in *.
  unfold broadcast_shapes. cbn -[Z.eqb].
  destruct (dim =? q) eqn:E1; cbn -[Z.eqb];
    [|destruct (dim =? 1) eqn:E2; cbn -[Z.eqb];
      [|destruct (q =? 1) eqn:E3; cbn -[Z.eqb]; [|done]]];
    (destruct (1 =? batch_size) eqn:E4; cbn -[Z.eqb]; intros [= <-];
     (split; [apply tabulate_valid; repeat constructor; lia|eauto])).
Qed.

(** C8. The tensor that [forward] of a block splits,
    [scale_shift_table[None] + timestep.reshape(batch_size, 6, -1)], is cut
    by [chunk(6, dim=1)] in exactly six pieces of size 1 along that
    dimension, which are the six modulation tensors, and concatenating the
    six along the dimension gives the tensor back, element for element. *)
Theorem modulation_chunks_recombine (table timestep pre : DataTensor)
    (batch_size dim : Z) :
  dt_valid table → dt_valid timestep → dt_shape table = [6; dim] →
  modulation_pre_chunk table timestep batch_size = Ok pre →
  ∃ c1 c2 c3 c4 c5 c6,
    chunk pre 6 1 = Ok [c1; c2; c3; c4; c5; c6]
    ∧ modulation table timestep batch_size = Ok (c1, c2, c3, c4, c5, c6)
    ∧ Forall (λ c, dt_shape c = <[1%nat := 1]> (dt_shape pre))
        [c1; c2; c3; c4; c5; c6]
    ∧ dt_cat [c1; c2; c3; c4; c5; c6] 1 = Ok pre.
Proof.
  intros Htable Hts Hshape Hpre.
  destruct (pre_chunk_shape table timestep pre batch_size dim)
    as (Hvalid & b & d & Hs); try done.
  assert (Hchunk : ∃ c1 c2 c3 c4 c5 c6,
    chunk pre 6 1 = Ok [c1; c2; c3; c4; c5; c6]
    ∧ Forall (λ c, dt_shape c = <[1%nat := 1]> (dt_shape pre))
        [c1; c2; c3; c4; c5; c6]).
  { cbn [chunk DataTensor_ops]. unfold dt_chunk. rewrite Hs.
    change (norm_dim (length [b; 6; d]) 1) with (Some 1%nat).
    cbn [lookup list_lookup].
    change (6 <=? 0) with false. change (chunk_sizes 6 6) with [1; 1; 1; 1; 1; 1].
    cbn [chunk_pieces]. do 6 eexists. split; [reflexivity|].
    repeat constructor. }
  destruct Hchunk as (c1 & c2 & c3 & c4 & c5 & c6 & Hchunk & Hshapes).
  exists c1, c2, c3, c4, c5, c6. split_and!; [done| |done|].
  - unfold modulation. rewrite Hpre. sym_norm. rewrite Hchunk. reflexivity.
  - by apply (dt_chunk_cat pre 6 1).
Qed.

Lemma modulation_chunks_recombine_witness :
  ∃ pre,
    modulation_pre_chunk example_table example_conditioning 2 = Ok pre
    ∧ ∃ c1 c2 c3 c4 c5 c6,
        chunk pre 6 1 = Ok [c1; c2; c3; c4; c5; c6]
        ∧ modulation example_table example_conditioning 2
          = Ok (c1, c2, c3, c4, c5, c6)
        ∧ Forall (λ c, dt_shape c = <[1%nat := 1]> (dt_shape pre))
            [c1; c2; c3; c4; c5; c6]
        ∧ dt_cat [c1; c2; c3; c4; c5; c6] 1 = Ok pre.
Proof.
  eexists. split; [vm_compute; reflexivity|].
  apply (modulation_chunks_recombine example_table example_conditioning _ 2 2).
  - split; [repeat constructor; lia|reflexivity].
  - split; [repeat constructor; lia|reflexivity].
  - reflexivity.
  - vm_compute. reflexivity.
Defined.

(** ** Masks and inputs of [forward] *)

(** X1. [attention_mask] has no part in the result of [forward]: two calls
    that differ only in [attention_mask], both with a mask that the
    conversion to a bias accepts, return the same value or raise the same
    exception. *)
Theorem forward_ignores_attention_mask `{TensorOps T, Layers T}
    env (self : SanaTransformer2DModel T)
    hidden_states encoder_hidden_states timestep encoder_attention_mask
    (mask1 mask2 : option T) return_dict :
  is_Ok (convert_mask mask1 hidden_states) = true →
  is_Ok (convert_mask mask2 hidden_states) = true →
  SanaTransformer2DModel_forward env self hidden_states
    encoder_hidden_states timestep encoder_attention_mask mask1 return_dict
  = SanaTransformer2DModel_forward env self hidden_states
      encoder_hidden_states timestep encoder_attention_mask mask2
      return_dict.
Proof.
  intros H1 H2. unfold SanaTransformer2DModel_forward.
  destruct (convert_mask mask1 hidden_states) as [bias1|]; [|done].
  destruct (convert_mask mask2 hidden_states) as [bias2|]; [|done].
  rewrite !Ok_bind.
  repeat (apply bind_ext; intros;
          repeat match goal with a : (_ * _)%type |- _ => destruct a end).
  reflexivity.
Qed.

Lemma forward_ignores_attention_mask_witness :
  SanaTransformer2DModel_forward grad_env
    (SanaTransformer2DModel_init (example_config 2 (Some 8)))
    example_hidden_states example_encoder_hidden_states example_timestep
    (Some example_encoder_attention_mask) (Some example_attention_mask) true
  = SanaTransformer2DModel_forward grad_env
      (SanaTransformer2DModel_init (example_config 2 (Some 8)))
      example_hidden_states example_encoder_hidden_states example_timestep
      (Some example_encoder_attention_mask) None true.
Proof.
  apply (forward_ignores_attention_mask grad_env
           (SanaTransformer2DModel_init (example_config 2 (Some 8)))
           example_hidden_states example_encoder_hidden_states
           example_timestep (Some example_encoder_attention_mask)
           (Some example_attention_mask) None true); reflexivity.
Defined.

(** X2. A latent that does not have four dimensions makes [forward] raise
    the [ValueError] of the unpacking of its shape, once the masks are
    converted and before any layer is called. *)
Theorem forward_rejects_other_than_four_dimensions `{TensorOps T, Layers T}
    env (self : SanaTransformer2DModel T)
    hidden_states encoder_hidden_states timestep
    encoder_attention_mask attention_mask return_dict :
  length (shape hidden_states) ≠ 4%nat →
  is_Ok (convert_mask attention_mask hidden_states) = true →
  is_Ok (convert_mask encoder_attention_mask hidden_states) = true →
  SanaTransformer2DModel_forward env self hidden_states
    encoder_hidden_states timestep encoder_attention_mask attention_mask
    return_dict
  = Raise (ValueError "unpack").
Proof.
  intros Hlen H1 H2. unfold SanaTransformer2DModel_forward.
  destruct (convert_mask attention_mask hidden_states); [|done].
  destruct (convert_mask encoder_attention_mask hidden_states); [|done].
  rewrite !Ok_bind.
  destruct (shape hidden_states) as [|? [|? [|? [|? [|? ?]]]]];
    simpl in *; done.
Qed.

Lemma forward_rejects_other_than_four_dimensions_witness :
  SanaTransformer2DModel_forward grad_env
    (SanaTransformer2DModel_init (example_config 2 (Some 8)))
    (sym_input "hidden_states" [4; 8; 6]) example_encoder_hidden_states
    example_timestep (Some example_encoder_attention_mask) None true
  = Raise (ValueError "unpack").
Proof.
  apply (forward_rejects_other_than_four_dimensions grad_env
           (SanaTransformer2DModel_init (example_config 2 (Some 8)))
           (sym_input "hidden_states" [4; 8; 6]));
    [simpl; lia|reflexivity|reflexivity].
Defined.

(** X3. Converting a mask is idempotent: a mask that was converted is
    passed through by a second conversion, on symbolic tensors and on
    tensors with data. *)
Theorem convert_mask_idempotent :
  (∀ (mask : option SymTensor) (hs hs' : SymTensor),
     convert_mask mask hs ≫= (λ bias, convert_mask bias hs')
     = convert_mask mask hs)
  ∧ (∀ (mask : option DataTensor) (hs hs' : DataTensor),
       convert_mask mask hs ≫= (λ bias, convert_mask bias hs')
       = convert_mask mask hs).
Proof.
  split.
  - intros [x|] hs hs'; [|reflexivity].
    destruct (Z.eqb_spec (ndim x) 2) as [H2|H2].
    + unfold ndim in H2. cbn [shape SymTensor_ops] in H2.
      destruct (sym_shape x) as [|a [|a' [|a'' s]]] eqn:Hx;
        try (simpl in H2; lia).
      rewrite (convert_mask_sym_2d x hs a a' Hx), Ok_bind.
      by apply convert_mask_other.
    + rewrite (convert_mask_other x hs H2), Ok_bind.
      by apply convert_mask_other.
  - intros [x|] hs hs'; [|reflexivity].
    destruct (Z.eqb_spec (ndim x) 2) as [H2|H2].
    + assert (Hrun : ∃ y, convert_mask (Some x) hs = Ok (Some y)
                          ∧ ndim y ≠ 2).
      { unfold convert_mask. rewrite (proj2 (Z.eqb_eq _ _) H2).
        unfold ndim in H2. cbn [shape DataTensor_ops] in H2.
        destruct (dt_shape x) as [|a [|a' [|a'' s]]] eqn:Hx;
          try (simpl in H2; lia).
        unfold mask_to_bias. cbn [unsqueeze DataTensor_ops].
        cbn [mul_scalar rsub_scalar to_dtype_of DataTensor_ops dt_map
             dt_shape].
        rewrite Hx. eexists. split; [reflexivity|]. done. }
      destruct Hrun as (y & -> & Hy). rewrite Ok_bind.
      by apply convert_mask_other.
    + rewrite (convert_mask_other x hs H2), Ok_bind.
      by apply convert_mask_other.
Qed.

(** ** Sizes that are no multiple of the patch size, captions without a
    token dimension *)

(** X4. [forward] does not ask that [height] and [width] are multiples of
    [patch_size]: for a model that [__init__] builds with positive sizes
    ([config_ok]), on a latent of at least one patch in each direction,
    captions of at least one token and a mask that fits them, it returns,
    and the output has the height and the width of the patches that fit,
    [height - height % patch_size] and [width - width % patch_size]. *)
Theorem forward_crops_to_whole_patches (c : Config) env value interval
    (hs ehs ts : SymTensor) (em am : option SymTensor) rd b h w m :
  config_ok c →
  0 < b → patch_size c ≤ h → patch_size c ≤ w → 0 < m →
  sym_shape hs = [b; in_channels c; h; w] →
  sym_shape ehs = [b; m; caption_channels c] →
  sym_shape ts = [b] →
  encoder_mask_ok b (h / patch_size c * (w / patch_size c)) m em →
  ∃ out,
    SanaTransformer2DModel_forward env
      (with_checkpointing (SanaTransformer2DModel_init c) value interval)
      hs ehs ts em am rd = Ok out
    ∧ sym_shape (sample_of out)
      = [b; py_or (out_channels c) (in_channels c);
         h - h mod patch_size c; w - w mod patch_size c].
Proof.
  intros Hc Hb Hph Hpw Hm Hhs Hehs Hts Hem.
  assert (Hp : 0 < patch_size c) by apply Hc.
  destruct (forward_sym_floor c env value interval hs ehs ts em am rd b h w m
              [b; m])
    as (out & em' & _ & Hrun & Hshape & _); try done.
  { simpl. lia. }
  exists out. split; [done|]. rewrite Hshape.
  pose proof (Z.div_mod h (patch_size c) ltac:(lia)) as Eh.
  pose proof (Z.div_mod w (patch_size c) ltac:(lia)) as Ew.
  replace (h / patch_size c * patch_size c) with (h - h mod patch_size c)
    by lia.
  replace (w / patch_size c * patch_size c) with (w - w mod patch_size c)
    by lia.
  reflexivity.
Qed.

Lemma forward_crops_to_whole_patches_witness :
  ∃ out,
    SanaTransformer2DModel_forward grad_env
      (with_checkpointing
         (SanaTransformer2DModel_init (example_config 2 (Some 8)))
         false None)
      (sym_input "hidden_states" [3; 4; 7; 5]) example_encoder_hidden_states
      example_timestep None None true = Ok out
    ∧ sym_shape (sample_of out) = [3; 3; 6; 4].
Proof.
  apply (forward_crops_to_whole_patches (example_config 2 (Some 8)) grad_env
           false None (sym_input "hidden_states" [3; 4; 7; 5])
           example_encoder_hidden_states example_timestep None None true
           3 7 5 5);
    try reflexivity; try (simpl; lia); try done.
  apply example_config_ok.
Defined.

(** X5. Captions without a token dimension, [batch, caption_channels], are
    taken as one token per item: for a model that [__init__] builds with
    positive sizes ([config_ok]) [forward] returns, the projected captions
    are viewed as [batch, 1, inner_dim], every block calls its
    cross-attention with them and its self-attention without them, and
    these are all the calls of attention layers. *)
Theorem forward_captions_without_tokens (c : Config) env value interval
    (hs ehs ts : SymTensor) (em am : option SymTensor) rd b h w :
  config_ok c →
  0 < b → patch_size c ≤ h → patch_size c ≤ w →
  sym_shape hs = [b; in_channels c; h; w] →
  sym_shape ehs = [b; caption_channels c] →
  sym_shape ts = [b] →
  encoder_mask_ok b (h / patch_size c * (w / patch_size c)) 1 em →
  attention_calls (sym_expr hs) = [] →
  attention_calls (sym_expr ehs) = [] →
  attention_calls (sym_expr ts) = [] →
  attention_calls (sym_opt em) = [] →
  ∃ out em',
    convert_mask em hs = Ok em'
    ∧ SanaTransformer2DModel_forward env
        (with_checkpointing (SanaTransformer2DModel_init c) value interval)
        hs ehs ts em am rd = Ok out
    ∧ infer_size [b; -1; num_attention_heads c * attention_head_dim c]
        (numel [b; num_attention_heads c * attention_head_dim c])
      = Some [b; 1; num_attention_heads c * attention_head_dim c]
    ∧ Forall (mask_routing (caption_expression c b (sym_expr ehs))
                (sym_opt em'))
        (attention_calls (sym_expr (sample_of out)))
    ∧ Forall (block_calls_attention
                (caption_expression c b (sym_expr ehs)) (sym_opt em')
                (sym_expr (sample_of out)))
        (transformer_blocks (@SanaTransformer2DModel_init SymTensor c)).
Proof.
  intros Hc Hb Hph Hpw Hhs Hehs Hts Hem Chs Cehs Cts Cem.
  pose proof Hc as (_ & _ & _ & _ & Hheads & Hhead_dim & _).
  destruct (forward_sym_floor c env value interval hs ehs ts em am rd b h w 1
              [b])
    as (out & em' & Hem' & Hrun & _ & Hcalls & Hblocks); try done.
  exists out, em'. split_and!; [done|done| |by apply Hcalls|done].
  apply (infer_size_captions [b] b 1);
    [done|by apply Z.mul_pos_pos|cbn [numel foldr]; lia].
Qed.

Lemma forward_captions_without_tokens_witness :
  ∃ out em',
    convert_mask None example_hidden_states = Ok em'
    ∧ SanaTransformer2DModel_forward grad_env
        (with_checkpointing
           (SanaTransformer2DModel_init (example_config 2 (Some 8)))
           false None)
        example_hidden_states (sym_input "encoder_hidden_states" [3; 16])
        example_timestep None None true = Ok out
    ∧ infer_size [3; -1; 8] (numel [3; 8]) = Some [3; 1; 8]
    ∧ Forall (mask_routing
                (caption_expression (example_config 2 (Some 8)) 3
                   (Input "encoder_hidden_states"))
                (sym_opt em'))
        (attention_calls (sym_expr (sample_of out)))
    ∧ Forall (block_calls_attention
                (caption_expression (example_config 2 (Some 8)) 3
                   (Input "encoder_hidden_states"))
                (sym_opt em') (sym_expr (sample_of out)))
        (transformer_blocks
           (@SanaTransformer2DModel_init SymTensor
              (example_config 2 (Some 8)))).
Proof.
  apply (forward_captions_without_tokens (example_config 2 (Some 8)) grad_env
           false None example_hidden_states
           (sym_input "encoder_hidden_states" [3; 16])
           example_timestep None None true 3 8 6);
    try reflexivity; try (simpl; lia); try done.
  apply example_config_ok.
Defined.

(** X6. An empty batch is refused: on a latent with no item [forward]
    raises, whatever the number of blocks: in the view of the captions as
    [0, -1, inner_dim] the size to infer is ambiguous. *)
Theorem forward_empty_batch (c : Config) env value interval
    (hs ehs ts : SymTensor) (em am : option SymTensor) rd h w
    (pre : list Z) :
  0 < patch_size c → patch_size c ≤ h → patch_size c ≤ w →
  0 < num_attention_heads c * attention_head_dim c →
  sym_shape hs = [0; in_channels c; h; w] →
  sym_shape ehs = pre ++ [caption_channels c] →
  sym_shape ts = [0] →
  SanaTransformer2DModel_forward env
    (with_checkpointing (SanaTransformer2DModel_init c) value interval)
    hs ehs ts em am rd
  = Raise (RuntimeError "shape").
Proof.
  intros Hp Hph Hpw Hd Hhs Hehs Hts.
  set (d := num_attention_heads c * attention_head_dim c) in *.
  set (p := patch_size c) in *.
  destruct (convert_mask_sym_total am hs) as [am' Ham].
  destruct (convert_mask_sym_total em hs) as [em' Hem'].
  unfold SanaTransformer2DModel_forward.
  rewrite Ham, Hem'. sym_norm.
  cbn [shape SymTensor_ops]. rewrite Hhs. unfold unpack4. sym_norm.
  set (self := with_checkpointing _ _ _).
  change (patch_size (config self)) with p.
  unfold floordiv. rewrite (proj2 (Z.eqb_neq p 0)) by lia. sym_norm.
  rewrite (sym_patch_embed _ _ [0; (h / p) * (w / p); d]).
  2:{ rewrite Hhs. unfold patch_embed_shape.
      cbn [self with_checkpointing SanaTransformer2DModel_init sana_patch_embed
           pe_patch_size pe_in_channels pe_embed_dim].
      fold p. rewrite Z.eqb_refl.
      rewrite (proj2 (Z.ltb_lt 0 p)) by lia.
      rewrite (proj2 (Z.leb_le p h)) by lia.
      rewrite (proj2 (Z.leb_le p w)) by lia.
      reflexivity. }
  sym_norm.
  rewrite (sym_ada_layer_norm_single _ _ _ _ [0; 6 * d] [0; d])
    by (rewrite Hts; reflexivity).
  sym_norm.
  rewrite (sym_text_projection _ _ (pre ++ [d]))
    by (rewrite Hehs; apply linear_shape_last).
  sym_norm. unfold shape_last. cbn [shape SymTensor_ops sym_shape last].
  sym_norm.
  assert (Hview : ∀ n, infer_size [0; -1; d] n = None).
  { intros n. unfold infer_size.
    cbn -[Z.eqb Z.ltb Z.mul Z.div Z.modulo Z.add]. zbool.
    cbn -[Z.eqb Z.ltb Z.mul Z.div Z.modulo Z.add].
    repeat case_decide; try lia.
    cbn -[Z.eqb Z.ltb Z.mul Z.div Z.modulo Z.add]. reflexivity. }
  cbn [reshape SymTensor_ops]. rewrite Hview. reflexivity.
Qed.

Lemma forward_empty_batch_witness :
  SanaTransformer2DModel_forward grad_env
    (with_checkpointing
       (SanaTransformer2DModel_init (example_config 2 (Some 8)))
       false None)
    (sym_input "hidden_states" [0; 4; 8; 6])
    (sym_input "encoder_hidden_states" [0; 5; 16])
    (sym_input "timestep" [0]) None None true
  = Raise (RuntimeError "shape").
Proof.
  apply (forward_empty_batch (example_config 2 (Some 8)) grad_env false None
           (sym_input "hidden_states" [0; 4; 8; 6])
           (sym_input "encoder_hidden_states" [0; 5; 16])
           (sym_input "timestep" [0]) None None true 8 6 [0; 5]);
    try reflexivity; simpl; lia.
Defined.

(** ** The transformer block on its own *)

(** The first step of a block on symbolic tensors and the input of its
    self-attention: the modulation, on a sequence [b, n, d] with a
    conditioning [b, 6 * d]. *)
Ltac block_modulation_steps b n d Hhs Hts :=
  unfold SanaTransformerBlock_forward;
  unfold shape_at; cbn [shape SymTensor_ops]; rewrite Hhs;
  cbn [lookup list_lookup]; sym_norm;
  unfold modulation, modulation_pre_chunk;
  rewrite sym_parameter;
  rewrite (sym_unsqueeze _ _ [1; 6; d]) by reflexivity;
  sym_norm;
  rewrite (sym_reshape _ _ [b; 6; d])
    by (rewrite Hts; by apply infer_size_modulation);
  sym_norm;
  rewrite (sym_add _ _ [b; 6; d]) by apply broadcast_shapes_first;
  sym_norm;
  rewrite (sym_chunk _ _ _
             [[b; 1; d]; [b; 1; d]; [b; 1; d]; [b; 1; d]; [b; 1; d];
              [b; 1; d]]) by apply chunk_shapes_six;
  cbn [imap compose]; sym_norm; unfold unpack6; sym_norm;
  rewrite (sym_layer_norm _ _ [b; n; d])
    by (rewrite Hhs; unfold norm_shape; simpl; by rewrite Z.eqb_refl);
  sym_norm; rewrite sym_radd_scalar; sym_norm;
  rewrite (sym_mul _ _ [b; n; d]) by apply broadcast_shapes_mid_r;
  sym_norm;
  rewrite (sym_add _ _ [b; n; d]) by apply broadcast_shapes_mid_r;
  sym_norm; rewrite sym_to_dtype_of; sym_norm.

(** The self-attention of a block with positive heads, after the
    modulation. *)
Ltac block_self_attention_steps b n d heads head_dim Hhs Hts :=
  block_modulation_steps b n d Hhs Hts;
  rewrite (sym_attention _ _ _ _ [b; n; d])
    by (by apply (attention_shape_self _ b n d heads head_dim));
  sym_norm;
  rewrite (sym_mul _ _ [b; n; d]) by apply broadcast_shapes_mid_l;
  sym_norm;
  rewrite (sym_add _ _ [b; n; d])
    by (rewrite Hhs; apply broadcast_shapes_same);
  sym_norm.

Lemma attention_bias_ok_one_row b n m :
  0 < b → 0 < m → attention_bias_ok b n m [b; 1; m] = true.
Proof. intros Hb Hm. apply (attention_bias_ok_rows b n m [1]); auto. Qed.



(** X8. The conditioning of a block must split in six per item: a
    [timestep] whose number of elements is no multiple of
    [6 * batch_size] makes [forward] of any block raise at its first
    step, the reshape to [batch_size, 6, -1]. *)
Theorem block_forward_timestep_not_six_fold
    (block : SanaTransformerBlock SymTensor) (hs ts : SymTensor)
    (am e em : option SymTensor) b rest hh ww :
  sym_shape hs = b :: rest → 0 < b →
  numel (sym_shape ts) mod (6 * b) ≠ 0 →
  SanaTransformerBlock_forward block hs am e em ts hh ww
  = Raise (RuntimeError "shape").
Proof.
  intros Hhs Hb Hts. unfold SanaTransformerBlock_forward.
  unfold shape_at. cbn [shape SymTensor_ops]. rewrite Hhs.
  cbn [lookup list_lookup]. sym_norm.
  unfold modulation, modulation_pre_chunk.
  assert (Hreshape : reshape ts [b; 6; -1] = Raise (RuntimeError "shape")).
  { cbn [reshape SymTensor_ops]. unfold infer_size.
    cbn -[Z.eqb Z.ltb Z.mul Z.div Z.modulo Z.add]. zbool.
    cbn -[Z.eqb Z.ltb Z.mul Z.div Z.modulo Z.add].
    repeat case_decide; try lia.
    cbn -[Z.eqb Z.ltb Z.mul Z.div Z.modulo Z.add].
    replace (b * (6 * 1)) with (6 * b) by ring.
    rewrite (proj2 (Z.eqb_neq _ 0) Hts), andb_false_r. reflexivity. }
  rewrite sym_parameter.
  rewrite (sym_unsqueeze _ 0 [1; par_rows (blk_scale_shift_table block);
                              par_cols (blk_scale_shift_table block)])
    by reflexivity.
  sym_norm. rewrite Hreshape. reflexivity.
Qed.

Lemma block_forward_timestep_not_six_fold_witness :
  SanaTransformerBlock_forward
    (@SanaTransformerBlock_init SymTensor "block" 8 2 4 0 (Some 2)
       (Some 4) (Some 8) false false (1 # 1000000) true (5 # 2))
    (sym_input "hidden_states" [3; 12; 8]) None
    (Some (sym_input "encoder_hidden_states" [3; 5; 8])) None
    (sym_input "timestep" [3; 8]) 4 3
  = Raise (RuntimeError "shape").
Proof.
  apply (block_forward_timestep_not_six_fold
           (@SanaTransformerBlock_init SymTensor "block" 8 2 4 0 (Some 2)
              (Some 4) (Some 8) false false (1 # 1000000) true (5 # 2))
           (sym_input "hidden_states" [3; 12; 8])
           (sym_input "timestep" [3; 8]) None
           (Some (sym_input "encoder_hidden_states" [3; 5; 8])) None
           3 [12; 8] 4 3); [reflexivity|lia|by vm_compute].
Defined.

(** X9. The grid that a block is given must have as many cells as the
    sequence has tokens.  A block of positive sizes (its dimension, the
    heads of both attention layers and their sizes, the hidden channels of
    its feed-forward block, a [dropout] that is a probability), called with
    [height * width] different from the number of tokens, raises, although
    the modulation and both attention steps accept their inputs: the
    [unflatten] of the feed-forward step fails. *)
Theorem block_forward_grid_mismatch w d heads head_dim dropout cross_heads
    cross_head_dim attention_bias affine eps out_bias ratio
    (hs e ts : SymTensor) (am em : option SymTensor) b n hh ww m :
  0 < b → 0 < n → 0 ≤ hh → 0 ≤ ww → n ≠ hh * ww → 0 < d → 0 < m →
  0 < heads → 0 < head_dim → 0 < cross_heads → 0 < cross_head_dim →
  (0 <= dropout <= 1)%Q →
  0 < GLUMBConv_hidden_channels ratio d →
  sym_shape hs = [b; n; d] →
  sym_shape ts = [b; 6 * d] →
  sym_shape e = [b; m; d] →
  from_option (λ x, sym_shape x = [b; 1; m]) True em →
  SanaTransformerBlock_forward
    (@SanaTransformerBlock_init SymTensor w d heads head_dim dropout
       (Some cross_heads) (Some cross_head_dim) (Some d) attention_bias
       affine eps out_bias ratio)
    hs am (Some e) em ts hh ww = Raise (RuntimeError "shape").
Proof.
  intros Hb Hn0 Hhh Hww Hn Hd Hm Hheads Hhead_dim Hcross Hcross_dim Hdrop
    Hhid Hhs Hts He Hem.
  block_self_attention_steps b n d heads head_dim Hhs Hts.
  unfold getattr. cbn [SanaTransformerBlock_init blk_attn2 blk_norm2].
  sym_norm.
  set (attn2 := {| attn_weights := w +:+ ".attn2" |}).
  rewrite (sym_attention _ _ _ _ [b; n; d]).
  2:{ cbn [sym_shape fmap option_fmap option_map]. rewrite He.
      apply (attention_shape_cross attn2 b n m d d cross_heads
               cross_head_dim); try done.
      destruct em as [x|]; [|done].
      cbn [fmap option_fmap option_map from_option] in *. rewrite Hem.
      by apply attention_bias_ok_one_row. }
  sym_norm.
  rewrite (sym_add _ _ [b; n; d]) by apply broadcast_shapes_same.
  sym_norm.
  rewrite (sym_layer_norm _ _ [b; n; d])
    by (unfold norm_shape; simpl; by rewrite Z.eqb_refl).
  sym_norm. rewrite sym_radd_scalar. sym_norm.
  rewrite (sym_mul _ _ [b; n; d]) by apply broadcast_shapes_mid_r.
  sym_norm.
  rewrite (sym_add _ _ [b; n; d]) by apply broadcast_shapes_mid_r.
  sym_norm.
  assert (Hunflat : unflatten_shape [b; n; d] 1 [hh; ww] = None).
  { unfold unflatten_shape. cbn [length].
    change (norm_dim 3 1) with (Some 1%nat).
    cbn [mbind option_bind lookup list_lookup].
    unfold infer_size.
    cbn -[Z.eqb Z.ltb Z.mul Z.div Z.modulo Z.add]. zbool.
    cbn -[Z.eqb Z.ltb Z.mul Z.div Z.modulo Z.add].
    repeat case_decide; try lia.
    cbn -[Z.eqb Z.ltb Z.mul Z.div Z.modulo Z.add].
    rewrite (proj2 (Z.eqb_neq n (hh * (ww * 1)))) by lia. reflexivity. }
  cbn [unflatten SymTensor_ops sym_shape]. rewrite Hunflat. reflexivity.
Qed.

Lemma block_forward_grid_mismatch_witness :
  SanaTransformerBlock_forward
    (@SanaTransformerBlock_init SymTensor "block" 8 2 4 0 (Some 2)
       (Some 4) (Some 8) false false (1 # 1000000) true (5 # 2))
    (sym_input "hidden_states" [3; 12; 8]) None
    (Some (sym_input "encoder_hidden_states" [3; 5; 8])) None
    (sym_input "timestep" [3; 48]) 4 4
  = Raise (RuntimeError "shape").
Proof.
  apply (block_forward_grid_mismatch "block" 8 2 4 0 2 4 false
           false (1 # 1000000) true (5 # 2)
           (sym_input "hidden_states" [3; 12; 8])
           (sym_input "encoder_hidden_states" [3; 5; 8])
           (sym_input "timestep" [3; 48]) None None 3 12 4 4 5);
    try reflexivity; try lia; done.
Defined.

(** A layer whose heads are not positive, on symbolic tensors. *)
Lemma sym_attention_heads a (x : SymTensor) encoder mask heads dim_head :
  attn_heads a = Some heads → attn_dim_head a = Some dim_head →
  ¬ (0 < heads ∧ 0 < dim_head) →
  attn_processor a ≠ AttnProcessor2_0 →
  attention a x encoder mask = Raise (RuntimeError "shape").
Proof.
  intros Hheads Hdim Hneg Hproc. cbn [attention SymTensor_layers].
  by rewrite (attention_shape_heads a _ _ _ heads dim_head).
Qed.

(** Captions of another number of channels than the cross-attention was
    built for: the block raises at the projection of the keys, or before,
    at its self-attention, when that has no positive heads. *)
Lemma block_forward_caption_channels w d heads head_dim dropout cross_heads
    cross_head_dim cd attention_bias affine eps out_bias ratio
    (hs e ts : SymTensor) (am em : option SymTensor) b n m c hh ww :
  0 < b → c ≠ cd →
  sym_shape hs = [b; n; d] →
  sym_shape ts = [b; 6 * d] →
  sym_shape e = [b; m; c] →
  SanaTransformerBlock_forward
    (@SanaTransformerBlock_init SymTensor w d heads head_dim dropout
       cross_heads cross_head_dim (Some cd) attention_bias affine eps
       out_bias ratio)
    hs am (Some e) em ts hh ww = Raise (RuntimeError "shape").
Proof.
  intros Hb Hc Hhs Hts He.
  destruct (decide (0 < heads ∧ 0 < head_dim)) as [[Hheads Hhead_dim]|Hneg].
  - block_self_attention_steps b n d heads head_dim Hhs Hts.
    unfold getattr. cbn [SanaTransformerBlock_init blk_attn2 blk_norm2].
    sym_norm.
    cbn [attention SymTensor_layers sym_shape fmap option_fmap option_map].
    rewrite He. unfold attention_shape, attention_projections.
    cbn [attn_query_dim attn_cross_attention_dim default from_option].
    rewrite !Z.eqb_refl. unfold id.
    rewrite (proj2 (Z.eqb_neq c cd)) by done.
    reflexivity.
  - block_modulation_steps b n d Hhs Hts.
    by rewrite (sym_attention_heads _ _ _ _ heads head_dim).
Qed.

(** X10. [cross_attention_dim] has to be the inner dimension: [forward]
    projects the captions to [num_attention_heads * attention_head_dim]
    channels, so a model with at least one block whose cross-attention
    was built for another number of channels raises at the first
    cross-attention, on every input that the layers before it accept. *)
Theorem forward_cross_attention_dim_mismatch (c : Config) env value interval
    (hs ehs ts : SymTensor) (em am : option SymTensor) rd b h w m cd :
  0 < b → 0 < patch_size c → patch_size c ≤ h → patch_size c ≤ w →
  0 < num_attention_heads c * attention_head_dim c →
  0 < num_layers c →
  cross_attention_dim c = Some cd →
  cd ≠ num_attention_heads c * attention_head_dim c →
  sym_shape hs = [b; in_channels c; h; w] →
  sym_shape ehs = [b; m; caption_channels c] →
  sym_shape ts = [b] →
  SanaTransformer2DModel_forward env
    (with_checkpointing (SanaTransformer2DModel_init c) value interval)
    hs ehs ts em am rd
  = Raise (RuntimeError "shape").
Proof.
  intros Hb Hp Hph Hpw Hd Hn Hcross Hcd Hhs Hehs Hts.
  set (d := num_attention_heads c * attention_head_dim c) in *.
  set (p := patch_size c) in *.
  destruct (convert_mask_sym_total am hs) as [am' Ham].
  destruct (convert_mask_sym_total em hs) as [em' Hem'].
  unfold SanaTransformer2DModel_forward.
  rewrite Ham, Hem'. sym_norm.
  cbn [shape SymTensor_ops]. rewrite Hhs. unfold unpack4. sym_norm.
  set (self := with_checkpointing _ _ _).
  change (patch_size (config self)) with p.
  unfold floordiv. rewrite (proj2 (Z.eqb_neq p 0)) by lia. sym_norm.
  rewrite (sym_patch_embed _ _ [b; (h / p) * (w / p); d]).
  2:{ rewrite Hhs. unfold patch_embed_shape.
      cbn [self with_checkpointing SanaTransformer2DModel_init sana_patch_embed
           pe_patch_size pe_in_channels pe_embed_dim].
      fold p. rewrite Z.eqb_refl.
      rewrite (proj2 (Z.ltb_lt 0 p)) by lia.
      rewrite (proj2 (Z.leb_le p h)) by lia.
      rewrite (proj2 (Z.leb_le p w)) by lia.
      reflexivity. }
  sym_norm.
  rewrite (sym_ada_layer_norm_single _ _ _ _ [b; 6 * d] [b; d])
    by (rewrite Hts; reflexivity).
  sym_norm.
  rewrite (sym_text_projection _ _ [b; m; d])
    by (rewrite Hehs; apply (linear_shape_last [b; m])).
  sym_norm. unfold shape_last. cbn [shape SymTensor_ops sym_shape last].
  sym_norm.
  rewrite (sym_reshape _ _ [b; m; d]) by (by apply infer_size_encoder).
  sym_norm.
  rewrite (sym_rms_norm _ _ [b; m; d])
    by (unfold norm_shape; simpl; by rewrite Z.eqb_refl).
  sym_norm.
  rewrite forward_blocks_plain.
  cbn [self with_checkpointing SanaTransformer2DModel_init
       transformer_blocks].
  unfold py_range.
  destruct (Z.to_nat (num_layers c)) as [|k] eqn:Hk; [lia|].
  cbn [seq fmap list_fmap for_each]. rewrite Hcross. fold d.
  rewrite (block_forward_caption_channels _ d _ _ _ _ _ cd _ _ _ _ _
             _ _ _ _ _ b (h / p * (w / p)) m d); try done.
Qed.

Lemma forward_cross_attention_dim_mismatch_witness :
  SanaTransformer2DModel_forward grad_env
    (with_checkpointing
       (SanaTransformer2DModel_init (example_config 2 (Some 16)))
       false None)
    example_hidden_states example_encoder_hidden_states example_timestep
    None None true
  = Raise (RuntimeError "shape").
Proof.
  apply (forward_cross_attention_dim_mismatch (example_config 2 (Some 16))
           grad_env false None example_hidden_states
           example_encoder_hidden_states example_timestep None None true
           3 8 6 5 16);
    try reflexivity; try (simpl; lia); done.
Defined.

(** ** Tokens and grid in the feed-forward step *)

Lemma block_forward_feed_forward `{TensorOps T, Layers T}
    (self : SanaTransformerBlock T) (hidden_states : T)
    (attention_mask encoder_hidden_states encoder_attention_mask : option T)
    (timestep : T) (height width : Z) :
  SanaTransformerBlock_forward self hidden_states attention_mask
    encoder_hidden_states encoder_attention_mask timestep height width
  = batch_size ← shape_at hidden_states 0;
    '(shift_msa, scale_msa, gate_msa, shift_mlp, scale_mlp, gate_mlp) ←
      modulation (parameter (blk_scale_shift_table self)) timestep batch_size;
    norm_hidden_states ← layer_norm (blk_norm1 self) hidden_states;
    scaled ← mul norm_hidden_states (radd_scalar 1 scale_msa);
    norm_hidden_states ← add scaled shift_msa;
    let norm_hidden_states := to_dtype_of norm_hidden_states hidden_states in
    attn_output ← attention (blk_attn1 self) norm_hidden_states None None;
    gated ← mul gate_msa attn_output;
    hidden_states ← add hidden_states gated;
    attn2 ← getattr "attn2" (blk_attn2 self);
    hidden_states ←
      match attn2 with
      | Some attn2 =>
          attn_output ← attention attn2 hidden_states
                          encoder_hidden_states encoder_attention_mask;
          add attn_output hidden_states
      | None => Ok hidden_states
      end;
    norm2 ← getattr "norm2" (blk_norm2 self);
    norm_hidden_states ← layer_norm norm2 hidden_states;
    scaled ← mul norm_hidden_states (radd_scalar 1 scale_mlp);
    norm_hidden_states ← add scaled shift_mlp;
    grid ← tokens_to_grid norm_hidden_states height width;
    ff_output ← GLUMBConv_forward (blk_ff self) grid;
    ff_output ← grid_to_tokens ff_output;
    gated ← mul gate_mlp ff_output;
    hidden_states ← add hidden_states gated;
    Ok hidden_states.
Proof.
  unfold SanaTransformerBlock_forward, tokens_to_grid, grid_to_tokens.
  repeat (apply bind_ext; intros;
          repeat match goal with a : (_ * _)%type |- _ => destruct a end).
  destruct (unflatten _ 1 _) as [unflat|]; [|reflexivity]. rewrite !Ok_bind.
  apply bind_ext. intros grid. apply bind_ext. intros ff_output.
  destruct (flatten ff_output 2 3) as [flat|]; reflexivity.
Qed.

(** X11. Between sequence and grid in the feed-forward step: token
    [i * width + j] of the sequence becomes the pixel in row [i] and
    column [j] of the grid, channels first, and flattening the grid gives
    the sequence back, element for element. *)
Theorem tokens_grid_round_trip (x : DataTensor) (b hh ww d : Z) :
  0 < b → 0 < hh → 0 < ww → 0 < d →
  dt_shape x = [b; hh * ww; d] →
  ∃ grid back,
    tokens_to_grid x hh ww = Ok grid
    ∧ dt_shape grid = [b; d; hh; ww]
    ∧ (∀ n ch i j, 0 ≤ n < b → 0 ≤ ch < d → 0 ≤ i < hh → 0 ≤ j < ww →
         dt_get grid [n; ch; i; j] = dt_get x [n; i * ww + j; ch])
    ∧ grid_to_tokens grid = Ok back
    ∧ dt_shape back = dt_shape x
    ∧ ∀ n t ch, 0 ≤ n < b → 0 ≤ t < hh * ww → 0 ≤ ch < d →
        dt_get back [n; t; ch] = dt_get x [n; t; ch].
Proof.
  intros Hb Hhh Hww Hd Hs. unfold tokens_to_grid, grid_to_tokens.
  cbn [unflatten flatten permute DataTensor_ops]. rewrite Hs.
  assert (Hunflat : unflatten_shape [b; hh * ww; d] 1 [hh; ww]
                    = Some [b; hh; ww; d]).
  { unfold unflatten_shape. cbn [length].
    change (norm_dim 3 1) with (Some 1%nat).
    cbn [mbind option_bind lookup list_lookup].
    rewrite infer_size_grid by done. reflexivity. }
  rewrite Hunflat. unfold dt_view. sym_norm.
  unfold dt_permute at 1. cbn [dt_shape].
  change (permute_shape [b; hh; ww; d] [0; 3; 1; 2])
    with (Some [b; d; hh; ww]).
  change (mapM (norm_dim (length [b; hh; ww; d])) [0; 3; 1; 2])
    with (Some [0; 3; 1; 2]%nat).
  sym_norm. sym_norm. set (f := λ idx : list Z, dt_get _ _).
  assert (Hf : ∀ n ch i j,
            f [n; ch; i; j] = dt_get x [n; i * ww + j; ch]).
  { intros n ch i j. subst f. cbv beta.
    unfold dt_get. cbn [dt_shape dt_data]. rewrite Hs.
    replace (ravel [b; hh * ww; d] [n; i * ww + j; ch])
      with (ravel [b; hh; ww; d] [n; i; j; ch]); [reflexivity|].
    cbn [ravel numel foldr]. ring. }
  assert (Hflat : flatten_shape [b; d; hh; ww] 2 3 = Some [b; d; hh * ww]).
  { unfold flatten_shape. simpl. by rewrite Z.mul_1_r. }
  exists (tabulate [b; d; hh; ww] f).
  cbn [tabulate dt_shape]. rewrite Hflat. sym_norm.
  unfold dt_permute. cbn [dt_shape].
  change (permute_shape [b; d; hh * ww] [0; 2; 1])
    with (Some [b; hh * ww; d]).
  change (mapM (norm_dim (length [b; d; hh * ww])) [0; 2; 1])
    with (Some [0; 2; 1]%nat).
  sym_norm. sym_norm. set (g := λ idx : list Z, dt_get _ _).
  exists (tabulate [b; hh * ww; d] g).
  split; [reflexivity|]. split; [reflexivity|].
  split.
  { intros n ch i j Hn Hch Hi Hj.
    change (dt_get (tabulate [b; d; hh; ww] f) [n; ch; i; j]
            = dt_get x [n; i * ww + j; ch]).
    rewrite dt_get_tabulate by (repeat constructor; lia). apply Hf. }
  split; [reflexivity|]. split; [reflexivity|].
  intros n t ch Hn Ht Hch.
  rewrite dt_get_tabulate by (repeat constructor; lia).
  subst g. cbv beta.
  transitivity (dt_get (tabulate [b; d; hh; ww] f)
                  [n; ch; t / ww; t mod ww]).
  { unfold dt_get. cbn [dt_shape dt_data tabulate].
    match goal with
    | |- context [ravel [b; d; hh * ww] ?l] => change l with [n; ch; t]
    end.
    replace (ravel [b; d; hh * ww] [n; ch; t])
      with (ravel [b; d; hh; ww] [n; ch; t / ww; t mod ww]); [done|].
    cbn [ravel numel foldr].
    pose proof (Z.div_mod t ww ltac:(lia)). nia. }
  assert (0 ≤ t / ww < hh).
  { split; [apply Z.div_pos; lia|].
    apply Z.div_lt_upper_bound; lia. }
  pose proof (Z.mod_pos_bound t ww ltac:(lia)).
  rewrite dt_get_tabulate by (repeat constructor; lia).
  rewrite Hf. do 3 f_equal.
  pose proof (Z.div_mod t ww ltac:(lia)). lia.
Qed.

Lemma tokens_grid_round_trip_witness :
  let x := example_sequence in
  ∃ grid back,
    tokens_to_grid x 3 2 = Ok grid
    ∧ dt_shape grid = [2; 2; 3; 2]
    ∧ (∀ n ch i j, 0 ≤ n < 2 → 0 ≤ ch < 2 → 0 ≤ i < 3 → 0 ≤ j < 2 →
         dt_get grid [n; ch; i; j] = dt_get x [n; i * 2 + j; ch])
    ∧ grid_to_tokens grid = Ok back
    ∧ dt_shape back = dt_shape x
    ∧ ∀ n t ch, 0 ≤ n < 2 → 0 ≤ t < 3 * 2 → 0 ≤ ch < 2 →
        dt_get back [n; t; ch] = dt_get x [n; t; ch].
Proof.
  apply (tokens_grid_round_trip example_sequence 2 3 2 2);
    [lia..|reflexivity].
Defined.

(** ** The values of the modulation tensors *)

Lemma slice_blocks_lookup (outer block off len : nat) (data : list Q)
    (o t : nat) :
  length data = (outer * block)%nat → (o < outer)%nat → (t < len)%nat →
  (off + len ≤ block)%nat →
  slice_blocks outer block off len data !! (o * len + t)%nat
  = data !! (o * block + off + t)%nat.
Proof.
  unfold slice_blocks. revert data o.
  induction outer as [|outer IH]; intros data o Hdata Ho Ht Hoff; [lia|].
  cbn [replicate list.reshape fmap list_fmap mjoin list_join].
  assert (Hpiece : length (take len (drop off (take block data))) = len).
  { rewrite length_take, length_drop, length_take. lia. }
  destruct o as [|o].
  - rewrite lookup_app_l by (rewrite Hpiece; lia).
    rewrite lookup_take_lt by lia.
    rewrite lookup_drop, lookup_take_lt by lia. f_equal. 
  - rewrite lookup_app_r by (rewrite Hpiece; lia).
    rewrite Hpiece.
    replace (S o * len + t - len)%nat with (o * len + t)%nat by lia.
    rewrite IH; [|rewrite length_drop; lia|lia|done|done].
    rewrite lookup_drop. f_equal. lia.
Qed.

Lemma chunk_pieces_rows_lookup (b c d : Z) (data : list Q) off sizes
    (k : nat) piece :
  Forall (λ s, s = 1) sizes →
  chunk_pieces [b; c; d] 1 (Z.to_nat b) (Z.to_nat d) c data off sizes !! k
  = Some piece →
  piece = {| dt_shape := [b; 1; d];
             dt_data := slice_blocks (Z.to_nat b) (Z.to_nat c * Z.to_nat d)
                          (Z.to_nat (off + Z.of_nat k) * Z.to_nat d)
                          (Z.to_nat 1 * Z.to_nat d) data |}.
Proof.
  intros Hsizes. revert off k.
  induction Hsizes as [|s sizes -> _ IH]; intros off k Hk; [done|].
  destruct k as [|k]; cbn [chunk_pieces lookup list_lookup] in Hk.
  - injection Hk as <-. by rewrite Z.add_0_r.
  - apply IH in Hk. rewrite Hk. do 4 f_equal. lia.
Qed.

(** The pieces of [chunk(c, dim=1)] on a tensor [b, c, d]: piece [k] holds
    the elements at index [k] of the dimension. *)
Lemma dt_chunk_rows (x : DataTensor) (b c d : Z) sizes pieces :
  0 < b → 0 < c → 0 < d →
  dt_shape x = [b; c; d] →
  length (dt_data x) = Z.to_nat (b * c * d) →
  chunk_sizes c c = sizes → Forall (λ s, s = 1) sizes →
  dt_chunk x c 1 = Ok pieces →
  length pieces = length sizes
  ∧ ∀ (k : nat) piece, pieces !! k = Some piece →
      Z.of_nat k < c →
      dt_shape piece = [b; 1; d]
      ∧ ∀ n j, 0 ≤ n < b → 0 ≤ j < d →
          dt_get piece [n; 0; j] = dt_get x [n; Z.of_nat k; j].
Proof.
  intros Hb Hc Hd Hs Hlen Hsizes Hone. unfold dt_chunk. rewrite Hs.
  change (norm_dim (length [b; c; d]) 1) with (Some 1%nat).
  cbn [lookup list_lookup]. rewrite (proj2 (Z.leb_gt c 0)) by lia.
  rewrite Hsizes.
  replace (numel (take 1 [b; c; d])) with b by (simpl; lia).
  replace (numel (drop 2 [b; c; d])) with d by (simpl; lia).
  intros [= <-]. split.
  { rewrite <- (length_fmap dt_shape), chunk_pieces_shapes.
    by rewrite length_fmap. }
  intros k piece Hk Hkc.
  apply chunk_pieces_rows_lookup in Hk; [|done]. subst piece.
  split; [reflexivity|]. intros n j Hn Hj.
  unfold dt_get. cbn [dt_shape dt_data]. rewrite Hs.
  cbn [ravel numel foldr].
  replace (Z.to_nat (n * (1 * (d * 1)) + (0 * (d * 1) + (j * 1 + 0))))
    with (Z.to_nat n * (Z.to_nat 1 * Z.to_nat d) + Z.to_nat j)%nat
    by (rewrite <- !Z2Nat.inj_mul, <- Z2Nat.inj_add by nia; f_equal; ring).
  rewrite slice_blocks_lookup.
  - do 2 f_equal.
    rewrite <- !Z2Nat.inj_mul, <- !Z2Nat.inj_add by nia. f_equal. ring.
  - rewrite Hlen, <- !Z2Nat.inj_mul by lia. f_equal. ring.
  - lia.
  - rewrite <- Z2Nat.inj_mul by lia. apply Z2Nat.inj_lt; nia.
  - rewrite <- !Z2Nat.inj_mul, <- Z2Nat.inj_add by nia.
    apply Z2Nat.inj_le; nia.
Qed.

Lemma broadcast_index_same (s idx : list Z) :
  in_bounds s idx → broadcast_index s idx = idx.
Proof.
  intros Hidx. unfold broadcast_index.
  rewrite (Forall2_length _ _ _ Hidx), Nat.sub_diag, drop_0.
  induction Hidx as [|d i s idx Hi _ IH]; [done|].
  cbn [zip_with]. rewrite IH. f_equal.
  destruct (Z.eqb_spec d 1); [lia|done].
Qed.

(** X12. The six modulation tensors, element by element: tensor [k] of
    [shift_msa, scale_msa, gate_msa, shift_mlp, scale_mlp, gate_mlp] has
    the shape [batch, 1, dim] and holds, for item [n] and channel [j], row
    [k] of the table plus element [k * dim + j] of the conditioning of the
    item. *)
Theorem modulation_values (table timestep : DataTensor) (b d : Z) :
  0 < b → 0 < d →
  dt_shape table = [6; d] → dt_shape timestep = [b; 6 * d] →
  ∃ c0 c1 c2 c3 c4 c5,
    modulation table timestep b = Ok (c0, c1, c2, c3, c4, c5)
    ∧ ∀ (k : nat) piece, [c0; c1; c2; c3; c4; c5] !! k = Some piece →
        dt_shape piece = [b; 1; d]
        ∧ ∀ n j, 0 ≤ n < b → 0 ≤ j < d →
            dt_get piece [n; 0; j]
            = Qplus (dt_get table [Z.of_nat k; j])
                (dt_get timestep [n; Z.of_nat k * d + j]).
Proof.
  intros Hb Hd Htable Hts.
  unfold modulation, modulation_pre_chunk.
  cbn [unsqueeze reshape add chunk DataTensor_ops].
  rewrite Htable, Hts.
  change (unsqueeze_shape [6; d] 0) with (Some [1; 6; d]).
  rewrite infer_size_modulation by done.
  unfold dt_view. sym_norm. unfold dt_binary. cbn [dt_shape].
  rewrite broadcast_shapes_first. sym_norm.
  set (f := λ idx : list Z, (_ + _)%Q).
  set (pre := tabulate [b; 6; d] f).
  assert (Hchunk : ∃ c0 c1 c2 c3 c4 c5,
            dt_chunk pre 6 1 = Ok [c0; c1; c2; c3; c4; c5]).
  { unfold dt_chunk, pre. cbn [tabulate dt_shape dt_data].
    change (norm_dim (length [b; 6; d]) 1) with (Some 1%nat).
    cbn [lookup list_lookup]. change (6 <=? 0) with false.
    change (chunk_sizes 6 6) with [1; 1; 1; 1; 1; 1].
    cbn [chunk_pieces]. by do 6 eexists. }
  destruct Hchunk as (c0 & c1 & c2 & c3 & c4 & c5 & Hchunk).
  exists c0, c1, c2, c3, c4, c5. rewrite Hchunk. split; [reflexivity|].
  intros k piece Hk.
  assert (Hk6 : (k < 6)%nat).
  { apply lookup_lt_Some in Hk. simpl in Hk. lia. }
  destruct (dt_chunk_rows pre b 6 d [1; 1; 1; 1; 1; 1]
              [c0; c1; c2; c3; c4; c5]) as [_ Hrows]; try done; try lia.
  { unfold pre, tabulate. cbn [dt_data].
    rewrite length_fmap, length_seq. f_equal. simpl. lia. }
  { repeat constructor. }
  destruct (Hrows k piece Hk) as [Hshape Hget]; [lia|].
  split; [done|]. intros n j Hn Hj.
  rewrite Hget by done. unfold pre.
  rewrite dt_get_tabulate by (repeat constructor; lia).
  unfold f. cbn [dt_shape].
  rewrite (broadcast_index_same [b; 6; d]) by (repeat constructor; lia).
  f_equal.
  - unfold dt_get, broadcast_index. cbn [dt_shape dt_data length].
    rewrite Htable. cbn [Nat.sub drop zip_with ravel numel foldr].
    change (1 =? 1) with true. change (6 =? 1) with false. cbv iota.
    do 3 f_equal.
    destruct (Z.eqb_spec d 1); [|ring]. replace j with 0 by lia. ring.
  - unfold dt_get. cbn [dt_shape dt_data]. rewrite Hts.
    cbn [ravel numel foldr]. do 3 f_equal. ring.
Qed.

Lemma modulation_values_witness :
  ∃ c0 c1 c2 c3 c4 c5,
    modulation example_table example_conditioning 2
    = Ok (c0, c1, c2, c3, c4, c5)
    ∧ ∀ (k : nat) piece, [c0; c1; c2; c3; c4; c5] !! k = Some piece →
        dt_shape piece = [2; 1; 2]
        ∧ ∀ n j, 0 ≤ n < 2 → 0 ≤ j < 2 →
            dt_get piece [n; 0; j]
            = Qplus (dt_get example_table [Z.of_nat k; j])
                (dt_get example_conditioning [n; Z.of_nat k * 2 + j]).
Proof.
  apply (modulation_values example_table example_conditioning 2 2);
    [lia|lia|reflexivity|reflexivity].
Defined.

Lemma forward_output_stage_modulation `{TensorOps T, Layers T}
    (self : SanaTransformer2DModel T) (hidden_states embedded_timestep : T)
    (batch_size post_patch_height post_patch_width : Z) :
  forward_output_stage self hidden_states embedded_timestep batch_size
    post_patch_height post_patch_width
  = '(shift, scale) ←
      output_modulation (parameter (sana_scale_shift_table self))
        embedded_timestep;
    hidden_states ← layer_norm (sana_norm_out self) hidden_states;
    scaled ← mul hidden_states (radd_scalar 1 scale);
    hidden_states ← add scaled shift;
    hidden_states ← linear (sana_proj_out self) hidden_states;
    unpatchify hidden_states batch_size post_patch_height post_patch_width
      (patch_size (config self)).
Proof.
  unfold forward_output_stage, output_modulation.
  destruct (unsqueeze (parameter _) 0) as [table|]; [|reflexivity].
  rewrite !Ok_bind.
  destruct (unsqueeze embedded_timestep 1) as [embedded|]; [|reflexivity].
  rewrite !Ok_bind.
  destruct (add table embedded) as [pre|]; [|reflexivity].
  rewrite !Ok_bind. reflexivity.
Qed.

(** X13. The modulation of the output stage, element by element: [shift]
    is row 0 and [scale] row 1 of the table, each plus the embedded
    timestep of the item, both of shape [batch, 1, dim]. *)
Theorem output_modulation_values (table embedded : DataTensor) (b d : Z) :
  0 < b → 0 < d →
  dt_shape table = [2; d] → dt_shape embedded = [b; d] →
  ∃ shift scale,
    output_modulation table embedded = Ok (shift, scale)
    ∧ dt_shape shift = [b; 1; d] ∧ dt_shape scale = [b; 1; d]
    ∧ ∀ n j, 0 ≤ n < b → 0 ≤ j < d →
        dt_get shift [n; 0; j]
        = Qplus (dt_get table [0; j]) (dt_get embedded [n; j])
        ∧ dt_get scale [n; 0; j]
          = Qplus (dt_get table [1; j]) (dt_get embedded [n; j]).
Proof.
  intros Hb Hd Htable Hemb.
  unfold output_modulation.
  cbn [unsqueeze add chunk DataTensor_ops].
  rewrite Htable, Hemb.
  change (unsqueeze_shape [2; d] 0) with (Some [1; 2; d]).
  change (unsqueeze_shape [b; d] 1) with (Some [b; 1; d]).
  unfold dt_view. sym_norm. unfold dt_binary. cbn [dt_shape].
  rewrite broadcast_shapes_table. sym_norm.
  set (f := λ idx : list Z, (_ + _)%Q).
  set (pre := tabulate [b; 2; d] f).
  assert (Hchunk : ∃ c0 c1, dt_chunk pre 2 1 = Ok [c0; c1]).
  { unfold dt_chunk, pre. cbn [tabulate dt_shape dt_data].
    change (norm_dim (length [b; 2; d]) 1) with (Some 1%nat).
    cbn [lookup list_lookup]. change (2 <=? 0) with false.
    change (chunk_sizes 2 2) with [1; 1].
    cbn [chunk_pieces]. by do 2 eexists. }
  destruct Hchunk as (shift & scale & Hchunk).
  exists shift, scale. rewrite Hchunk. split; [reflexivity|].
  destruct (dt_chunk_rows pre b 2 d [1; 1] [shift; scale])
    as [_ Hrows]; try done; try lia.
  { unfold pre, tabulate. cbn [dt_data].
    rewrite length_fmap, length_seq. f_equal. simpl. lia. }
  { repeat constructor. }
  destruct (Hrows 0%nat shift eq_refl) as [Hshape0 Hget0]; [lia|].
  destruct (Hrows 1%nat scale eq_refl) as [Hshape1 Hget1]; [lia|].
  split_and!; [done|done|]. intros n j Hn Hj.
  assert (Hvalue : ∀ k, 0 ≤ k < 2 →
            dt_get pre [n; k; j]
            = Qplus (dt_get table [k; j]) (dt_get embedded [n; j])).
  { intros k Hk. unfold pre.
    rewrite dt_get_tabulate by (repeat constructor; lia).
    unfold f. cbn [dt_shape]. f_equal.
    - unfold dt_get, broadcast_index. cbn [dt_shape dt_data length].
      rewrite Htable. cbn [Nat.sub drop zip_with ravel numel foldr].
      change (1 =? 1) with true. change (2 =? 1) with false. cbv iota.
      do 3 f_equal.
      destruct (Z.eqb_spec d 1); [|ring]. replace j with 0 by lia. ring.
    - unfold dt_get, broadcast_index. cbn [dt_shape dt_data length].
      rewrite Hemb. cbn [Nat.sub drop zip_with ravel numel foldr].
      change (1 =? 1) with true. cbv iota.
      do 3 f_equal.
      destruct (Z.eqb_spec b 1), (Z.eqb_spec d 1);
        try replace n with 0 by lia; try replace j with 0 by lia; ring. }
  rewrite Hget0, Hget1 by done. split; by apply Hvalue.
Qed.

Lemma output_modulation_values_witness :
  ∃ shift scale,
    output_modulation example_output_table example_embedded_timestep
    = Ok (shift, scale)
    ∧ dt_shape shift = [4; 1; 3] ∧ dt_shape scale = [4; 1; 3]
    ∧ ∀ n j, 0 ≤ n < 4 → 0 ≤ j < 3 →
        dt_get shift [n; 0; j]
        = Qplus (dt_get example_output_table [0; j])
            (dt_get example_embedded_timestep [n; j])
        ∧ dt_get scale [n; 0; j]
          = Qplus (dt_get example_output_table [1; j])
              (dt_get example_embedded_timestep [n; j]).
Proof.
  apply (output_modulation_values example_output_table
           example_embedded_timestep 4 3);
    [lia|lia|reflexivity|reflexivity].
Defined.

(** ** The feed-forward block at its edges *)

Lemma GLUMBConv_forward_residual `{TensorOps T, Layers T}
    w cin cout ratio norm_type (x : T) :
  GLUMBConv_forward (GLUMBConv_init w cin cout ratio norm_type true) x
  = GLUMBConv_forward (GLUMBConv_init w cin cout ratio norm_type false) x
    ≫= λ y, add y x.
Proof.
  unfold GLUMBConv_forward.
  cbn [GLUMBConv_init glu_norm_type glu_norm glu_residual_connection
       glu_conv_inverted glu_conv_depth glu_conv_point].
  destruct (conv2d _ x) as [x1|]; [|reflexivity]. rewrite !Ok_bind.
  destruct (conv2d _ (silu x1)) as [x2|]; [|reflexivity]. rewrite !Ok_bind.
  destruct (chunk x2 2 1 ≫= unpack2) as [[value gate]|]; [|reflexivity].
  rewrite !Ok_bind.
  destruct (mul value (silu gate)) as [x3|]; [|reflexivity]. rewrite !Ok_bind.
  destruct (conv2d _ x3) as [x4|]; [|reflexivity]. rewrite !Ok_bind.
  destruct (if decide (norm_type = Some "rms_norm") then _ else _)
    as [x5|]; [|reflexivity].
  rewrite !Ok_bind. by destruct (add x5 x).
Qed.

Lemma broadcast_shapes_channels b x y h w :
  broadcast_shapes [b; x; h; w] [b; y; h; w]
  = if x =? y then Some [b; x; h; w]
    else if x =? 1 then Some [b; y; h; w]
    else if y =? 1 then Some [b; x; h; w]
    else None.
Proof.
  unfold broadcast_shapes. cbn -[Z.eqb]. rewrite !Z.eqb_refl. cbn -[Z.eqb].
  destruct (x =? y); [reflexivity|].
  destruct (x =? 1); [reflexivity|].
  destruct (y =? 1); reflexivity.
Qed.

(** X14. With [residual_connection], [forward] does not compare
    [in_channels] with [out_channels]: the sum with the input is left to
    broadcasting.  On an input of [in_channels] channels the call returns
    exactly when the two counts are equal or one of them is 1, and raises
    at the sum otherwise. *)
Theorem GLUMBConv_residual_channels w cin cout ratio norm_type
    (x : SymTensor) b h w' :
  sym_shape x = [b; cin; h; w'] → 0 < h → 0 < w' →
  0 < py_int (ratio * inject_Z cin)%Q →
  (cin = cout ∨ cin = 1 ∨ cout = 1 →
   ∃ out,
     GLUMBConv_forward (GLUMBConv_init w cin cout ratio norm_type true) x
     = Ok out
     ∧ sym_shape out = [b; if cin =? 1 then cout else cin; h; w'])
  ∧ (cin ≠ cout → cin ≠ 1 → cout ≠ 1 →
     GLUMBConv_forward (GLUMBConv_init w cin cout ratio norm_type true) x
     = Raise (RuntimeError "shape")).
Proof.
  intros Hs Hh Hw Hhid.
  assert (Hhid' : 0 < GLUMBConv_hidden_channels ratio cin)
    by (by apply float_round_pos).
  rewrite GLUMBConv_forward_residual.
  rewrite (GLUMBConv_forward_sym w cin cout ratio norm_type false x b h w')
    by done.
  rewrite Ok_bind. cbn [add SymTensor_ops sym_shape]. rewrite Hs.
  rewrite broadcast_shapes_channels.
  split.
  - intros Hc.
    destruct (Z.eqb_spec cout cin) as [->|Hne].
    + eexists. split; [reflexivity|]. simpl. by destruct (cin =? 1).
    + destruct (Z.eqb_spec cout 1) as [->|Hne1].
      * eexists. split; [reflexivity|]. simpl.
        by destruct (Z.eqb_spec cin 1) as [->|].
      * destruct (Z.eqb_spec cin 1) as [->|Hne2]; [|lia].
        eexists. split; reflexivity.
  - intros H1 H2 H3.
    rewrite (proj2 (Z.eqb_neq cout cin)), (proj2 (Z.eqb_neq cout 1)),
      (proj2 (Z.eqb_neq cin 1)) by lia.
    reflexivity.
Qed.

Lemma GLUMBConv_residual_channels_witness :
  (∃ out,
     GLUMBConv_forward (GLUMBConv_init "ff" 4 1 (5 # 2) None true)
       (sym_input "x" [2; 4; 3; 3]) = Ok out
     ∧ sym_shape out = [2; 4; 3; 3])
  ∧ GLUMBConv_forward (GLUMBConv_init "ff" 4 6 (5 # 2) None true)
      (sym_input "x" [2; 4; 3; 3])
    = Raise (RuntimeError "shape").
Proof.
  split.
  - apply (GLUMBConv_residual_channels "ff" 4 1 (5 # 2) None
             (sym_input "x" [2; 4; 3; 3]) 2 3 3);
      try reflexivity; lia.
  - apply (GLUMBConv_residual_channels "ff" 4 6 (5 # 2) None
             (sym_input "x" [2; 4; 3; 3]) 2 3 3);
      try reflexivity; lia.
Defined.

(** X15. A [norm_type] other than ["rms_norm"] is no normalization: the
    block is built without [norm] and [forward] computes what it computes
    for [norm_type = None], on every input and for every tensor
    backend. *)
Theorem GLUMBConv_other_norm_type_is_none `{TensorOps T, Layers T}
    w cin cout ratio (norm_type : option string) residual (x : T) :
  norm_type ≠ Some "rms_norm" →
  glu_norm (GLUMBConv_init w cin cout ratio norm_type residual) = None
  ∧ GLUMBConv_forward (GLUMBConv_init w cin cout ratio norm_type residual) x
    = GLUMBConv_forward (GLUMBConv_init w cin cout ratio None residual) x.
Proof.
  intros Hn. unfold GLUMBConv_forward.
  cbn [GLUMBConv_init glu_norm_type glu_norm glu_residual_connection
       glu_conv_inverted glu_conv_depth glu_conv_point].
  destruct (decide (norm_type = Some "rms_norm")); [done|].
  destruct (decide (None = Some "rms_norm")); done.
Qed.

Lemma GLUMBConv_other_norm_type_is_none_witness :
  glu_norm (GLUMBConv_init "ff" 4 4 (5 # 2) (Some "layer_norm") true) = None
  ∧ GLUMBConv_forward
      (GLUMBConv_init "ff" 4 4 (5 # 2) (Some "layer_norm") true)
      (sym_input "x" [2; 4; 3; 3])
    = GLUMBConv_forward (GLUMBConv_init "ff" 4 4 (5 # 2) None true)
        (sym_input "x" [2; 4; 3; 3]).
Proof.
  apply (GLUMBConv_other_norm_type_is_none "ff" 4 4 (5 # 2)
           (Some "layer_norm") true (sym_input "x" [2; 4; 3; 3])).
  discriminate.
Defined.

Lemma py_int_bounds (x : Q) :
  (0 <= x)%Q →
  (inject_Z (py_int x) <= x)%Q ∧ (x < inject_Z (py_int x) + 1)%Q.
Proof.
  destruct x as [a b]. unfold py_int, Qle, Qlt. cbn [Qnum Qden inject_Z].
  intros Ha. rewrite Z.mul_1_r in Ha. simpl in Ha.
  rewrite Z.quot_div_nonneg by lia.
  pose proof (Z.div_mod a (Z.pos b) ltac:(lia)) as Hdm.
  pose proof (Z.mod_pos_bound a (Z.pos b) ltac:(lia)) as Hmod.
  unfold Qplus. cbn [Qnum Qden]. split; simpl; nia.
Qed.

Lemma py_int_integral (x : Q) (m : Z) : (x == inject_Z m)%Q → py_int x = m.
Proof.
  destruct x as [a b]. unfold py_int, Qeq. cbn [Qnum Qden inject_Z].
  rewrite Z.mul_1_r. intros ->. apply Z.quot_mul. lia.
Qed.

(** The truncated product of floats against the exact product [x] of the
    two numbers. *)
Lemma float_product_bounds (x : Q) :
  (0 <= x)%Q →
  let hid := py_int (float_round x) in
  0 <= hid
  ∧ (inject_Z (2 * hid) <= 2 * x * (1 + Qpow2 (-53)))%Q
  ∧ (2 * x * (1 - Qpow2 (-53)) - 2 < inject_Z (2 * hid))%Q
  ∧ ∀ m : Z, (x == inject_Z m)%Q → m < 2 ^ 53 → hid = m.
Proof.
  intros Hx hid. subst hid. unfold float_round.
  assert (H53 : 0 < 53) by lia.
  pose proof (round_to_precision_error 53 x) as Herr.
  pose proof (round_to_precision_nonneg 53 H53 x Hx) as Hnn.
  set (y := round_to_precision 53 x) in *.
  rewrite (Qabs_pos x) in Herr by done.
  apply Qabs_Qle_condition in Herr. destruct Herr as [Hlo Hhi].
  destruct (py_int_bounds y Hnn) as [Hle Hlt].
  change (Qpow2 (-53)) with (Qpow2 (- (53))).
  set (eps := Qpow2 (- (53))) in *.
  split_and!.
  - rewrite Zle_Qle. pose proof (Qpow2_pos (-53)). fold eps in H.
    change (inject_Z 0) with 0%Q.
    destruct (Qlt_le_dec (inject_Z (py_int y)) 0) as [Hneg|]; [|done].
    exfalso.
    assert (Hz : py_int y <= -1).
    { assert (py_int y < 0); [|lia]. rewrite Zlt_Qlt. done. }
    rewrite Zle_Qle in Hz. change (inject_Z (-1)) with (-1)%Q in Hz. lra.
  - rewrite inject_Z_mult. change (inject_Z 2) with 2%Q.
    assert (Heq : (2 * x * (1 + eps) == 2 * x + 2 * (x * eps))%Q) by ring.
    rewrite Heq. set (xe := (x * eps)%Q) in *. clearbody xe y. lra.
  - rewrite inject_Z_mult. change (inject_Z 2) with 2%Q.
    assert (Heq : (2 * x * (1 - eps) == 2 * x - 2 * (x * eps))%Q) by ring.
    rewrite Heq. set (xe := (x * eps)%Q) in *. clearbody xe y. lra.
  - intros m Hm Hlt'. subst y.
    assert (0 <= m).
    { rewrite Zle_Qle. change (inject_Z 0) with 0%Q. by rewrite <- Hm. }
    rewrite (round_to_precision_comp 53 x (inject_Z m) Hm).
    apply py_int_integral, round_to_precision_integer; lia.
Qed.

(** X16. The channels of the expansion against the product
    [2 * expand_ratio * in_channels] of the numbers, for a product that is
    not negative.  The code truncates the product of floats, which is
    rounded: the count can be above the product, by no more than one part
    in [2^53] of it; it is short of it by less than 2 and that part; and it
    is the product when [expand_ratio * in_channels] is an integer below
    [2^53]. *)
Theorem GLUMBConv_expansion_bounds w (cin cout : Z) (ratio : Q)
    norm_type residual :
  (0 <= ratio * inject_Z cin)%Q →
  let channels :=
    conv_out_channels
      (glu_conv_inverted
         (GLUMBConv_init w cin cout ratio norm_type residual)) in
  0 <= channels
  ∧ (inject_Z channels
     <= 2 * (ratio * inject_Z cin) * (1 + Qpow2 (-53)))%Q
  ∧ (2 * (ratio * inject_Z cin) * (1 - Qpow2 (-53)) - 2
     < inject_Z channels)%Q
  ∧ ∀ m : Z,
      (ratio * inject_Z cin == inject_Z m)%Q → m < 2 ^ 53 →
      channels = 2 * m.
Proof.
  intros Hpos channels. subst channels.
  cbn [GLUMBConv_init glu_conv_inverted conv_out_channels].
  unfold GLUMBConv_hidden_channels, float_mul.
  destruct (float_product_bounds _ Hpos) as (Hnn & Hle & Hlt & Hint).
  set (hid := py_int (float_round (ratio * inject_Z cin))) in *.
  rewrite (Z.mul_comm hid 2).
  split_and!; [lia|done|done|].
  intros m Hm Hm'. by rewrite (Hint m Hm Hm').
Qed.

Lemma GLUMBConv_expansion_bounds_witness :
  let channels :=
    conv_out_channels
      (glu_conv_inverted (GLUMBConv_init "ff" 3 3 (5 # 2) None false)) in
  0 <= channels
  ∧ (inject_Z channels <= 2 * ((5 # 2) * inject_Z 3) * (1 + Qpow2 (-53)))%Q
  ∧ (2 * ((5 # 2) * inject_Z 3) * (1 - Qpow2 (-53)) - 2
     < inject_Z channels)%Q
  ∧ ∀ m : Z,
      ((5 # 2) * inject_Z 3 == inject_Z m)%Q → m < 2 ^ 53 →
      channels = 2 * m.
Proof.
  apply (GLUMBConv_expansion_bounds "ff" 3 3 (5 # 2) None false).
  by vm_compute.
Defined.

(** ** Which blocks run under checkpointing *)

(** X17. A block runs under [torch.utils.checkpoint] exactly when
    gradients are enabled and the model has [gradient_checkpointing] set:
    without gradients, or on a model as [__init__] leaves it, every block
    runs eagerly, whatever the interval, the timestep and the version of
    torch. *)
Theorem checkpointed_blocks_flag `{TensorOps T} env
    (self : SanaTransformer2DModel T) (timestep : T) :
  checkpointed_blocks env self timestep
  = replicate (length (transformer_blocks self))
      (is_grad_enabled env && gradient_checkpointing self).
Proof.
  unfold checkpointed_blocks.
  induction (transformer_blocks self) as [|block blocks IH]; [done|].
  csimpl. rewrite IH. f_equal. unfold create_block_forward.
  by destruct (is_grad_enabled env && gradient_checkpointing self).
Qed.

(** X18. Checkpointing changes no result: [forward] returns the same value,
    or raises the same exception, whether gradients are enabled or not,
    whatever [gradient_checkpointing] and the interval are set to, for
    every tensor backend. *)
Theorem forward_independent_of_checkpointing `{TensorOps T, Layers T}
    (env1 env2 : TorchEnv) (self : SanaTransformer2DModel T)
    hidden_states encoder_hidden_states timestep
    encoder_attention_mask attention_mask return_dict
    (value1 value2 : bool) (interval1 interval2 : option Z) :
  SanaTransformer2DModel_forward env1
    (with_checkpointing self value1 interval1)
    hidden_states encoder_hidden_states timestep
    encoder_attention_mask attention_mask return_dict
  = SanaTransformer2DModel_forward env2
      (with_checkpointing self value2 interval2)
      hidden_states encoder_hidden_states timestep
      encoder_attention_mask attention_mask return_dict.
Proof.
  unfold SanaTransformer2DModel_forward.
  repeat (apply bind_ext; intros;
          repeat match goal with a : (_ * _)%type |- _ => destruct a end).
  rewrite !forward_blocks_plain. reflexivity.
Qed.

(** ** The processors of a new model, and what the setter leaves *)

Lemma add_layers_size store (layers : list (string * nat)) :
  NoDup layers.*1 →
  size (foldl (add_layer store) ∅ layers) = length layers.
Proof.
  intros Hnd. rewrite <- size_dom, add_layers_dom, dom_empty_L, union_empty_r_L.
  rewrite size_list_to_set by done. by rewrite length_fmap.
Qed.

Lemma block_layers_length cross (l : list nat) :
  length (mjoin (block_layers cross <$> l))
  = ((if cross then 2 else 1) * length l)%nat.
Proof.
  induction l as [|i l IH]; csimpl; [by destruct cross|].
  rewrite length_app, IH. destruct cross; simpl; lia.
Qed.

Lemma block_layers_elem_of cross (l : list nat) i :
  i ∈ l →
  (attn1_key i, (2 * i)%nat) ∈ mjoin (block_layers cross <$> l)
  ∧ (cross = true →
     (attn2_key i, (2 * i + 1)%nat) ∈ mjoin (block_layers cross <$> l)).
Proof.
  intros Hi. split; [|intros ->].
  - apply list_elem_of_join. exists (block_layers cross i).
    split; [apply list_elem_of_here|by apply list_elem_of_fmap_2].
  - apply list_elem_of_join. exists (block_layers true i).
    split; [apply list_elem_of_further, list_elem_of_here
           |by apply list_elem_of_fmap_2].
Qed.

Lemma block_layers_no_cross_keys (l : list nat) i :
  attn2_key i ∉ (mjoin (block_layers false <$> l)).*1.
Proof.
  induction l as [|j l IH]; csimpl; [apply not_elem_of_nil|].
  apply not_elem_of_cons. split; [|done].
  intros Heq. by apply attn_key_inj in Heq as [_ ?].
Qed.

(** X19. The processors of a model as [__init__] builds it:
    [attn_processors] has one entry per block under
    [transformer_blocks.<i>.attn1.processor], a
    [SanaLinearAttnProcessor2_0], and with cross-attention one more under
    [transformer_blocks.<i>.attn2.processor], an [AttnProcessor2_0]; it has
    no other entry, so its size is [num_layers] or twice that. *)
Theorem attn_processors_of_new_model {T} (c : Config) :
  let model := @SanaTransformer2DModel_init T c in
  let processors :=
    attn_processors (SanaTransformer2DModel_module model)
      (SanaTransformer2DModel_processors model) in
  let cross := bool_decide (is_Some (cross_attention_dim c)) in
  size processors
  = ((if cross then 2 else 1) * Z.to_nat (num_layers c))%nat
  ∧ ∀ i : nat, (i < Z.to_nat (num_layers c))%nat →
      processors !! attn1_key i = Some SanaLinearAttnProcessor2_0
      ∧ processors !! attn2_key i
        = if cross then Some AttnProcessor2_0 else None.
Proof.
  intros model processors cross. subst processors.
  rewrite attn_processors_fold.
  pose proof (SanaTransformer2DModel_layers_distinct (T := T) c)
    as [Hkeys _]. cbv zeta in Hkeys. fold model in Hkeys.
  split.
  - rewrite add_layers_size by done. unfold model.
    rewrite SanaTransformer2DModel_attention_layers. fold cross.
    rewrite block_layers_length. unfold py_range. by rewrite length_seq.
  - intros i Hi.
    assert (Hin : i ∈ py_range (num_layers c)).
    { unfold py_range. apply elem_of_seq. lia. }
    assert (Hblock : transformer_blocks model !! i
              = Some (SanaTransformerBlock_init
                        ("transformer_blocks." +:+ pretty i)
                        (num_attention_heads c * attention_head_dim c)
                        (num_attention_heads c) (attention_head_dim c)
                        (dropout c) (num_cross_attention_heads c)
                        (cross_attention_head_dim c) (cross_attention_dim c)
                        (attention_bias c) (norm_elementwise_affine c)
                        (norm_eps c) true (mlp_ratio c))).
    { unfold model. cbn [SanaTransformer2DModel_init transformer_blocks].
      rewrite list_lookup_fmap. unfold py_range.
      by rewrite lookup_seq_lt by lia. }
    destruct (block_layers_elem_of cross (py_range (num_layers c)) i Hin)
      as [H1 H2].
    revert Hkeys H1 H2. unfold model.
    rewrite SanaTransformer2DModel_attention_layers. fold cross model.
    intros Hkeys H1 H2. split.
    + rewrite (add_layers_lookup _ _ _ _ _ Hkeys H1).
      unfold SanaTransformer2DModel_processors.
      replace ((2 * i) `div` 2)%nat with i
        by (apply (Nat.div_unique _ 2 i 0); lia).
      rewrite Hblock.
      replace ((2 * i) `mod` 2)%nat with 0%nat
        by (apply (Nat.mod_unique _ 2 i 0); lia).
      reflexivity.
    + destruct cross eqn:Hcross.
      * rewrite (add_layers_lookup _ _ _ _ _ Hkeys (H2 eq_refl)).
        unfold SanaTransformer2DModel_processors.
        replace ((2 * i + 1) `div` 2)%nat with i
          by (apply (Nat.div_unique _ 2 i 1); lia).
        rewrite Hblock.
        replace ((2 * i + 1) `mod` 2)%nat with 1%nat
          by (apply (Nat.mod_unique _ 2 i 1); lia).
        cbn [Nat.eqb]. cbn [SanaTransformerBlock_init blk_attn2].
        apply bool_decide_eq_true in Hcross as [cd ->]. reflexivity.
      * rewrite add_layers_lookup_other; [apply lookup_empty|].
        apply block_layers_no_cross_keys.
Qed.

(** X20. Writing back what was read changes nothing: [set_attn_processor]
    on the dict that [attn_processors] returns raises nothing, pops every
    entry of the dict and leaves every processor as it was. *)
Theorem set_attn_processor_of_attn_processors {T} (c : Config)
    (store : ProcessorStore) :
  let self :=
    SanaTransformer2DModel_module (@SanaTransformer2DModel_init T c) in
  ∃ store',
    set_attn_processor self store (ProcessorDict (attn_processors self store))
    = (store', ProcessorDict ∅, None)
    ∧ ∀ a, store' a = store a.
Proof.
  intros self.
  destruct (SanaTransformer2DModel_layers_distinct (T := T) c)
    as [Hkeys Hids]. fold self in Hkeys, Hids.
  rewrite set_attn_processor_fold. rewrite Nat.eqb_refl. cbn [negb].
  set (d := attn_processors self store).
  assert (Hdom : dom d = list_to_set (model_attention_layers self).*1).
  { unfold d. rewrite attn_processors_fold, add_layers_dom. set_solver. }
  destruct (set_layers_dict store d (model_attention_layers self))
    as (store' & d' & Hrun & Hdom' & Hin & Hout); [done|done| |].
  { intros k Hk. apply elem_of_dom. rewrite Hdom. set_solver. }
  assert (d' = ∅) as ->.
  { apply dom_empty_inv_L. rewrite Hdom', Hdom. set_solver. }
  exists store'. split; [done|]. intros a.
  destruct (decide (a ∈ (model_attention_layers self).*2)) as [Ha|Ha];
    [|by apply Hout].
  apply list_elem_of_fmap in Ha as ([k a'] & -> & Hl). simpl.
  specialize (Hin k a' Hl). unfold d in Hin.
  rewrite attn_processors_fold in Hin.
  rewrite (add_layers_lookup _ _ _ k a' Hkeys Hl) in Hin. congruence.
Qed.

(** A dict of the right size that lacks the key of a layer, on any module
    tree. *)
Lemma set_attn_processor_missing_key_tree (self : Module)
    (store : ProcessorStore) (d : gmap string AttentionProcessor)
    (before after : list (string * nat)) (k : string) (a : nat) :
  model_attention_layers self = before ++ (k, a) :: after →
  NoDup (model_attention_layers self).*1 →
  NoDup (model_attention_layers self).*2 →
  size d = size (attn_processors self store) →
  (∀ k', k' ∈ before.*1 → is_Some (d !! k')) →
  d !! k = None →
  ∃ store' d',
    set_attn_processor self store (ProcessorDict d)
    = (store', ProcessorDict d', Some (KeyError k))
    ∧ dom d' = dom d ∖ list_to_set before.*1
    ∧ (∀ k' a', (k', a') ∈ before → d !! k' = Some (store' a'))
    ∧ (∀ a', a' ∉ before.*2 → store' a' = store a').
Proof.
  intros Hlayers Hkeys Hids Hsize Hhas Hk.
  rewrite set_attn_processor_fold, Hsize, Nat.eqb_refl. cbn [negb].
  rewrite Hlayers in Hkeys. rewrite Hlayers in Hids.
  rewrite Hlayers, foldl_app.
  rewrite fmap_app in Hkeys. rewrite fmap_app in Hids.
  apply NoDup_app in Hkeys as (Hkeys & _ & _).
  apply NoDup_app in Hids as (Hids & _ & _).
  destruct (set_layers_dict store d before Hkeys Hids Hhas)
    as (store' & d' & Hrun & Hdom & Hin & Hout).
  exists store', d'. rewrite Hrun. split_and!; [|done..].
  cbn [foldl set_layer fst snd].
  assert (d' !! k = None) as ->.
  { apply not_elem_of_dom. rewrite Hdom.
    apply not_elem_of_dom in Hk. set_solver. }
  apply set_layer_raised.
Qed.

(** X21. A dict of the right size that lacks the key of a layer: the
    layers that the traversal meets before that layer have got their
    processors and their entries are popped, the call raises [KeyError]
    with the missing key, and the other layers keep their processors. *)
Theorem set_attn_processor_missing_key {T} (c : Config)
    (store : ProcessorStore) (d : gmap string AttentionProcessor)
    (before after : list (string * nat)) (k : string) (a : nat) :
  let self :=
    SanaTransformer2DModel_module (@SanaTransformer2DModel_init T c) in
  model_attention_layers self = before ++ (k, a) :: after →
  size d = size (attn_processors self store) →
  (∀ k', k' ∈ before.*1 → is_Some (d !! k')) →
  d !! k = None →
  ∃ store' d',
    set_attn_processor self store (ProcessorDict d)
    = (store', ProcessorDict d', Some (KeyError k))
    ∧ dom d' = dom d ∖ list_to_set before.*1
    ∧ (∀ k' a', (k', a') ∈ before → d !! k' = Some (store' a'))
    ∧ (∀ a', a' ∉ before.*2 → store' a' = store a').
Proof.
  intros self Hlayers Hsize Hhas Hk.
  destruct (SanaTransformer2DModel_layers_distinct (T := T) c)
    as [Hkeys Hids].
  by apply (set_attn_processor_missing_key_tree self store d before after
              k a).
Qed.

Lemma set_attn_processor_missing_key_witness :
  ∃ store' d',
    set_attn_processor (example_module 1) (example_processors 1)
      (ProcessorDict example_misnamed_dict)
    = (store', ProcessorDict d',
       Some (KeyError "transformer_blocks.0.attn2.processor"))
    ∧ dom d' = dom example_misnamed_dict ∖ list_to_set [attn1_key 0]
    ∧ (∀ k' a', (k', a') ∈ [(attn1_key 0, 0%nat)] →
         example_misnamed_dict !! k' = Some (store' a'))
    ∧ (∀ a', a' ∉ [0%nat] → store' a' = example_processors 1 a').
Proof.
  apply (set_attn_processor_missing_key (T := SymTensor)
           (example_config 1 (Some 8)) (example_processors 1)
           example_misnamed_dict [(attn1_key 0, 0%nat)] [] (attn2_key 0)
           1%nat).
  - vm_compute. reflexivity.
  - vm_compute. reflexivity.
  - intros k' Hk'. apply list_elem_of_singleton in Hk'. subst k'.
    vm_compute. eauto.
  - vm_compute. reflexivity.
Defined.

(** X22. The dict that was passed is used up: after a call that set the
    processors from a dict with the keys of [attn_processors], the dict is
    empty, and passing it again to a model with at least one attention
    layer raises the error about the number of processors. *)
Theorem set_attn_processor_dict_is_used_up {T} (c : Config)
    (store : ProcessorStore) (d : gmap string AttentionProcessor) :
  let self :=
    SanaTransformer2DModel_module (@SanaTransformer2DModel_init T c) in
  dom d = dom (attn_processors self store) → d ≠ ∅ →
  let '(store', processor', raised) :=
    set_attn_processor self store (ProcessorDict d) in
  raised = None ∧ processor' = ProcessorDict ∅
  ∧ set_attn_processor self store' processor'
    = (store', processor', Some processor_count_mismatch).
Proof.
  intros self Hdom Hne.
  destruct (SanaTransformer2DModel_layers_distinct (T := T) c)
    as [Hkeys Hids]. fold self in Hkeys, Hids.
  pose proof (set_attn_processor_dict_tree self store d Hkeys Hids) as Hset.
  cbv zeta in Hset.
  destruct (set_attn_processor self store (ProcessorDict d))
    as [[store' processor'] raised].
  destruct Hset as (_ & _ & Hrouted).
  destruct (Hrouted Hdom) as (-> & -> & Hread).
  split_and!; [done..|].
  rewrite set_attn_processor_fold, Hread.
  destruct (Nat.eqb_spec (size (∅ : gmap string AttentionProcessor)) (size d))
    as [Heq|_]; [|reflexivity].
  exfalso. apply Hne. apply map_size_empty_inv.
  by rewrite <- Heq, map_size_empty.
Qed.

Lemma set_attn_processor_dict_is_used_up_witness :
  let '(store', processor', raised) :=
    set_attn_processor (example_module 2) (example_processors 2)
      (ProcessorDict example_processor_dict) in
  raised = None ∧ processor' = ProcessorDict ∅
  ∧ set_attn_processor (example_module 2) store' processor'
    = (store', processor', Some processor_count_mismatch).
Proof.
  apply (set_attn_processor_dict_is_used_up (T := SymTensor)
           (example_config 2 (Some 8)) (example_processors 2)
           example_processor_dict).
  - vm_compute. reflexivity.
  - intros Heq. apply (f_equal size) in Heq. vm_compute in Heq. discriminate.
Defined.

Lemma first_missing_key (d : gmap string AttentionProcessor)
    (layers : list (string * nat)) :
  (∀ k, k ∈ layers.*1 → is_Some (d !! k))
  ∨ ∃ before k a after,
      layers = before ++ (k, a) :: after
      ∧ (∀ k', k' ∈ before.*1 → is_Some (d !! k'))
      ∧ d !! k = None.
Proof.
  induction layers as [|[k a] layers IH].
  - left. intros k Hk. by apply elem_of_nil in Hk.
  - destruct (d !! k) as [p|] eqn:Hk.
    + destruct IH as [Hall|(before & k' & a' & after & -> & Hbefore & Hk')].
      * left. intros k' Hk'. apply elem_of_cons in Hk' as [->|Hk']; eauto.
      * right. exists ((k, a) :: before), k', a', after.
        split_and!; [done| |done].
        intros k'' Hk''. apply elem_of_cons in Hk'' as [->|Hk'']; eauto.
    + right. exists [], k, a, layers. split_and!; [done| |done].
      intros k' Hk'. by apply elem_of_nil in Hk'.
Qed.

(** X23. When [set_attn_processor] accepts a dict: on a model as
    [__init__] builds it, the call raises nothing exactly when the keys of
    the dict are the keys of [attn_processors]. *)
Theorem set_attn_processor_accepts_exactly_the_keys {T} (c : Config)
    (store : ProcessorStore) (d : gmap string AttentionProcessor) :
  let self :=
    SanaTransformer2DModel_module (@SanaTransformer2DModel_init T c) in
  (set_attn_processor self store (ProcessorDict d)).2 = None
  ↔ dom d = dom (attn_processors self store).
Proof.
  intros self.
  destruct (SanaTransformer2DModel_layers_distinct (T := T) c)
    as [Hkeys Hids]. fold self in Hkeys, Hids.
  pose proof (set_attn_processor_dict_tree self store d Hkeys Hids) as Hset.
  cbv zeta in Hset.
  assert (Hdom : dom (attn_processors self store)
                 = list_to_set (model_attention_layers self).*1).
  { rewrite attn_processors_fold, add_layers_dom. set_solver. }
  split.
  - intros Hnone.
    destruct (decide (size d = size (attn_processors self store)))
      as [Hsize|Hsize].
    + destruct (first_missing_key d (model_attention_layers self))
        as [Hall|(before & k & a & after & Hl & Hbefore & Hk)].
      * symmetry. apply set_subseteq_size_eq.
        -- rewrite Hdom. intros k Hk. apply elem_of_list_to_set in Hk.
           by apply elem_of_dom, Hall.
        -- rewrite !size_dom. lia.
      * destruct (set_attn_processor_missing_key_tree self store d before
                    after k a Hl Hkeys Hids Hsize Hbefore Hk)
          as (store' & d' & Hrun & _).
        rewrite Hrun in Hnone. done.
    + destruct (set_attn_processor self store (ProcessorDict d))
        as [[store' processor'] raised].
      destruct Hset as (Hmis & _ & _). simpl in Hnone. subst raised.
      pose proof (proj2 Hmis Hsize) as Hraised. discriminate Hraised.
  - intros Hd.
    destruct (set_attn_processor self store (ProcessorDict d))
      as [[store' processor'] raised].
    destruct Hset as (_ & _ & Hrouted). by destruct (Hrouted Hd) as [-> _].
Qed.
